(** * cm-python-client: CSV splitting, upload orchestration and job polling

    A shallow embedding of [cm_python_clients/utils/csv_file_splitter.py]
    and [cm_python_clients/load_data_client.py].

    - A text file is the list of its lines, each line carrying its own
      terminator, as Python's file iteration with [newline=''] hands them
      out.  The development is generic in the type of lines and in
      [byte_len], the length of a line's UTF-8 encoding
      ([len(row.encode('utf-8'))]).
    - Python exceptions are values of [exn]; a call either returns or
      raises ([result]).
    - The collaborators of the client (generated API client, [requests],
      the clock) are a record of test doubles; every call to one of them
      is recorded, with its outcome, in a log. *)

From Stdlib Require Import ZArith List String Ascii Bool Lia DecimalString.
From Stdlib Require DecimalZ DecimalPos Finite.
Import ListNotations.
Open Scope Z_scope.

(** ** Python values shared by both modules *)

Inductive exn : Type :=
| RuntimeError (msg : string)
| FileNotFoundError (msg : string)
| ValueError (msg : string)
| IndexError (msg : string)
| ZeroDivisionError (msg : string)
| TimeoutError (msg : string)
| HTTPError (status : Z)
| ConnectionError (msg : string)
| ApiException (msg : string)
| Exception (msg : string).

Inductive result (A : Type) : Type :=
| Ok (a : A)
| Raise (e : exn).
Arguments Ok {A} a.
Arguments Raise {A} e.

(** [str(n)] for a Python [int]. *)
Definition str (n : Z) : string := NilZero.string_of_int (Z.to_int n).

(** Whether a path ends in the separator. *)
Fixpoint ends_with_sep (s : string) : bool :=
  match s with
  | EmptyString => false
  | String c EmptyString => Ascii.eqb c "/"
  | String _ s' => ends_with_sep s'
  end.

(** [os.path.join(a, b)] on a POSIX system: an absolute [b] replaces [a];
    no separator is added after an empty [a] or one that ends in a
    separator. *)
Definition os_path_join (a b : string) : string :=
  if prefix "/" b then b
  else if (a =? "")%string || ends_with_sep a then (a ++ b)%string
  else (a ++ "/" ++ b)%string.

(** Truthiness of an optional string ([None] and [''] are falsy). *)
Definition truthy_str (s : option string) : bool :=
  match s with
  | Some v => negb (v =? "")%string
  | None => false
  end.

(** A file system as far as the code reads it: the lines of each file. *)
Definition filesystem (line : Type) : Type := string -> option (list line).

Definition total_bytes {line : Type} (byte_len : line -> Z) (ls : list line) : Z :=
  fold_right (fun l acc => byte_len l + acc) 0 ls.

(** ** csv_file_splitter.py *)

Module CSVFileSplitter.

Record t : Type := {
  chunk_size : Z;
  temp_dir : option string
}.

(** [CSVFileSplitter(chunk_size)] *)
Definition __init__ (chunk_size : Z) : t :=
  {| chunk_size := chunk_size; temp_dir := None |}.

(** [__enter__]: [tempfile.mkdtemp] hands out the directory [d]. *)
Definition __enter__ (self : t) (d : string) : t :=
  {| chunk_size := chunk_size self; temp_dir := Some d |}.

(** [_create_temp_file] *)
Definition _create_temp_file (d : string) (part_number : Z) : string :=
  os_path_join d ("part_" ++ str part_number ++ ".csv")%string.

Section WithLines.
Context {line : Type}.
Variable byte_len : line -> Z.

(** A part file at the moment it is yielded.  The file holds what the two
    write sites of [split_file] put into it: what [write(header)] wrote
    (line 66), then what [write(row)] wrote (line 84). *)
Record part : Type := {
  temp_file_path : string;
  part_number : Z;
  header_written : list line;
  rows_written : list line
}.

Definition content (p : part) : list line :=
  header_written p ++ rows_written p.

(** The local variables of [split_file] while the row loop runs, and the
    parts yielded so far. *)
Record loop_state : Type := {
  current_part : Z;
  current_size : Z;
  current_file : string;
  writer_header : list line;
  writer_rows : list line;
  yielded : list part
}.

(** [current_writer.close(); yield current_file, current_part] *)
Definition closed_part (st : loop_state) : part :=
  {| temp_file_path := current_file st;
     part_number := current_part st;
     header_written := writer_header st;
     rows_written := writer_rows st |}.

(** Lines 63-67: the first part file, with the header written to it. *)
Definition first_part (d : string) (header : line) : loop_state :=
  {| current_part := 1;
     current_size := byte_len header;
     current_file := _create_temp_file d 1;
     writer_header := [header];
     writer_rows := [];
     yielded := [] |}.

(** The test of line 75. *)
Definition starts_new_part (self : t) (num_parts : Z) (st : loop_state) (row : line) : bool :=
  (current_size st + byte_len row >? chunk_size self) && (current_part st <? num_parts).

(** Lines 76-82: close and yield the open part, open the next one. *)
Definition next_part (d : string) (header_size : Z) (st : loop_state) : loop_state :=
  {| current_part := current_part st + 1;
     current_size := header_size;
     current_file := _create_temp_file d (current_part st + 1);
     writer_header := [];
     writer_rows := [];
     yielded := yielded st ++ [closed_part st] |}.

(** Lines 84-85. *)
Definition write_row (st : loop_state) (row : line) : loop_state :=
  {| current_part := current_part st;
     current_size := current_size st + byte_len row;
     current_file := current_file st;
     writer_header := writer_header st;
     writer_rows := writer_rows st ++ [row];
     yielded := yielded st |}.

(** One iteration of [for row in f] (lines 70-85). *)
Definition loop_body (self : t) (d : string) (header_size num_parts : Z)
    (st : loop_state) (row : line) : loop_state :=
  write_row
    (if starts_new_part self num_parts st row
     then next_part d header_size st
     else st)
    row.

Definition run_loop (self : t) (d : string) (header_size num_parts : Z)
    (rows : list line) (st : loop_state) : loop_state :=
  fold_left (loop_body self d header_size num_parts) rows st.

(** [split_file], run to exhaustion: the list of the parts it yields, in
    yield order, or the exception it raises. *)
Definition split_file (fs : filesystem line) (self : t) (file_path : string)
    (num_parts : Z) : result (list part) :=
  if negb (truthy_str (temp_dir self)) then
    Raise (RuntimeError "CSVFileSplitter must be used as a context manager")
  else
    match temp_dir self, fs file_path with
    | None, _ => Raise (RuntimeError "CSVFileSplitter must be used as a context manager")
    | Some _, None => Raise (FileNotFoundError file_path)
    | Some _, Some [] => Raise (RuntimeError "generator raised StopIteration")
    | Some d, Some (header :: rows) =>
        let st := run_loop self d (byte_len header) num_parts rows (first_part d header) in
        Ok (yielded st ++ [closed_part st])
    end.

End WithLines.

Arguments part : clear implicits.
Arguments loop_state : clear implicits.

End CSVFileSplitter.


(** ** load_data_client.py *)

Module LoadDataClient.

(** A Python [dict] with string keys and values, and [dict.get]. *)
Definition dict : Type := list (string * string).

Fixpoint dict_get (d : dict) (k : string) : option string :=
  match d with
  | [] => None
  | (k', v) :: d' => if (k' =? k)%string then Some v else dict_get d' k
  end.

(** [l[i]] on a Python list: a negative index counts from the end. *)
Definition list_getitem {A : Type} (l : list A) (i : Z) : result A :=
  let n := Z.of_nat (List.length l) in
  let j := if i <? 0 then i + n else i in
  if (0 <=? j) && (j <? n) then
    match nth_error l (Z.to_nat j) with
    | Some a => Ok a
    | None => Raise (IndexError "list index out of range")
    end
  else Raise (IndexError "list index out of range").

(** The client object: [chunk_size], [target_part_size], [content_type]. *)
Record t : Type := {
  chunk_size : Z;
  target_part_size : Z;
  content_type : string
}.

Definition default_chunk_size : Z := 50 * 1024 * 1024.

(** [LoadDataClient(api_token, host, chunk_size)], the token exchange of
    [BaseClient] left to the transport. *)
Definition __init__ (chunk_size : Z) : t :=
  {| chunk_size := chunk_size;
     target_part_size := 20 * 1024 * 1024;
     content_type := "text/csv; charset=utf-8" |}.

(** *** Models of the generated SDK *)

Record DataUpload200Response : Type := {
  id : string;
  upload_id : string;
  upload_url_encoded : string;
  upload_urls_encoded : list string;
  links : option (list dict)
}.

Definition DataPullRequestCsvOptions : Type := dict.

Record DataPullRequest : Type := {
  dataset : string;
  mode : string;
  pull_type : string;
  upload : option string;
  csvOptions : DataPullRequestCsvOptions
}.

Record DataPullJobRequest : Type := {
  job_type : string;
  projectId : string;
  job_content : DataPullRequest
}.

Record PartETag : Type := {
  eTag : string;
  partNumber : Z
}.

Record DataCompleteMultipartUploadRequest : Type := {
  complete_id : string;
  uploadId : string;
  partETags : list PartETag
}.

Record JobDetailResponse : Type := {
  job_id : string;
  status : string;
  message : option string
}.

(** A [requests] response as far as the client looks at it. *)
Record Response : Type := {
  status_code : Z;
  headers : dict
}.

(** [response.raise_for_status()] *)
Definition raise_for_status (response : Response) : result unit :=
  if (400 <=? status_code response) && (status_code response <? 600)
  then Raise (HTTPError (status_code response))
  else Ok tt.

(** [_get_file_uri_from_response]; the value returned is a Python [str]
    or [None] (a link without [href]). *)
Definition is_self (link : dict) : bool :=
  match dict_get link "rel" with
  | Some r => (r =? "self")%string
  | None => false
  end.

Definition _get_file_uri_from_response (response : DataUpload200Response)
    : result (option string) :=
  match links response with
  | None => Raise (Exception "No links found in response")
  | Some ls =>
      let file_uri :=
        match find is_self ls with
        | Some link => dict_get link "href"
        | None => Some ""%string
        end in
      match file_uri with
      | Some ""%string => Raise (Exception "No file URI found in response")
      | _ => Ok file_uri
      end
  end.

(** [_create_data_pull_job_request] *)
Definition _create_data_pull_job_request (project_id dataset_name mode : string)
    (upload_link : option string) (csv_options : DataPullRequestCsvOptions)
    : DataPullJobRequest :=
  let data_pull_request :=
    {| dataset := dataset_name;
       mode := mode;
       pull_type := "csv";
       upload := upload_link;
       csvOptions := csv_options |} in
  {| job_type := "dataPull";
     projectId := project_id;
     job_content := data_pull_request |}.

Section WithCollaborators.
Context {line : Type}.
Variable byte_len : line -> Z.

(** What is sent in a PUT: the raw file, or a gzip-compressed part. *)
Inductive body : Type :=
| RawFile (ls : list line)
| GzipCompressed (ls : list line).

(** A recorded call to a collaborator, with its outcome. *)
Inductive event : Type :=
| DataUpload (project_id : string) (parts : option Z)
    (out : result DataUpload200Response)
| RequestsPut (url : string) (data : body) (hdrs : dict) (out : result Response)
| CompleteMultipartUpload (project_id cid : string)
    (req : DataCompleteMultipartUploadRequest) (out : result unit)
| SubmitJobExecution (req : DataPullJobRequest) (out : result JobDetailResponse)
| GetJobStatus (jid jtype : string) (out : result JobDetailResponse)
| Sleep (seconds : Z).

(** The test doubles.  Each answers from its arguments and from the calls
    recorded so far, so a double may answer differently on its n-th call.
    The clock counts ticks, [ticks_per_second] to the second; a recorded
    call takes [latency] ticks. *)
Record collaborators : Type := {
  files : filesystem line;
  mkdtemp : string;
  gzip_size : list line -> Z;
  data_upload : list event -> string -> option Z -> result DataUpload200Response;
  requests_put : list event -> string -> body -> dict -> result Response;
  complete_multipart_upload :
    list event -> string -> string -> DataCompleteMultipartUploadRequest -> result unit;
  submit_job_execution : list event -> DataPullJobRequest -> result JobDetailResponse;
  get_job_status : list event -> string -> string -> result JobDetailResponse;
  ticks_per_second : Z;
  latency : list event -> Z
}.

Record world : Type := {
  log : list event;
  now : Z
}.

Variable env : collaborators.

(** *** A state and exception monad; [None] is a loop out of fuel *)

Definition M (A : Type) : Type := world -> option (result A * world).

Definition ret {A : Type} (a : A) : M A := fun w => Some (Ok a, w).

Definition raise {A : Type} (e : exn) : M A := fun w => Some (Raise e, w).

Definition lift {A : Type} (r : result A) : M A := fun w => Some (r, w).

Definition bind {A B : Type} (m : M A) (k : A -> M B) : M B :=
  fun w =>
    match m w with
    | Some (Ok a, w') => k a w'
    | Some (Raise e, w') => Some (Raise e, w')
    | None => None
    end.

Notation "x <- m ;; k" := (bind m (fun x => k))
  (at level 100, m at next level, right associativity).

(** A call to a collaborator: answer, record, let the clock run. *)
Definition call {A : Type} (respond : list event -> result A)
    (record : result A -> event) : M A :=
  fun w =>
    let out := respond (log w) in
    Some (out, {| log := log w ++ [record out];
                  now := now w + Z.max 0 (latency env (log w)) |}).

(** [time.time()], in ticks. *)
Definition time_time : M Z := fun w => Some (Ok (now w), w).

(** [time.sleep(seconds)] *)
Definition time_sleep (seconds : Z) : M unit :=
  fun w =>
    if seconds <? 0 then
      Some (Raise (ValueError "sleep length must be non-negative"), w)
    else
      Some (Ok tt, {| log := log w ++ [Sleep seconds];
                      now := now w + seconds * ticks_per_second env |}).

(** [os.path.exists] and [os.path.getsize] *)
Definition os_path_exists (path : string) : bool :=
  match files env path with Some _ => true | None => false end.

Definition os_path_getsize (path : string) : result Z :=
  match files env path with
  | Some ls => Ok (total_bytes byte_len ls)
  | None => Raise (FileNotFoundError path)
  end.

(** [_submit_data_pull_request] *)
Definition _submit_data_pull_request (job_request : DataPullJobRequest)
    : M JobDetailResponse :=
  call (fun h => submit_job_execution env h job_request)
       (SubmitJobExecution job_request).

(** [_upload_file] *)
Definition _upload_file (self : t) (url csv_file_path : string) : M unit :=
  match files env csv_file_path with
  | None => raise (FileNotFoundError csv_file_path)
  | Some f =>
      file_size <- lift (os_path_getsize csv_file_path) ;;
      let hdrs := [("Content-Type", content_type self);
                   ("Content-Length", str file_size)]%string in
      response <- call (fun h => requests_put env h url (RawFile f) hdrs)
                       (RequestsPut url (RawFile f) hdrs) ;;
      lift (raise_for_status response)
  end.

(** What [_upload_part] does with the response of its PUT. *)
Definition etag_of_response (response : Response) : result string :=
  match raise_for_status response with
  | Raise e => Raise e
  | Ok _ =>
      match dict_get (headers response) "ETag" with
      | Some etag =>
          if (etag =? "")%string
          then Raise (ValueError "No ETag received in response")
          else Ok etag
      | None => Raise (ValueError "No ETag received in response")
      end
  end.

(** [_upload_part]; the part file is read back as the splitter closed it. *)
Definition _upload_part (self : t) (url : string) (file_content : list line)
    : M string :=
  let compressed_size := gzip_size env file_content in
  let hdrs := [("Content-Type", content_type self);
               ("Content-Length", str compressed_size)]%string in
  response <- call (fun h => requests_put env h url (GzipCompressed file_content) hdrs)
                   (RequestsPut url (GzipCompressed file_content) hdrs) ;;
  lift (etag_of_response response).

(** The [for] loop of [_multipart_upload] (lines 195-205) over the parts
    the splitter yields. *)
Fixpoint upload_parts (self : t) (upload_urls : list string)
    (ps : list (CSVFileSplitter.part line)) (uploaded_parts : list PartETag)
    : M (list PartETag) :=
  match ps with
  | [] => ret uploaded_parts
  | p :: ps' =>
      let part_number := CSVFileSplitter.part_number p in
      url <- lift (list_getitem upload_urls (part_number - 1)) ;;
      etag <- _upload_part self url (CSVFileSplitter.content p) ;;
      upload_parts self upload_urls ps'
        (uploaded_parts ++ [{| eTag := etag; partNumber := part_number |}])
  end.

(** [_multipart_upload] *)
Definition _multipart_upload (self : t) (project_id csv_file_path : string)
    (parts : Z) (dataset_name mode : string)
    (csv_options : DataPullRequestCsvOptions) : M JobDetailResponse :=
  upload_response <- call (fun h => data_upload env h project_id (Some parts))
                          (DataUpload project_id (Some parts)) ;;
  let upload_urls := upload_urls_encoded upload_response in
  let file_splitter := CSVFileSplitter.__init__ (chunk_size self) in
  let splitter := CSVFileSplitter.__enter__ file_splitter (mkdtemp env) in
  ps <- lift (CSVFileSplitter.split_file byte_len (files env) splitter
                csv_file_path parts) ;;
  uploaded_parts <- upload_parts self upload_urls ps [] ;;
  let complete_request :=
    {| complete_id := id upload_response;
       uploadId := upload_id upload_response;
       partETags := uploaded_parts |} in
  _ <- call (fun h => complete_multipart_upload env h project_id
                        (id upload_response) complete_request)
            (CompleteMultipartUpload project_id (id upload_response)
               complete_request) ;;
  file_uri <- lift (_get_file_uri_from_response upload_response) ;;
  let job_request :=
    _create_data_pull_job_request project_id dataset_name mode file_uri csv_options in
  _submit_data_pull_request job_request.

(** [_single_part_upload] *)
Definition _single_part_upload (self : t) (project_id csv_file_path : string)
    (dataset_name mode : string) (csv_options : DataPullRequestCsvOptions)
    : M JobDetailResponse :=
  upload_response <- call (fun h => data_upload env h project_id None)
                          (DataUpload project_id None) ;;
  let upload_url := upload_url_encoded upload_response in
  _ <- _upload_file self upload_url csv_file_path ;;
  file_uri <- lift (_get_file_uri_from_response upload_response) ;;
  let job_request :=
    _create_data_pull_job_request project_id dataset_name mode file_uri csv_options in
  _submit_data_pull_request job_request.

(** Truthiness of [timeout: Optional[int]]. *)
Definition truthy_int (n : option Z) : bool :=
  match n with
  | Some v => negb (v =? 0)
  | None => false
  end.

(** [poll_job_status]: [fuel] bounds the iterations of [while True]. *)
Fixpoint poll_loop (fuel : nat) (job : string) (poll_interval : Z)
    (timeout : option Z) (start_time : Z) : M bool :=
  match fuel with
  | O => fun _ => None
  | S fuel' =>
      job_status <- call (fun h => get_job_status env h job "dataPull")
                         (GetJobStatus job "dataPull") ;;
      if (status job_status =? "SUCCEEDED")%string then ret true
      else if (status job_status =? "FAILED")%string then ret false
      else
        t <- time_time ;;
        if truthy_int timeout &&
           (t - start_time >? match timeout with Some v => v | None => 0 end
                              * ticks_per_second env)
        then raise (TimeoutError
               ("Job " ++ job ++ " did not complete within " ++
                str (match timeout with Some v => v | None => 0 end) ++ " seconds"))
        else
          _ <- time_sleep poll_interval ;;
          poll_loop fuel' job poll_interval timeout start_time
  end.

Definition poll_job_status (fuel : nat) (job : string) (poll_interval : Z)
    (timeout : option Z) : M bool :=
  start_time <- time_time ;;
  poll_loop fuel job poll_interval timeout start_time.

(** Lines 85-92 of [upload_data]: the choice of the upload path. *)
Definition choose_upload (self : t) (project_id csv_file_path dataset_name mode : string)
    (csv_options : DataPullRequestCsvOptions) (file_size : Z) : M JobDetailResponse :=
  if file_size <=? chunk_size self then
    _single_part_upload self project_id csv_file_path dataset_name mode csv_options
  else if target_part_size self =? 0 then
    raise (ZeroDivisionError "integer division or modulo by zero")
  else
    let parts := (file_size + target_part_size self - 1) / target_part_size self in
    _multipart_upload self project_id csv_file_path parts dataset_name mode csv_options.

(** Lines 95-100 of [upload_data]: wait for the job if asked to. *)
Definition await_job (fuel : nat) (poll_job : bool) (job_response : JobDetailResponse)
    : M JobDetailResponse :=
  if poll_job then
    success <- poll_job_status fuel (job_id job_response) 5 None ;;
    if negb success
    then raise (Exception ("Job " ++ job_id job_response ++ " failed"))
    else ret job_response
  else ret job_response.

(** [upload_data] *)
Definition upload_data (fuel : nat) (self : t)
    (project_id csv_file_path dataset_name mode : string) (poll_job : bool)
    (csv_options : DataPullRequestCsvOptions) : M JobDetailResponse :=
  if negb (os_path_exists csv_file_path) then
    raise (FileNotFoundError ("CSV file not found: " ++ csv_file_path))
  else if negb (mode =? "full")%string && negb (mode =? "incremental")%string then
    raise (ValueError "Invalid data loading mode. Must be 'full' or 'incremental'.")
  else
    file_size <- lift (os_path_getsize csv_file_path) ;;
    job_response <- choose_upload self project_id csv_file_path dataset_name mode
                      csv_options file_size ;;
    await_job fuel poll_job job_response.

End WithCollaborators.

Arguments body : clear implicits.
Arguments event : clear implicits.
Arguments collaborators : clear implicits.
Arguments world : clear implicits.

End LoadDataClient.


(** ** base_api_client.py *)

Module BaseClient.

(** Names are taken to be ASCII strings, as Python identifiers of the SDK
    are; [str.lower] and [str.capitalize] then act on the letters A-Z and
    a-z only. *)
Definition is_upper (c : ascii) : bool :=
  (65 <=? nat_of_ascii c)%nat && (nat_of_ascii c <=? 90)%nat.

Definition is_lower (c : ascii) : bool :=
  (97 <=? nat_of_ascii c)%nat && (nat_of_ascii c <=? 122)%nat.

Definition is_digit (c : ascii) : bool :=
  (48 <=? nat_of_ascii c)%nat && (nat_of_ascii c <=? 57)%nat.

Definition lower_char (c : ascii) : ascii :=
  if is_upper c then ascii_of_nat (nat_of_ascii c + 32) else c.

Definition upper_char (c : ascii) : ascii :=
  if is_lower c then ascii_of_nat (nat_of_ascii c - 32) else c.

(** [s.lower()] *)
Fixpoint lower (s : string) : string :=
  match s with
  | EmptyString => EmptyString
  | String c s' => String (lower_char c) (lower s')
  end.

(** [word.capitalize()] *)
Definition capitalize (word : string) : string :=
  match word with
  | EmptyString => EmptyString
  | String c rest => String (upper_char c) (lower rest)
  end.

(** [re.sub('([A-Z]+)', r'_\1', s)]: an underscore goes before every
    maximal run of capital letters; [in_run] tells that the character
    before was a capital letter. *)
Fixpoint underscore_runs (in_run : bool) (s : string) : string :=
  match s with
  | EmptyString => EmptyString
  | String c s' =>
      if is_upper c then
        if in_run then String c (underscore_runs true s')
        else String "_" (String c (underscore_runs true s'))
      else String c (underscore_runs false s')
  end.

(** [s.lstrip('_')] *)
Fixpoint lstrip_underscores (s : string) : string :=
  match s with
  | String c s' => if Ascii.eqb c "_" then lstrip_underscores s' else s
  | EmptyString => EmptyString
  end.

(** [_to_snake_case] *)
Definition _to_snake_case (class_name : string) : string :=
  lstrip_underscores (lower (underscore_runs false class_name)).

(** [name.split('_')] *)
Fixpoint split_underscore (name : string) : list string :=
  match name with
  | EmptyString => [EmptyString]
  | String c name' =>
      if Ascii.eqb c "_" then EmptyString :: split_underscore name'
      else
        match split_underscore name' with
        | word :: words => String c word :: words
        | [] => [String c EmptyString]
        end
  end.

(** [''.join(word.capitalize() for word in name.split('_'))], the class
    name [__getattr__] derives from an attribute name. *)
Definition to_class_name (name : string) : string :=
  String.concat "" (map capitalize (split_underscore name)).

(** [s.endswith(suffix)] *)
Definition endswith (s suffix : string) : bool :=
  (String.length suffix <=? String.length s)%nat &&
  (substring (String.length s - String.length suffix) (String.length suffix) s
   =? suffix)%string.

(** An API object: its class, and which instantiation made it. *)
Record api : Type := {
  api_class : string;
  serial : nat
}.

(** The client as far as API lookup goes: [_api_cache], and for
    inspection the modules it tried to import and the number of API
    objects it has made. *)
Record t : Type := {
  _api_cache : list (string * api);
  imported : list string;
  created : nat
}.

Fixpoint cache_get (cache : list (string * api)) (k : string) : option api :=
  match cache with
  | [] => None
  | (k', v) :: cache' => if (k' =? k)%string then Some v else cache_get cache' k
  end.

(** What an API lookup gives: the object, or one of the two exceptions
    [__getattr__] catches. *)
Inductive lookup (A : Type) : Type :=
| Returned (a : A)
| ImportError (msg : string)
| AttributeError (msg : string).
Arguments Returned {A} a.
Arguments ImportError {A} msg.
Arguments AttributeError {A} msg.

Section WithSdk.

(** The installed SDK: the names a module defines, for each module that
    can be imported. *)
Variable sdk : string -> option (list string).

(** [_get_api] *)
Definition _get_api (self : t) (api_class_name : string) : lookup api * t :=
  match cache_get (_api_cache self) api_class_name with
  | Some a => (Returned a, self)
  | None =>
      let module_name :=
        ("cm_python_openapi_sdk.api." ++ _to_snake_case api_class_name)%string in
      let tried := {| _api_cache := _api_cache self;
                      imported := imported self ++ [module_name];
                      created := created self |} in
      match sdk module_name with
      | None => (ImportError ("No module named '" ++ module_name ++ "'"), tried)
      | Some names =>
          if existsb (String.eqb api_class_name) names then
            let a := {| api_class := api_class_name; serial := created self |} in
            (Returned a,
             {| _api_cache := _api_cache self ++ [(api_class_name, a)];
                imported := imported self ++ [module_name];
                created := S (created self) |})
          else
            (AttributeError ("module '" ++ module_name ++ "' has no attribute '"
                             ++ api_class_name ++ "'"), tried)
      end
  end.

(** [__getattr__]; [type_name] is [type(self).__name__]. *)
Definition __getattr__ (type_name : string) (self : t) (name : string)
    : lookup api * t :=
  let missing :=
    AttributeError ("'" ++ type_name ++ "' has no attribute '" ++ name ++ "'") in
  if endswith name "_api" then
    match _get_api self (to_class_name name) with
    | (Returned a, self') => (Returned a, self')
    | (_, self') => (missing, self')
    end
  else (missing, self).

End WithSdk.

End BaseClient.

(** ** Attribute names in snake case *)

Fixpoint all_chars (p : ascii -> bool) (s : string) : bool :=
  match s with
  | EmptyString => true
  | String c s' => p c && all_chars p s'
  end.

(** A word of an attribute name such as [data_upload_api]: a small letter
    followed by at least one more small letter or digit. *)
Definition snake_word (word : string) : bool :=
  match word with
  | String c (String _ _ as rest) =>
      BaseClient.is_lower c &&
      all_chars (fun x => BaseClient.is_lower x || BaseClient.is_digit x) rest
  | _ => false
  end.

(** An SDK with the two API modules the clients use. *)
Definition two_api_sdk (module_name : string) : option (list string) :=
  if (module_name =? "cm_python_openapi_sdk.api.jobs_api")%string
  then Some ["JobsApi"%string]
  else if (module_name =? "cm_python_openapi_sdk.api.data_upload_api")%string
  then Some ["DataUploadApi"%string]
  else None.

Definition new_client : BaseClient.t :=
  {| BaseClient._api_cache := []; BaseClient.imported := []; BaseClient.created := 0 |}.

(** ** Concrete inputs *)

(** Lines given as the bytes of their UTF-8 encoding. *)
Definition utf8_len (s : string) : Z := Z.of_nat (String.length s).

Definition nl : string := String "010"%char EmptyString.

(** [data.csv]: a header and two rows, two bytes each. *)
Definition small_csv : list string :=
  [("h" ++ nl)%string; ("a" ++ nl)%string; ("b" ++ nl)%string].

(** [data.csv] with a header and four rows, two bytes each. *)
Definition five_line_csv : list string :=
  [("h" ++ nl)%string; ("a" ++ nl)%string; ("b" ++ nl)%string;
   ("c" ++ nl)%string; ("d" ++ nl)%string].

Definition small_fs (ls : list string) : filesystem string :=
  fun path => if (path =? "data.csv")%string then Some ls else None.

Definition entered (chunk_size : Z) : CSVFileSplitter.t :=
  CSVFileSplitter.__enter__ (CSVFileSplitter.__init__ chunk_size) "/tmp/csv_split_0".

(** ** Reading the recorded calls *)

Section Recorded.
Context {line : Type}.

(** The completion requests submitted, in order. *)
Definition completions (h : list (LoadDataClient.event line))
    : list LoadDataClient.DataCompleteMultipartUploadRequest :=
  flat_map (fun e => match e with
                     | LoadDataClient.CompleteMultipartUpload _ _ req _ => [req]
                     | _ => []
                     end) h.

(** How a part upload ended, from the outcome of its PUT. *)
Definition part_upload_outcome (out : result LoadDataClient.Response) : result string :=
  match out with
  | Ok response => LoadDataClient.etag_of_response response
  | Raise e => Raise e
  end.

(** The part uploads made, in order: URL, part content, outcome. *)
Definition part_uploads (h : list (LoadDataClient.event line))
    : list (string * list line * result string) :=
  flat_map (fun e => match e with
                     | LoadDataClient.RequestsPut url (LoadDataClient.GzipCompressed c) _ out =>
                         [(url, c, part_upload_outcome out)]
                     | _ => []
                     end) h.

(** The number of job-status fetches made. *)
Definition fetches (h : list (LoadDataClient.event line)) : nat :=
  List.length (filter (fun e => match e with
                                | LoadDataClient.GetJobStatus _ _ _ => true
                                | _ => false
                                end) h).

(** A job-status double that answers its n-th fetch with the n-th entry of
    a script of (status, message) pairs, and fails once the script is over. *)
Definition scripted_status (script : list (string * option string))
    (h : list (LoadDataClient.event line)) (job jtype : string)
    : result LoadDataClient.JobDetailResponse :=
  match nth_error script (fetches h) with
  | Some (s, m) =>
      Ok {| LoadDataClient.job_id := job;
            LoadDataClient.status := s;
            LoadDataClient.message := m |}
  | None => Raise (ConnectionError "no more answers")
  end.

End Recorded.

Definition is_raise {A : Type} (r : result A) : bool :=
  match r with
  | Raise _ => true
  | Ok _ => false
  end.

(** [sub in s] on Python strings. *)
Fixpoint contains (sub s : string) : bool :=
  prefix sub s ||
  match s with
  | EmptyString => false
  | String _ s' => contains sub s'
  end.

(** The message an exception carries ([str(e)]). *)
Definition exn_message (e : exn) : string :=
  match e with
  | RuntimeError m | FileNotFoundError m | ValueError m | IndexError m
  | ZeroDivisionError m | TimeoutError m | ConnectionError m
  | ApiException m | Exception m => m
  | HTTPError s => (str s ++ " Error")%string
  end.

(** ** A backend that accepts everything *)

Definition part_urls (parts : option Z) : list string :=
  match parts with
  | Some n => map (fun i => ("https://store/part/" ++ str (Z.of_nat i))%string)
                  (seq 1 (Z.to_nat n))
  | None => []
  end.

Definition store_upload (parts : option Z) : LoadDataClient.DataUpload200Response :=
  {| LoadDataClient.id := "up-1";
     LoadDataClient.upload_id := "mp-1";
     LoadDataClient.upload_url_encoded := "https://store/whole";
     LoadDataClient.upload_urls_encoded := part_urls parts;
     LoadDataClient.links :=
       Some [[("rel", "self"); ("href", "/rest/projects/p1/dwh/data/uploads/up-1")]%string] |}.

(** Every upload slot is granted, every PUT answers 200 with the ETag
    [tag:<url>], completion and submission succeed, and job-status fetches
    follow [script]. *)
Definition accepting_backend {line : Type} (byte_len : line -> Z)
    (fs : filesystem line) (script : list (string * option string))
    : LoadDataClient.collaborators line :=
  {| LoadDataClient.files := fs;
     LoadDataClient.mkdtemp := "/tmp/csv_split_0";
     LoadDataClient.gzip_size := total_bytes byte_len;
     LoadDataClient.data_upload := fun _ _ parts => Ok (store_upload parts);
     LoadDataClient.requests_put := fun _ url _ _ =>
       Ok {| LoadDataClient.status_code := 200;
             LoadDataClient.headers := [("ETag", "tag:" ++ url)]%string |};
     LoadDataClient.complete_multipart_upload := fun _ _ _ _ => Ok tt;
     LoadDataClient.submit_job_execution := fun _ _ =>
       Ok {| LoadDataClient.job_id := "job-1";
             LoadDataClient.status := "RUNNING";
             LoadDataClient.message := None |};
     LoadDataClient.get_job_status := scripted_status script;
     LoadDataClient.ticks_per_second := 1000;
     LoadDataClient.latency := fun _ => 0 |}.

(** The same backend with a job that stays [RUNNING] for ever. *)
Definition stalled_backend {line : Type} (byte_len : line -> Z)
    (fs : filesystem line) : LoadDataClient.collaborators line :=
  let env := accepting_backend byte_len fs [] in
  {| LoadDataClient.files := LoadDataClient.files env;
     LoadDataClient.mkdtemp := LoadDataClient.mkdtemp env;
     LoadDataClient.gzip_size := LoadDataClient.gzip_size env;
     LoadDataClient.data_upload := LoadDataClient.data_upload env;
     LoadDataClient.requests_put := LoadDataClient.requests_put env;
     LoadDataClient.complete_multipart_upload :=
       LoadDataClient.complete_multipart_upload env;
     LoadDataClient.submit_job_execution := LoadDataClient.submit_job_execution env;
     LoadDataClient.get_job_status := fun _ job _ =>
       Ok {| LoadDataClient.job_id := job;
             LoadDataClient.status := "RUNNING";
             LoadDataClient.message := None |};
     LoadDataClient.ticks_per_second := LoadDataClient.ticks_per_second env;
     LoadDataClient.latency := LoadDataClient.latency env |}.

(** The world once a call has been recorded. *)
Definition after_call {line : Type} (env : LoadDataClient.collaborators line)
    (w : LoadDataClient.world line) (ev : LoadDataClient.event line)
    : LoadDataClient.world line :=
  {| LoadDataClient.log := LoadDataClient.log w ++ [ev];
     LoadDataClient.now :=
       LoadDataClient.now w
       + Z.max 0 (LoadDataClient.latency env (LoadDataClient.log w)) |}.

(** The message of the [TimeoutError] of [poll_job_status]. *)
Definition timeout_message (job : string) (timeout : Z) : string :=
  ("Job " ++ job ++ " did not complete within " ++ str timeout ++ " seconds")%string.

Definition fresh {line : Type} : LoadDataClient.world line :=
  {| LoadDataClient.log := []; LoadDataClient.now := 0 |}.

(** Files given by the byte lengths of their lines. *)
Definition MiB : Z := 1024 * 1024.

Definition sized_len (l : Z) : Z := l.

Definition sized_fs (ls : list Z) : filesystem Z :=
  fun path => if (path =? "data.csv")%string then Some ls else None.

(** 120 MiB: a header line and 119 rows of 1 MiB each. *)
Definition csv_120MiB : list Z := repeat MiB 120.

(** 60 MiB: a header line of 1 MiB and a single row of 59 MiB. *)
Definition csv_one_long_row : list Z := [MiB; 59 * MiB].

(** What a run leaves behind, for inspection. *)
Definition log_of {line A : Type}
    (run : option (result A * LoadDataClient.world line))
    : list (LoadDataClient.event line) :=
  match run with
  | Some (_, w) => LoadDataClient.log w
  | None => []
  end.

Definition outcome_of {line A : Type}
    (run : option (result A * LoadDataClient.world line)) : option (result A) :=
  match run with
  | Some (r, _) => Some r
  | None => None
  end.

Definition requested_parts {line : Type} (h : list (LoadDataClient.event line))
    : list (option Z) :=
  flat_map (fun e => match e with
                     | LoadDataClient.DataUpload _ parts _ => [parts]
                     | _ => []
                     end) h.

(** ** The invariant of the row loop

    After the rows [pre] have gone through the loop: the parts yielded so
    far are numbered 1, 2, ... and the open part has the next number; the
    part index never passes [num_parts] (1 when fewer are asked for); the
    rows written, in order, are [pre]; the size counter is the header's
    size plus the sizes of the rows in the open part; only the first part
    file got the header. *)
Definition loop_invariant {line : Type} (byte_len : line -> Z) (d : string)
    (header : line) (num_parts : Z) (pre : list line)
    (st : CSVFileSplitter.loop_state line) : Prop :=
  CSVFileSplitter.current_part st
    = Z.of_nat (List.length (CSVFileSplitter.yielded st)) + 1 /\
  CSVFileSplitter.current_part st <= Z.max 1 num_parts /\
  map CSVFileSplitter.part_number (CSVFileSplitter.yielded st)
    = map Z.of_nat (seq 1 (List.length (CSVFileSplitter.yielded st))) /\
  List.concat (map CSVFileSplitter.rows_written (CSVFileSplitter.yielded st))
    ++ CSVFileSplitter.writer_rows st = pre /\
  List.concat (map CSVFileSplitter.content (CSVFileSplitter.yielded st))
    ++ CSVFileSplitter.writer_header st ++ CSVFileSplitter.writer_rows st
    = header :: pre /\
  CSVFileSplitter.current_size st
    = byte_len header + total_bytes byte_len (CSVFileSplitter.writer_rows st) /\
  CSVFileSplitter.writer_header st
    = (if CSVFileSplitter.current_part st =? 1 then [header] else []) /\
  Forall (fun p => CSVFileSplitter.header_written p
                   = if CSVFileSplitter.part_number p =? 1 then [header] else [])
         (CSVFileSplitter.yielded st).

(** ** Further invariants of the row loop *)

(** A part is within budget when the header's bytes plus those of its rows
    do not exceed the chunk size, or when it holds at most one row. *)
Definition within_budget {line : Type} (byte_len : line -> Z) (chunk_size : Z)
    (header : line) (p : CSVFileSplitter.part line) : Prop :=
  byte_len header + total_bytes byte_len (CSVFileSplitter.rows_written p) <= chunk_size \/
  (List.length (CSVFileSplitter.rows_written p) <= 1)%nat.

(** Each part but the last was closed because the first row of the next
    part did not fit into it. *)
Fixpoint closed_when_full {line : Type} (byte_len : line -> Z) (chunk_size : Z)
    (header : line) (ps : list (CSVFileSplitter.part line)) : Prop :=
  match ps with
  | p :: (q :: _) as rest =>
      match CSVFileSplitter.rows_written q with
      | r :: _ =>
          byte_len header + total_bytes byte_len (CSVFileSplitter.rows_written p)
          + byte_len r > chunk_size
      | [] => False
      end /\ closed_when_full byte_len chunk_size header rest
  | _ => True
  end.

Definition parts_invariant {line : Type} (byte_len : line -> Z)
    (self : CSVFileSplitter.t) (d : string) (header : line) (num_parts : Z)
    (st : CSVFileSplitter.loop_state line) : Prop :=
  Forall (within_budget byte_len (CSVFileSplitter.chunk_size self) header)
         (CSVFileSplitter.yielded st) /\
  (CSVFileSplitter.current_part st < num_parts ->
   within_budget byte_len (CSVFileSplitter.chunk_size self) header
     (CSVFileSplitter.closed_part st)) /\
  Forall (fun p => CSVFileSplitter.temp_file_path p
                   = CSVFileSplitter._create_temp_file d (CSVFileSplitter.part_number p))
         (CSVFileSplitter.yielded st ++ [CSVFileSplitter.closed_part st]) /\
  Forall (fun p => CSVFileSplitter.part_number p <> 1 ->
                   CSVFileSplitter.rows_written p <> [])
         (CSVFileSplitter.yielded st ++ [CSVFileSplitter.closed_part st]) /\
  closed_when_full byte_len (CSVFileSplitter.chunk_size self) header
    (CSVFileSplitter.yielded st ++ [CSVFileSplitter.closed_part st]).

(** ** The ways [_multipart_upload] can go *)

Section MultipartRuns.
Context {line : Type}.
Variable byte_len : line -> Z.
Variable env : LoadDataClient.collaborators line.

(** The job submissions recorded, with their outcomes. *)
Definition submissions (h : list (LoadDataClient.event line))
    : list (LoadDataClient.DataPullJobRequest * result LoadDataClient.JobDetailResponse) :=
  flat_map (fun e => match e with
                     | LoadDataClient.SubmitJobExecution req out => [(req, out)]
                     | _ => []
                     end) h.

(** The sleeps recorded, in seconds. *)
Definition sleeps (h : list (LoadDataClient.event line)) : list Z :=
  flat_map (fun e => match e with
                     | LoadDataClient.Sleep seconds => [seconds]
                     | _ => []
                     end) h.

(** What follows the upload loop: nothing when a part failed; else the
    completion call, and the job submission when completion succeeded and
    the upload response has a file URI. *)
Inductive after_parts (self : LoadDataClient.t) (project_id dataset_name mode : string)
    (csv_options : LoadDataClient.DataPullRequestCsvOptions)
    (upload_response : LoadDataClient.DataUpload200Response)
    (w1 : LoadDataClient.world line)
    : result (list LoadDataClient.PartETag) ->
      result LoadDataClient.JobDetailResponse ->
      list (LoadDataClient.event line) -> Prop :=
| part_failed (e : exn) :
    after_parts self project_id dataset_name mode csv_options upload_response w1
      (Raise e) (Raise e) []
| completion_failed (uploaded : list LoadDataClient.PartETag) (e : exn) :
    let req := {| LoadDataClient.complete_id := LoadDataClient.id upload_response;
                  LoadDataClient.uploadId := LoadDataClient.upload_id upload_response;
                  LoadDataClient.partETags := uploaded |} in
    LoadDataClient.complete_multipart_upload env (LoadDataClient.log w1) project_id
      (LoadDataClient.id upload_response) req = Raise e ->
    after_parts self project_id dataset_name mode csv_options upload_response w1
      (Ok uploaded) (Raise e)
      [LoadDataClient.CompleteMultipartUpload project_id
         (LoadDataClient.id upload_response) req (Raise e)]
| no_file_uri (uploaded : list LoadDataClient.PartETag) (e : exn) :
    let req := {| LoadDataClient.complete_id := LoadDataClient.id upload_response;
                  LoadDataClient.uploadId := LoadDataClient.upload_id upload_response;
                  LoadDataClient.partETags := uploaded |} in
    LoadDataClient.complete_multipart_upload env (LoadDataClient.log w1) project_id
      (LoadDataClient.id upload_response) req = Ok tt ->
    LoadDataClient._get_file_uri_from_response upload_response = Raise e ->
    after_parts self project_id dataset_name mode csv_options upload_response w1
      (Ok uploaded) (Raise e)
      [LoadDataClient.CompleteMultipartUpload project_id
         (LoadDataClient.id upload_response) req (Ok tt)]
| job_submitted (uploaded : list LoadDataClient.PartETag) (file_uri : option string)
    (out : result LoadDataClient.JobDetailResponse) :
    let req := {| LoadDataClient.complete_id := LoadDataClient.id upload_response;
                  LoadDataClient.uploadId := LoadDataClient.upload_id upload_response;
                  LoadDataClient.partETags := uploaded |} in
    let job_request :=
      LoadDataClient._create_data_pull_job_request project_id dataset_name mode
        file_uri csv_options in
    LoadDataClient.complete_multipart_upload env (LoadDataClient.log w1) project_id
      (LoadDataClient.id upload_response) req = Ok tt ->
    LoadDataClient._get_file_uri_from_response upload_response = Ok file_uri ->
    after_parts self project_id dataset_name mode csv_options upload_response w1
      (Ok uploaded) out
      [LoadDataClient.CompleteMultipartUpload project_id
         (LoadDataClient.id upload_response) req (Ok tt);
       LoadDataClient.SubmitJobExecution job_request out].

(** [multipart_run ... w r new]: started in world [w], [_multipart_upload]
    ends with [r] after recording the calls [new].  One constructor per
    place where the function can stop. *)
Inductive multipart_run (self : LoadDataClient.t) (project_id csv_file_path : string)
    (parts : Z) (dataset_name mode : string)
    (csv_options : LoadDataClient.DataPullRequestCsvOptions)
    (w : LoadDataClient.world line)
    : result LoadDataClient.JobDetailResponse -> list (LoadDataClient.event line) -> Prop :=
| no_upload_slots (e : exn) :
    LoadDataClient.data_upload env (LoadDataClient.log w) project_id (Some parts) = Raise e ->
    multipart_run self project_id csv_file_path parts dataset_name mode csv_options w
      (Raise e)
      [LoadDataClient.DataUpload project_id (Some parts) (Raise e)]
| split_failed (upload_response : LoadDataClient.DataUpload200Response) (e : exn) :
    LoadDataClient.data_upload env (LoadDataClient.log w) project_id (Some parts)
      = Ok upload_response ->
    CSVFileSplitter.split_file byte_len (LoadDataClient.files env)
      (CSVFileSplitter.__enter__
         (CSVFileSplitter.__init__ (LoadDataClient.chunk_size self))
         (LoadDataClient.mkdtemp env))
      csv_file_path parts = Raise e ->
    multipart_run self project_id csv_file_path parts dataset_name mode csv_options w
      (Raise e)
      [LoadDataClient.DataUpload project_id (Some parts) (Ok upload_response)]
| parts_uploaded (upload_response : LoadDataClient.DataUpload200Response)
    (ps : list (CSVFileSplitter.part line))
    (r1 : result (list LoadDataClient.PartETag)) (w1 : LoadDataClient.world line)
    (loop : list (LoadDataClient.event line))
    (r : result LoadDataClient.JobDetailResponse)
    (tail : list (LoadDataClient.event line)) :
    LoadDataClient.data_upload env (LoadDataClient.log w) project_id (Some parts)
      = Ok upload_response ->
    CSVFileSplitter.split_file byte_len (LoadDataClient.files env)
      (CSVFileSplitter.__enter__
         (CSVFileSplitter.__init__ (LoadDataClient.chunk_size self))
         (LoadDataClient.mkdtemp env))
      csv_file_path parts = Ok ps ->
    LoadDataClient.upload_parts env self
      (LoadDataClient.upload_urls_encoded upload_response) ps []
      (after_call env w
         (LoadDataClient.DataUpload project_id (Some parts) (Ok upload_response)))
      = Some (r1, w1) ->
    LoadDataClient.log w1
      = (LoadDataClient.log w
         ++ [LoadDataClient.DataUpload project_id (Some parts) (Ok upload_response)])
        ++ loop ->
    after_parts self project_id dataset_name mode csv_options upload_response w1 r1 r tail ->
    multipart_run self project_id csv_file_path parts dataset_name mode csv_options w
      r
      (LoadDataClient.DataUpload project_id (Some parts) (Ok upload_response)
       :: loop ++ tail).

End MultipartRuns.

(** ** data_dump_client.py *)

Module DataDumpClient.

(** [s[n:]], on the characters of an ASCII string such as a URL path. *)
Fixpoint string_drop (n : nat) (s : string) : string :=
  match n, s with
  | O, _ => s
  | S n', String _ s' => string_drop n' s'
  | S _, EmptyString => EmptyString
  end.

(** [f"{message}"] for an optional string. *)
Definition format_optional (m : option string) : string :=
  match m with
  | Some s => s
  | None => "None"%string
  end.

(** The SDK's job models as far as the client reads them; the result of a
    job is taken to have its list of links. *)
Record JobStatus : Type := {
  status : string;
  message : option string;
  result_links : list LoadDataClient.dict
}.

Record JobResponse : Type := {
  id : string
}.

Record DataDumpJobRequest : Type := {
  job_type : string;
  projectId : string;
  dataset : string
}.

Record HttpResponse : Type := {
  status_code : Z;
  content : string
}.

Definition raise_for_status (response : HttpResponse) : result unit :=
  if (400 <=? status_code response) && (status_code response <? 600)
  then Raise (HTTPError (status_code response))
  else Ok tt.

Inductive event : Type :=
| MakeDirs (path : string) (out : result unit)
| SubmitJobExecution (req : DataDumpJobRequest) (out : result JobResponse)
| GetJobStatus (job jtype : string) (out : result JobStatus)
| Sleep (seconds : Z)
| RequestsGet (url : string) (hdrs : LoadDataClient.dict) (out : result HttpResponse)
| WriteFile (path : string) (data : string) (out : result unit).

(** The configuration of the API client, the test doubles, and [str(e)]
    for the exceptions they raise. *)
Record collaborators : Type := {
  host : string;
  access_token : string;
  os_makedirs : list event -> string -> result unit;
  submit_job_execution : list event -> DataDumpJobRequest -> result JobResponse;
  get_job_status : list event -> string -> string -> result JobStatus;
  requests_get : list event -> string -> LoadDataClient.dict -> result HttpResponse;
  write_file : list event -> string -> string -> result unit;
  exn_str : exn -> string;
  ticks_per_second : Z;
  latency : list event -> Z
}.

Record world : Type := {
  log : list event;
  now : Z
}.

Section WithCollaborators.
Variable env : collaborators.

Definition M (A : Type) : Type := world -> option (result A * world).

Definition ret {A : Type} (a : A) : M A := fun w => Some (Ok a, w).

Definition raise {A : Type} (e : exn) : M A := fun w => Some (Raise e, w).

Definition lift {A : Type} (r : result A) : M A := fun w => Some (r, w).

Definition bind {A B : Type} (m : M A) (k : A -> M B) : M B :=
  fun w =>
    match m w with
    | Some (Ok a, w') => k a w'
    | Some (Raise e, w') => Some (Raise e, w')
    | None => None
    end.

Notation "x <- m ;; k" := (bind m (fun x => k))
  (at level 100, m at next level, right associativity).

(** [try: m except Exception as e: raise handler(e)] *)
Definition reraise {A : Type} (m : M A) (handler : exn -> exn) : M A :=
  fun w =>
    match m w with
    | Some (Raise e, w') => Some (Raise (handler e), w')
    | other => other
    end.

Definition call {A : Type} (respond : list event -> result A)
    (record : result A -> event) : M A :=
  fun w =>
    let out := respond (log w) in
    Some (out, {| log := log w ++ [record out];
                  now := now w + Z.max 0 (latency env (log w)) |}).

Definition time_time : M Z := fun w => Some (Ok (now w), w).

Definition time_sleep (seconds : Z) : M unit :=
  fun w =>
    if seconds <? 0 then
      Some (Raise (ValueError "sleep length must be non-negative"), w)
    else
      Some (Ok tt, {| log := log w ++ [Sleep seconds];
                      now := now w + seconds * ticks_per_second env |}).

(** [_wait_for_job_completion]: [fuel] bounds the iterations. *)
Fixpoint wait_loop (fuel : nat) (job : string) (poll_interval : Z)
    (timeout : option Z) (start_time : Z) : M unit :=
  match fuel with
  | O => fun _ => None
  | S fuel' =>
      job_status <- call (fun h => get_job_status env h job "dataDump")
                         (GetJobStatus job "dataDump") ;;
      if (status job_status =? "SUCCEEDED")%string then ret tt
      else if (status job_status =? "FAILED")%string then
        raise (Exception ("Job failed: " ++ format_optional (message job_status)))
      else
        t <- time_time ;;
        if LoadDataClient.truthy_int timeout &&
           (t - start_time >? match timeout with Some v => v | None => 0 end
                              * ticks_per_second env)
        then raise (TimeoutError
               ("Job " ++ job ++ " did not complete within " ++
                str (match timeout with Some v => v | None => 0 end) ++ " seconds"))
        else
          _ <- time_sleep poll_interval ;;
          wait_loop fuel' job poll_interval timeout start_time
  end.

Definition _wait_for_job_completion (fuel : nat) (job : string) (poll_interval : Z)
    (timeout : option Z) : M unit :=
  start_time <- time_time ;;
  wait_loop fuel job poll_interval timeout start_time.

(** [_download_file] *)
Definition _download_file (result_url local_filename : string) : M unit :=
  let full_url := (host env ++ string_drop 5 result_url)%string in
  reraise
    (let hdrs := [("Authorization", "Bearer " ++ access_token env)]%string in
     response <- call (fun h => requests_get env h full_url hdrs)
                      (RequestsGet full_url hdrs) ;;
     _ <- lift (raise_for_status response) ;;
     call (fun h => write_file env h local_filename (content response))
          (WriteFile local_filename (content response)))
    (fun e => Exception ("Failed to download file: " ++ exn_str env e)).

(** Lines 78-83 of [dump_dataset_to_csv]: the [href] of the first link of
    the job result. *)
Definition result_url_of (job_status : JobStatus) : result string :=
  match LoadDataClient.list_getitem (result_links job_status) 0 with
  | Raise e => Raise e
  | Ok link =>
      match LoadDataClient.dict_get link "href" with
      | Some url =>
          if (url =? "")%string
          then Raise (Exception "No result file URL found in job response")
          else Ok url
      | None => Raise (Exception "No result file URL found in job response")
      end
  end.


End WithCollaborators.

End DataDumpClient.

(** A dump backend whose job answers follow a script of statuses with
    their messages; every link list is [links]. *)
Definition dump_fetches (h : list DataDumpClient.event) : nat :=
  List.length (filter (fun e => match e with
                                | DataDumpClient.GetJobStatus _ _ _ => true
                                | _ => false
                                end) h).

Definition dump_backend (script : list (string * option string))
    (links : list LoadDataClient.dict) (served : string)
    : DataDumpClient.collaborators :=
  {| DataDumpClient.host := "https://api.example.com/rest";
     DataDumpClient.access_token := "token";
     DataDumpClient.os_makedirs := fun _ _ => Ok tt;
     DataDumpClient.submit_job_execution := fun _ _ =>
       Ok {| DataDumpClient.id := "job-7" |};
     DataDumpClient.get_job_status := fun h _ _ =>
       match nth_error script (dump_fetches h) with
       | Some (s, m) => Ok {| DataDumpClient.status := s;
                              DataDumpClient.message := m;
                              DataDumpClient.result_links := links |}
       | None => Raise (ConnectionError "no more answers")
       end;
     DataDumpClient.requests_get := fun _ _ _ =>
       Ok {| DataDumpClient.status_code := 200; DataDumpClient.content := served |};
     DataDumpClient.write_file := fun _ _ _ => Ok tt;
     DataDumpClient.exn_str := exn_message;
     DataDumpClient.ticks_per_second := 1000;
     DataDumpClient.latency := fun _ => 0 |}.

Definition dump_fresh : DataDumpClient.world :=
  {| DataDumpClient.log := []; DataDumpClient.now := 0 |}.

(** * Properties *)

(** ** The splitter *)

Section SplitterFacts.
Context {line : Type}.
Variable byte_len : line -> Z.

Lemma total_bytes_app (xs ys : list line) :
  total_bytes byte_len (xs ++ ys) = total_bytes byte_len xs + total_bytes byte_len ys.
Proof.
  induction xs as [|x xs IH]; simpl.
  - reflexivity.
  - rewrite IH. lia.
Qed.

Lemma loop_invariant_first_part (d : string) (header : line) (num_parts : Z) :
  loop_invariant byte_len d header num_parts [] (CSVFileSplitter.first_part byte_len d header).
Proof.
  unfold loop_invariant; simpl.
  repeat split; try reflexivity; try lia.
  constructor.
Qed.

Lemma loop_invariant_body (self : CSVFileSplitter.t) (d : string) (header : line)
    (num_parts : Z) (pre : list line) (st : CSVFileSplitter.loop_state line) (row : line) :
  loop_invariant byte_len d header num_parts pre st ->
  loop_invariant byte_len d header num_parts (pre ++ [row])
    (CSVFileSplitter.loop_body byte_len self d (byte_len header) num_parts st row).
Proof.
  intros (Hcp & Hle & Hnum & Hrows & Hcont & Hsize & Hhdr & Hall).
  unfold CSVFileSplitter.loop_body, CSVFileSplitter.starts_new_part.
  destruct (CSVFileSplitter.current_size st + byte_len row >? CSVFileSplitter.chunk_size self) eqn:Hbig;
    [destruct (CSVFileSplitter.current_part st <? num_parts) eqn:Hlt|]; simpl.
  - (* a new part is started *)
    apply Z.ltb_lt in Hlt.
    unfold loop_invariant; simpl.
    rewrite !length_app, !map_app, !concat_app; simpl.
    rewrite Nat.add_1_r, seq_S, map_app; simpl.
    repeat split.
    + lia.
    + lia.
    + rewrite Hnum. do 2 f_equal. lia.
    + rewrite app_nil_r. rewrite <- Hrows, <- !app_assoc. reflexivity.
    + unfold CSVFileSplitter.content at 2; simpl.
      rewrite app_nil_r. rewrite app_comm_cons, <- Hcont, <- !app_assoc. reflexivity.
    + lia.
    + destruct (CSVFileSplitter.current_part st + 1 =? 1) eqn:E; [|reflexivity].
      apply Z.eqb_eq in E. lia.
    + apply Forall_app; split; [exact Hall|].
      constructor; [|constructor]. simpl. exact Hhdr.
  - (* the part index has reached [num_parts] *)
    unfold loop_invariant; simpl.
    repeat split; try assumption.
    + rewrite <- Hrows, app_assoc. reflexivity.
    + rewrite app_comm_cons, <- Hcont, <- !app_assoc. reflexivity.
    + rewrite total_bytes_app; simpl. lia.
  - (* the row fits *)
    unfold loop_invariant; simpl.
    repeat split; try assumption.
    + rewrite <- Hrows, app_assoc. reflexivity.
    + rewrite app_comm_cons, <- Hcont, <- !app_assoc. reflexivity.
    + rewrite total_bytes_app; simpl. lia.
Qed.

Lemma loop_invariant_run (self : CSVFileSplitter.t) (d : string) (header : line)
    (num_parts : Z) (rows pre : list line) (st : CSVFileSplitter.loop_state line) :
  loop_invariant byte_len d header num_parts pre st ->
  loop_invariant byte_len d header num_parts (pre ++ rows)
    (CSVFileSplitter.run_loop byte_len self d (byte_len header) num_parts rows st).
Proof.
  revert pre st.
  induction rows as [|row rows IH]; intros pre st Hinv; simpl.
  - rewrite app_nil_r. exact Hinv.
  - replace (pre ++ row :: rows) with ((pre ++ [row]) ++ rows)
      by (rewrite <- app_assoc; reflexivity).
    apply IH. apply loop_invariant_body. exact Hinv.
Qed.

End SplitterFacts.

Section SplitFile.
Context {line : Type}.
Variable byte_len : line -> Z.

(** With its working directory acquired and a file that has a header line,
    [split_file] raises nothing: it yields the parts closed in the loop
    and then the part left open, and the loop invariant holds at the end. *)
Lemma split_file_yields (fs : filesystem line) (self : CSVFileSplitter.t)
    (file_path : string) (num_parts : Z) (header : line) (rows : list line) :
  truthy_str (CSVFileSplitter.temp_dir self) = true ->
  fs file_path = Some (header :: rows) ->
  exists d st,
    CSVFileSplitter.split_file byte_len fs self file_path num_parts
      = Ok (CSVFileSplitter.yielded st ++ [CSVFileSplitter.closed_part st]) /\
    st = CSVFileSplitter.run_loop byte_len self d (byte_len header) num_parts rows
           (CSVFileSplitter.first_part byte_len d header) /\
    loop_invariant byte_len d header num_parts rows st.
Proof.
  intros Hdir Hfile.
  unfold CSVFileSplitter.split_file.
  rewrite Hdir, Hfile; simpl.
  destruct (CSVFileSplitter.temp_dir self) as [d|] eqn:Hd; [|discriminate].
  exists d. eexists. split; [reflexivity|]. split; [reflexivity|].
  apply (loop_invariant_run byte_len self d header num_parts rows []).
  apply loop_invariant_first_part.
Qed.

(** Once the part index has reached [num_parts] the loop starts no part. *)
Lemma run_loop_last_part (self : CSVFileSplitter.t) (d : string) (header_size : Z)
    (num_parts : Z) (rows : list line) (st : CSVFileSplitter.loop_state line) :
  num_parts <= CSVFileSplitter.current_part st ->
  let fin := CSVFileSplitter.run_loop byte_len self d header_size num_parts rows st in
  CSVFileSplitter.yielded fin = CSVFileSplitter.yielded st /\
  CSVFileSplitter.current_part fin = CSVFileSplitter.current_part st /\
  CSVFileSplitter.writer_rows fin = CSVFileSplitter.writer_rows st ++ rows.
Proof.
  revert st.
  induction rows as [|row rows IH]; intros st Hlast; simpl.
  - rewrite app_nil_r. auto.
  - assert (Hbody : CSVFileSplitter.loop_body byte_len self d header_size num_parts st row
                    = CSVFileSplitter.write_row byte_len st row).
    { unfold CSVFileSplitter.loop_body, CSVFileSplitter.starts_new_part.
      replace (CSVFileSplitter.current_part st <? num_parts) with false
        by (symmetry; apply Z.ltb_ge; exact Hlast).
      rewrite andb_false_r. reflexivity. }
    rewrite Hbody.
    destruct (IH (CSVFileSplitter.write_row byte_len st row)) as (Hy & Hp & Hr);
      [simpl; exact Hlast|].
    simpl in Hy, Hp, Hr.
    rewrite Hy, Hp, Hr, <- app_assoc. auto.
Qed.

(** C4. For a CSV file with a header line and any requested part count
    [num_parts >= 1], [split_file] yields parts whose data rows,
    concatenated in yield order, are exactly the data rows of the source
    (every row once, whole, in order); the part files concatenated are the
    source file; and no more than [num_parts] parts are yielded. *)
Theorem split_file_preserves_rows (fs : filesystem line) (self : CSVFileSplitter.t)
    (file_path : string) (num_parts : Z) (header : line) (rows : list line) :
  truthy_str (CSVFileSplitter.temp_dir self) = true ->
  fs file_path = Some (header :: rows) ->
  1 <= num_parts ->
  exists ps,
    CSVFileSplitter.split_file byte_len fs self file_path num_parts = Ok ps /\
    List.concat (map CSVFileSplitter.rows_written ps) = rows /\
    List.concat (map CSVFileSplitter.content ps) = header :: rows /\
    Z.of_nat (List.length ps) <= num_parts.
Proof.
  intros Hdir Hfile HN.
  destruct (split_file_yields fs self file_path num_parts header rows Hdir Hfile)
    as (d & st & Hsplit & _ & Hinv).
  destruct Hinv as (Hcp & Hle & _ & Hrows & Hcont & _).
  exists (CSVFileSplitter.yielded st ++ [CSVFileSplitter.closed_part st]).
  split; [exact Hsplit|].
  rewrite !map_app, !concat_app, length_app; simpl.
  rewrite !app_nil_r.
  repeat split.
  - exact Hrows.
  - exact Hcont.
  - lia.
Qed.

(** C9. For every [num_parts >= 1] the part numbers yielded by
    [split_file] are 1, 2, ..., k in this order, for some k with
    [1 <= k <= num_parts]; hence [upload_urls[part_number - 1]] finds a
    URL for every yielded part whenever the backend returned at least
    [num_parts] URLs. *)
Theorem split_file_part_numbers (fs : filesystem line) (self : CSVFileSplitter.t)
    (file_path : string) (num_parts : Z) (header : line) (rows : list line) :
  truthy_str (CSVFileSplitter.temp_dir self) = true ->
  fs file_path = Some (header :: rows) ->
  1 <= num_parts ->
  exists ps k,
    CSVFileSplitter.split_file byte_len fs self file_path num_parts = Ok ps /\
    map CSVFileSplitter.part_number ps = map Z.of_nat (seq 1 k) /\
    (1 <= k)%nat /\ Z.of_nat k <= num_parts /\
    forall upload_urls : list string,
      num_parts <= Z.of_nat (List.length upload_urls) ->
      forall p, In p ps ->
        exists url,
          LoadDataClient.list_getitem upload_urls (CSVFileSplitter.part_number p - 1)
            = Ok url.
Proof.
  intros Hdir Hfile HN.
  destruct (split_file_yields fs self file_path num_parts header rows Hdir Hfile)
    as (d & st & Hsplit & _ & Hinv).
  destruct Hinv as (Hcp & Hle & Hnum & _).
  set (n := List.length (CSVFileSplitter.yielded st)) in *.
  assert (Hnums : map CSVFileSplitter.part_number
                    (CSVFileSplitter.yielded st ++ [CSVFileSplitter.closed_part st])
                  = map Z.of_nat (seq 1 (S n))).
  { rewrite map_app, Hnum, seq_S, map_app; simpl.
    do 2 f_equal. lia. }
  exists (CSVFileSplitter.yielded st ++ [CSVFileSplitter.closed_part st]), (S n).
  split; [exact Hsplit|].
  split; [exact Hnums|].
  split; [lia|].
  split; [lia|].
  intros upload_urls Hurls p Hp.
  assert (Hin : In (CSVFileSplitter.part_number p) (map Z.of_nat (seq 1 (S n)))).
  { rewrite <- Hnums. apply in_map. exact Hp. }
  apply in_map_iff in Hin. destruct Hin as (i & Hi & Hseq).
  apply in_seq in Hseq.
  unfold LoadDataClient.list_getitem.
  replace (CSVFileSplitter.part_number p - 1 <? 0) with false
    by (symmetry; apply Z.ltb_ge; lia).
  replace ((0 <=? CSVFileSplitter.part_number p - 1)
           && (CSVFileSplitter.part_number p - 1 <? Z.of_nat (List.length upload_urls)))
    with true
    by (symmetry; apply andb_true_iff; split; [apply Z.leb_le|apply Z.ltb_lt]; lia).
  destruct (nth_error upload_urls (Z.to_nat (CSVFileSplitter.part_number p - 1)))
    as [url|] eqn:Hnth.
  - exists url. reflexivity.
  - apply nth_error_None in Hnth. lia.
Qed.

(** C10. For a CSV file that is only a header line, [split_file] yields
    exactly one part, numbered 1, whose content is exactly the header
    line, whatever [num_parts] is asked for. *)
Theorem split_file_header_only (fs : filesystem line) (self : CSVFileSplitter.t)
    (file_path : string) (num_parts : Z) (header : line) :
  truthy_str (CSVFileSplitter.temp_dir self) = true ->
  fs file_path = Some [header] ->
  exists p,
    CSVFileSplitter.split_file byte_len fs self file_path num_parts = Ok [p] /\
    CSVFileSplitter.part_number p = 1 /\
    CSVFileSplitter.content p = [header].
Proof.
  intros Hdir Hfile.
  unfold CSVFileSplitter.split_file.
  rewrite Hdir, Hfile; simpl.
  destruct (CSVFileSplitter.temp_dir self) as [d|]; [|discriminate].
  eexists. split; [reflexivity|]. split; reflexivity.
Qed.

End SplitFile.

Section SplitDecision.
Context {line : Type}.
Variable byte_len : line -> Z.

(** The rule of line 75 in terms of the size counter.  While [split_file]
    runs over the rows [pre ++ row :: post] of a file: when [row] is read,
    [current_size] holds the header's bytes plus the bytes of the rows put
    into the open part so far (for a part after the first this is more
    than the part file holds, see [current_size_and_file_bytes]).  A new
    part is started for [row] exactly when these plus the byte length of
    [row] exceed [chunk_size]
    and the index of the open part is below [num_parts]; otherwise [row]
    joins the open part.  Once the index of the open part equals
    [num_parts], no further part is started: [row] and all rows after it
    go into that part, whatever their size. *)
Theorem new_part_exactly_when_over_budget (self : CSVFileSplitter.t) (d : string)
    (header : line) (num_parts : Z) (pre : list line) (row : line) (post : list line) :
  let header_size := byte_len header in
  let st := CSVFileSplitter.run_loop byte_len self d header_size num_parts pre
              (CSVFileSplitter.first_part byte_len d header) in
  let st' := CSVFileSplitter.loop_body byte_len self d header_size num_parts st row in
  let fin := CSVFileSplitter.run_loop byte_len self d header_size num_parts
               (row :: post) st in
  let accumulated :=
    header_size + total_bytes byte_len (CSVFileSplitter.writer_rows st) in
  CSVFileSplitter.current_size st = accumulated /\
  (accumulated + byte_len row > CSVFileSplitter.chunk_size self /\
   CSVFileSplitter.current_part st < num_parts ->
     CSVFileSplitter.yielded st'
       = CSVFileSplitter.yielded st ++ [CSVFileSplitter.closed_part st] /\
     CSVFileSplitter.current_part st' = CSVFileSplitter.current_part st + 1 /\
     CSVFileSplitter.writer_rows st' = [row]) /\
  (~ (accumulated + byte_len row > CSVFileSplitter.chunk_size self /\
      CSVFileSplitter.current_part st < num_parts) ->
     CSVFileSplitter.yielded st' = CSVFileSplitter.yielded st /\
     CSVFileSplitter.current_part st' = CSVFileSplitter.current_part st /\
     CSVFileSplitter.writer_rows st' = CSVFileSplitter.writer_rows st ++ [row]) /\
  (CSVFileSplitter.current_part st = num_parts ->
     CSVFileSplitter.yielded fin = CSVFileSplitter.yielded st /\
     CSVFileSplitter.current_part fin = num_parts /\
     CSVFileSplitter.writer_rows fin
       = CSVFileSplitter.writer_rows st ++ row :: post).
Proof.
  intros header_size st st' fin accumulated.
  assert (Hinv : loop_invariant byte_len d header num_parts ([] ++ pre) st).
  { apply loop_invariant_run. apply loop_invariant_first_part. }
  destruct Hinv as (_ & _ & _ & _ & _ & Hsize & _).
  fold header_size in Hsize. fold accumulated in Hsize.
  split; [exact Hsize|].
  assert (Htest : CSVFileSplitter.starts_new_part byte_len self num_parts st row = true
                  <-> accumulated + byte_len row > CSVFileSplitter.chunk_size self /\
                      CSVFileSplitter.current_part st < num_parts).
  { unfold CSVFileSplitter.starts_new_part.
    rewrite andb_true_iff, Z.gtb_gt, Z.ltb_lt, Hsize. reflexivity. }
  split; [|split].
  - intros Hover. apply Htest in Hover.
    subst st'. unfold CSVFileSplitter.loop_body. rewrite Hover. simpl. auto.
  - intros Hfits.
    destruct (CSVFileSplitter.starts_new_part byte_len self num_parts st row) eqn:E.
    + exfalso. apply Hfits. apply Htest. reflexivity.
    + subst st'. unfold CSVFileSplitter.loop_body. rewrite E. simpl. auto.
  - intros Hlast.
    destruct (run_loop_last_part byte_len self d header_size num_parts (row :: post) st)
      as (Hy & Hp & Hr); [lia|].
    fold fin in Hy, Hp, Hr.
    rewrite Hy, Hp, Hr. auto.
Qed.

(** The size counter against the bytes in the open part file: they agree
    in the first part; in a later part the counter is ahead by the
    header's size, since that file got no header. *)
Lemma current_size_and_file_bytes (self : CSVFileSplitter.t) (d : string)
    (header : line) (num_parts : Z) (pre : list line) :
  let st := CSVFileSplitter.run_loop byte_len self d (byte_len header) num_parts pre
              (CSVFileSplitter.first_part byte_len d header) in
  CSVFileSplitter.current_size st
  = total_bytes byte_len (CSVFileSplitter.content (CSVFileSplitter.closed_part st))
    + (if CSVFileSplitter.current_part st =? 1 then 0 else byte_len header).
Proof.
  intros st.
  assert (Hinv : loop_invariant byte_len d header num_parts ([] ++ pre) st).
  { apply loop_invariant_run. apply loop_invariant_first_part. }
  destruct Hinv as (_ & _ & _ & _ & _ & Hsize & Hhdr & _).
  unfold CSVFileSplitter.content, CSVFileSplitter.closed_part; simpl.
  rewrite Hsize, Hhdr, total_bytes_app.
  destruct (CSVFileSplitter.current_part st =? 1); simpl; lia.
Qed.

(** Only the first part file is given the header: every part yielded
    after it holds data rows alone. *)
Lemma later_parts_have_no_header (fs : filesystem line) (self : CSVFileSplitter.t)
    (file_path : string) (num_parts : Z) (ps : list (CSVFileSplitter.part line)) :
  CSVFileSplitter.split_file byte_len fs self file_path num_parts = Ok ps ->
  forall p, In p ps -> CSVFileSplitter.part_number p <> 1 ->
    CSVFileSplitter.header_written p = [].
Proof.
  intros Hsplit p Hp Hnot1.
  destruct (truthy_str (CSVFileSplitter.temp_dir self)) eqn:Hdir.
  2:{ unfold CSVFileSplitter.split_file in Hsplit. rewrite Hdir in Hsplit. discriminate. }
  destruct (fs file_path) as [[|header rows]|] eqn:Hfile.
  - unfold CSVFileSplitter.split_file in Hsplit. rewrite Hdir, Hfile in Hsplit.
    simpl in Hsplit. destruct (CSVFileSplitter.temp_dir self); discriminate.
  - destruct (split_file_yields byte_len fs self file_path num_parts header rows Hdir Hfile)
      as (d & st & Hsplit' & _ & Hinv).
    rewrite Hsplit in Hsplit'. injection Hsplit' as ->.
    destruct Hinv as (_ & _ & _ & _ & _ & _ & Hhdr & Hall).
    apply in_app_or in Hp. destruct Hp as [Hp|[<-|[]]].
    + rewrite Forall_forall in Hall. rewrite (Hall p Hp).
      destruct (CSVFileSplitter.part_number p =? 1) eqn:E; [|reflexivity].
      apply Z.eqb_eq in E. contradiction.
    + simpl in *. rewrite Hhdr.
      destruct (CSVFileSplitter.current_part st =? 1) eqn:E; [|reflexivity].
      apply Z.eqb_eq in E. contradiction.
  - unfold CSVFileSplitter.split_file in Hsplit. rewrite Hdir, Hfile in Hsplit.
    simpl in Hsplit. destruct (CSVFileSplitter.temp_dir self); discriminate.
Qed.

End SplitDecision.

(** C1, at [data.csv] = header [h], rows [a] and [b] (two bytes each), with
    [chunk_size = 3] and two parts asked for: the second part yielded is
    [a], [b]; its first line is the row [a], not the header. *)
Theorem second_part_does_not_begin_with_header :
  exists p1 p2,
    CSVFileSplitter.split_file utf8_len (small_fs small_csv) (entered 3) "data.csv" 2
      = Ok [p1; p2] /\
    hd_error (CSVFileSplitter.content p1) = Some ("h" ++ nl)%string /\
    CSVFileSplitter.part_number p2 = 2 /\
    CSVFileSplitter.content p2 = [("a" ++ nl)%string; ("b" ++ nl)%string] /\
    hd_error (CSVFileSplitter.content p2) <> hd_error small_csv.
Proof.
  do 2 eexists.
  split; [vm_compute; reflexivity|].
  repeat split; discriminate.
Qed.

(** C5, at [data.csv] = header [h] and rows [a], [b], [c], [d] (two bytes
    each), with [chunk_size = 5] and three parts asked for.  When row [c]
    is read the open part is part 2 and its file holds the row [b] alone,
    2 bytes; these plus the 2 bytes of [c] do not exceed 5, and 2 < 3; yet
    a new part is started for [c], because the size counter also counts the
    header that was never written to part 2.  The parts yielded are
    [h a], [b], [c d]. *)
Theorem new_part_started_within_budget :
  let self := entered 5 in
  let header := ("h" ++ nl)%string in
  let c := ("c" ++ nl)%string in
  let st := CSVFileSplitter.run_loop utf8_len self "/tmp/csv_split_0"
              (utf8_len header) 3 [("a" ++ nl)%string; ("b" ++ nl)%string]
              (CSVFileSplitter.first_part utf8_len "/tmp/csv_split_0" header) in
  let open_part := CSVFileSplitter.closed_part st in
  CSVFileSplitter.current_part st = 2 /\
  CSVFileSplitter.content open_part = [("b" ++ nl)%string] /\
  total_bytes utf8_len (CSVFileSplitter.content open_part) = 2 /\
  total_bytes utf8_len (CSVFileSplitter.content open_part) + utf8_len c
    <= CSVFileSplitter.chunk_size self /\
  CSVFileSplitter.current_part st < 3 /\
  CSVFileSplitter.starts_new_part utf8_len self 3 st c = true /\
  CSVFileSplitter.current_size st = 4 /\
  map CSVFileSplitter.content
    (match CSVFileSplitter.split_file utf8_len (small_fs five_line_csv) self
             "data.csv" 3 with
     | Ok ps => ps
     | Raise _ => []
     end)
  = [[("h" ++ nl)%string; ("a" ++ nl)%string];
     [("b" ++ nl)%string];
     [("c" ++ nl)%string; ("d" ++ nl)%string]].
Proof.
  vm_compute.
  repeat split; try reflexivity; discriminate.
Qed.

(** ** The choice of the upload path *)

Section UploadPath.
Context {line : Type}.
Variable byte_len : line -> Z.
Variable env : LoadDataClient.collaborators line.

Lemma ceil_div_bounds (size part_size : Z) :
  0 < part_size ->
  let parts := (size + part_size - 1) / part_size in
  (parts - 1) * part_size < size <= parts * part_size.
Proof.
  intros Hpos parts.
  pose proof (Z.mul_div_le (size + part_size - 1) part_size Hpos) as Hle.
  pose proof (Z.mul_succ_div_gt (size + part_size - 1) part_size Hpos) as Hgt.
  fold parts in Hle, Hgt.
  nia.
Qed.

(** On an existing file and a valid mode, [upload_data] is the chosen
    upload followed by the wait for the job. *)
Lemma upload_data_checks_pass (fuel : nat) (self : LoadDataClient.t)
    (project_id csv_file_path dataset_name mode : string) (poll_job : bool)
    (csv_options : LoadDataClient.DataPullRequestCsvOptions)
    (f : list line) (w : LoadDataClient.world line) :
  LoadDataClient.files env csv_file_path = Some f ->
  mode = "full"%string \/ mode = "incremental"%string ->
  LoadDataClient.upload_data byte_len env fuel self project_id csv_file_path
    dataset_name mode poll_job csv_options w
  = LoadDataClient.bind
      (LoadDataClient.choose_upload byte_len env self project_id csv_file_path
         dataset_name mode csv_options (total_bytes byte_len f))
      (LoadDataClient.await_job env fuel poll_job) w.
Proof.
  intros Hfile Hmode.
  assert (Hvalid : negb (mode =? "full")%string && negb (mode =? "incremental")%string
                   = false).
  { destruct Hmode as [-> | ->]; reflexivity. }
  unfold LoadDataClient.upload_data, LoadDataClient.os_path_exists,
    LoadDataClient.os_path_getsize.
  rewrite Hfile, Hvalid. reflexivity.
Qed.

(** C6. [upload_data] on an existing file and a valid mode: a file of
    exactly [chunk_size] bytes (the single-part threshold) goes the
    single-part way; a file of [chunk_size + 1] bytes goes the multipart
    way, with [parts] the ceiling of file size over [target_part_size]. *)
Theorem upload_data_threshold_boundary (fuel : nat) (self : LoadDataClient.t)
    (project_id csv_file_path dataset_name mode : string) (poll_job : bool)
    (csv_options : LoadDataClient.DataPullRequestCsvOptions)
    (f : list line) (w : LoadDataClient.world line) :
  LoadDataClient.files env csv_file_path = Some f ->
  mode = "full"%string \/ mode = "incremental"%string ->
  0 < LoadDataClient.target_part_size self ->
  (total_bytes byte_len f = LoadDataClient.chunk_size self ->
     LoadDataClient.upload_data byte_len env fuel self project_id csv_file_path
       dataset_name mode poll_job csv_options w
     = LoadDataClient.bind
         (LoadDataClient._single_part_upload byte_len env self project_id
            csv_file_path dataset_name mode csv_options)
         (LoadDataClient.await_job env fuel poll_job) w) /\
  (total_bytes byte_len f = LoadDataClient.chunk_size self + 1 ->
     exists parts,
       (parts - 1) * LoadDataClient.target_part_size self
         < total_bytes byte_len f <= parts * LoadDataClient.target_part_size self /\
       LoadDataClient.upload_data byte_len env fuel self project_id csv_file_path
         dataset_name mode poll_job csv_options w
       = LoadDataClient.bind
           (LoadDataClient._multipart_upload byte_len env self project_id
              csv_file_path parts dataset_name mode csv_options)
           (LoadDataClient.await_job env fuel poll_job) w).
Proof.
  intros Hfile Hmode Hpos.
  rewrite (upload_data_checks_pass fuel self project_id csv_file_path dataset_name mode
             poll_job csv_options f w Hfile Hmode).
  unfold LoadDataClient.choose_upload.
  split; intros Hsize; rewrite Hsize.
  - rewrite Z.leb_refl. reflexivity.
  - exists ((LoadDataClient.chunk_size self + 1 + LoadDataClient.target_part_size self - 1)
            / LoadDataClient.target_part_size self).
    split; [apply ceil_div_bounds; exact Hpos|].
    replace (LoadDataClient.chunk_size self + 1 <=? LoadDataClient.chunk_size self)
      with false by (symmetry; apply Z.leb_gt; lia).
    replace (LoadDataClient.target_part_size self =? 0)
      with false by (symmetry; apply Z.eqb_neq; lia).
    reflexivity.
Qed.

End UploadPath.

(** C2, at a file of 120 MiB (a header line and 119 rows of 1 MiB each)
    with the default client (threshold 50 MiB, target part size 20 MiB):
    6 upload slots are requested and the splitter is asked for 6 parts,
    but it is given the 50 MiB threshold as its budget and yields 3 parts;
    the part uploader is called 3 times and the completion request carries
    the 3 pairs numbered 1, 2, 3. *)
Theorem upload_120MiB_uploads_three_parts :
  let self := LoadDataClient.__init__ LoadDataClient.default_chunk_size in
  let env := accepting_backend sized_len (sized_fs csv_120MiB)
               [("SUCCEEDED"%string, None)] in
  let run := LoadDataClient.upload_data sized_len env 1 self "p1" "data.csv"
               "stores" "full" true [] fresh in
  total_bytes sized_len csv_120MiB = 120 * MiB /\
  LoadDataClient.chunk_size self = 50 * MiB /\
  LoadDataClient.target_part_size self = 20 * MiB /\
  requested_parts (log_of run) = [Some 6] /\
  (exists ps,
     CSVFileSplitter.split_file sized_len (sized_fs csv_120MiB)
       (CSVFileSplitter.__enter__ (CSVFileSplitter.__init__ (50 * MiB)) "/tmp/csv_split_0")
       "data.csv" 6 = Ok ps /\
     List.length ps = 3%nat) /\
  List.length (part_uploads (log_of run)) = 3%nat /\
  map (fun req => map LoadDataClient.partNumber (LoadDataClient.partETags req))
      (completions (log_of run)) = [[1; 2; 3]].
Proof.
  vm_compute.
  repeat split; try reflexivity.
  eexists. split; reflexivity.
Qed.

(** ** The multipart path *)

Section Multipart.
Context {line : Type}.
Variable byte_len : line -> Z.
Variable env : LoadDataClient.collaborators line.

Lemma completions_app (h1 h2 : list (LoadDataClient.event line)) :
  completions (h1 ++ h2) = completions h1 ++ completions h2.
Proof. unfold completions. apply flat_map_app. Qed.

Lemma part_uploads_app (h1 h2 : list (LoadDataClient.event line)) :
  part_uploads (h1 ++ h2) = part_uploads h1 ++ part_uploads h2.
Proof. unfold part_uploads. apply flat_map_app. Qed.

(** [_upload_part] makes one PUT of the compressed content and ends as
    [part_upload_outcome] says. *)
Lemma _upload_part_run (self : LoadDataClient.t) (url : string) (c : list line)
    (w : LoadDataClient.world line) :
  exists hdrs out w',
    LoadDataClient._upload_part env self url c w
      = Some (part_upload_outcome out, w') /\
    LoadDataClient.log w'
      = LoadDataClient.log w
        ++ [LoadDataClient.RequestsPut url (LoadDataClient.GzipCompressed c) hdrs out].
Proof.
  pose (hdrs := [("Content-Type", LoadDataClient.content_type self);
                 ("Content-Length", str (LoadDataClient.gzip_size env c))]%string).
  pose (out := LoadDataClient.requests_put env (LoadDataClient.log w) url
                 (LoadDataClient.GzipCompressed c) hdrs).
  exists hdrs, out,
    {| LoadDataClient.log :=
         LoadDataClient.log w
         ++ [LoadDataClient.RequestsPut url (LoadDataClient.GzipCompressed c) hdrs out];
       LoadDataClient.now :=
         LoadDataClient.now w
         + Z.max 0 (LoadDataClient.latency env (LoadDataClient.log w)) |}.
  split; [|reflexivity].
  unfold LoadDataClient._upload_part, LoadDataClient.bind, LoadDataClient.call,
    LoadDataClient.lift.
  fold hdrs. fold out.
  destruct out as [response|e]; reflexivity.
Qed.

(** The upload loop: it submits no completion; when it returns, it has
    uploaded every part in turn and appended one pair per part; a part
    upload that raises makes the loop raise. *)
Lemma upload_parts_run (self : LoadDataClient.t) (upload_urls : list string)
    (ps : list (CSVFileSplitter.part line)) :
  forall (acc : list LoadDataClient.PartETag) (w : LoadDataClient.world line),
  exists r w' new,
    LoadDataClient.upload_parts env self upload_urls ps acc w = Some (r, w') /\
    LoadDataClient.log w' = LoadDataClient.log w ++ new /\
    completions new = [] /\
    (forall uploaded, r = Ok uploaded ->
       exists tags,
         uploaded = acc ++ tags /\
         map LoadDataClient.partNumber tags = map CSVFileSplitter.part_number ps /\
         map snd (part_uploads new) = map (fun t => Ok (LoadDataClient.eTag t)) tags /\
         map (fun u => snd (fst u)) (part_uploads new) = map CSVFileSplitter.content ps) /\
    ((exists u, In u (part_uploads new) /\ is_raise (snd u) = true) ->
       is_raise r = true).
Proof.
  induction ps as [|p ps IH]; intros acc w.
  - exists (Ok acc), w, []. simpl.
    split; [reflexivity|]. split; [rewrite app_nil_r; reflexivity|].
    split; [reflexivity|]. split.
    + intros uploaded [= <-]. exists []. rewrite app_nil_r. auto.
    + intros (u & [] & _).
  - cbn [LoadDataClient.upload_parts].
    unfold LoadDataClient.bind at 1. unfold LoadDataClient.lift.
    destruct (LoadDataClient.list_getitem upload_urls
                (CSVFileSplitter.part_number p - 1)) as [url|e].
    2:{ exists (Raise e), w, []. simpl.
        split; [reflexivity|]. split; [rewrite app_nil_r; reflexivity|].
        split; [reflexivity|]. split; [discriminate|reflexivity]. }
    unfold LoadDataClient.bind at 1.
    destruct (_upload_part_run self url (CSVFileSplitter.content p) w)
      as (hdrs & out & w1 & Hrun & Hlog1).
    rewrite Hrun.
    destruct (part_upload_outcome out) as [etag|e] eqn:Hout.
    + destruct (IH (acc ++ [{| LoadDataClient.eTag := etag;
                               LoadDataClient.partNumber := CSVFileSplitter.part_number p |}])
                   w1)
        as (r & w' & new & Hrest & Hlog & Hnone & Hok & Hfail).
      exists r, w',
        (LoadDataClient.RequestsPut url
           (LoadDataClient.GzipCompressed (CSVFileSplitter.content p)) hdrs out :: new).
      split; [exact Hrest|].
      split; [rewrite Hlog, Hlog1, <- app_assoc; reflexivity|].
      split; [simpl; exact Hnone|].
      split.
      * intros uploaded Hr. destruct (Hok uploaded Hr) as (tags & -> & Hnums & Htags & Hcont).
        exists ({| LoadDataClient.eTag := etag;
                   LoadDataClient.partNumber := CSVFileSplitter.part_number p |} :: tags).
        simpl. rewrite <- app_assoc, Hnums, Htags, Hcont, Hout. auto.
      * intros (u & Hu & Hraise). apply Hfail.
        simpl in Hu. destruct Hu as [<-|Hu].
        -- simpl in Hraise. rewrite Hout in Hraise. discriminate.
        -- exists u. auto.
    + exists (Raise e), w1,
        [LoadDataClient.RequestsPut url
           (LoadDataClient.GzipCompressed (CSVFileSplitter.content p)) hdrs out].
      split; [reflexivity|].
      split; [exact Hlog1|].
      split; [reflexivity|].
      split; [discriminate|reflexivity].
Qed.

(** C3, amended. [_multipart_upload] always ends, and in the calls it
    records: a completion request is submitted only after every part
    yielded by the splitter has been uploaded successfully, and it carries
    one (tag, partNumber) pair per yielded part, in yield order, with the
    tag that part's upload returned; if any part upload raises, no
    completion request is submitted. *)
Theorem completion_after_every_yielded_part (self : LoadDataClient.t)
    (project_id csv_file_path : string) (parts : Z) (dataset_name mode : string)
    (csv_options : LoadDataClient.DataPullRequestCsvOptions)
    (w : LoadDataClient.world line) :
  exists r w' new,
    LoadDataClient._multipart_upload byte_len env self project_id csv_file_path
      parts dataset_name mode csv_options w = Some (r, w') /\
    LoadDataClient.log w' = LoadDataClient.log w ++ new /\
    (forall req, In req (completions new) ->
       completions new = [req] /\
       exists ps,
         CSVFileSplitter.split_file byte_len (LoadDataClient.files env)
           (CSVFileSplitter.__enter__
              (CSVFileSplitter.__init__ (LoadDataClient.chunk_size self))
              (LoadDataClient.mkdtemp env))
           csv_file_path parts = Ok ps /\
         map LoadDataClient.partNumber (LoadDataClient.partETags req)
           = map CSVFileSplitter.part_number ps /\
         map (fun u => snd (fst u)) (part_uploads new)
           = map CSVFileSplitter.content ps /\
         map snd (part_uploads new)
           = map (fun t => Ok (LoadDataClient.eTag t)) (LoadDataClient.partETags req)) /\
    ((exists u, In u (part_uploads new) /\ is_raise (snd u) = true) ->
       completions new = [] /\ is_raise r = true).
Proof.
  unfold LoadDataClient._multipart_upload.
  unfold LoadDataClient.bind at 1. unfold LoadDataClient.call at 1.
  set (ev0 := LoadDataClient.DataUpload project_id (Some parts)
                (LoadDataClient.data_upload env (LoadDataClient.log w) project_id
                   (Some parts))).
  set (w0 := {| LoadDataClient.log := LoadDataClient.log w ++ [ev0];
                LoadDataClient.now := _ |}).
  destruct (LoadDataClient.data_upload env (LoadDataClient.log w) project_id (Some parts))
    as [upload_response|e] eqn:Hup.
  2:{ exists (Raise e), w0, [ev0].
      split; [reflexivity|]. split; [reflexivity|].
      split; [intros req []|]. intros (u & [] & _). }
  unfold LoadDataClient.bind at 1. unfold LoadDataClient.lift at 1.
  destruct (CSVFileSplitter.split_file byte_len (LoadDataClient.files env) _
              csv_file_path parts) as [ps|e] eqn:Hsplit.
  2:{ exists (Raise e), w0, [ev0].
      split; [reflexivity|]. split; [reflexivity|].
      split; [intros req []|]. intros (u & [] & _). }
  unfold LoadDataClient.bind at 1.
  destruct (upload_parts_run self (LoadDataClient.upload_urls_encoded upload_response)
              ps [] w0)
    as (r1 & w1 & new1 & Hloop & Hlog1 & Hnone & Hok & Hfail).
  rewrite Hloop.
  destruct r1 as [uploaded|e].
  2:{ exists (Raise e), w1, (ev0 :: new1).
      split; [reflexivity|].
      split; [rewrite Hlog1; subst w0; simpl; rewrite <- app_assoc; reflexivity|].
      assert (Hc : completions (ev0 :: new1) = []) by (simpl; exact Hnone).
      split; [rewrite Hc; intros req []|].
      intros _. split; [exact Hc|reflexivity]. }
  destruct (Hok uploaded eq_refl) as (tags & Htags & Hnums & Houts & Hcont).
  simpl in Htags. subst tags.
  unfold LoadDataClient.bind at 1. unfold LoadDataClient.call at 1.
  set (req := {| LoadDataClient.complete_id := LoadDataClient.id upload_response;
                 LoadDataClient.uploadId := LoadDataClient.upload_id upload_response;
                 LoadDataClient.partETags := uploaded |}).
  set (out_c := LoadDataClient.complete_multipart_upload env (LoadDataClient.log w1)
                  project_id (LoadDataClient.id upload_response) req).
  set (ev_c := LoadDataClient.CompleteMultipartUpload project_id
                 (LoadDataClient.id upload_response) req out_c).
  set (w2 := {| LoadDataClient.log := LoadDataClient.log w1 ++ [ev_c];
                LoadDataClient.now := _ |}).
  assert (Hlog2 : LoadDataClient.log w2 = LoadDataClient.log w ++ (ev0 :: new1) ++ [ev_c]).
  { subst w2 w0. simpl. rewrite Hlog1. simpl. rewrite <- !app_assoc. reflexivity. }
  assert (Hcomp : forall tail, completions tail = [] ->
            completions ((ev0 :: new1) ++ ev_c :: tail) = [req]).
  { intros tail Htail. rewrite completions_app. simpl. rewrite Hnone, Htail. reflexivity. }
  assert (Hputs : forall tail, part_uploads tail = [] ->
            part_uploads ((ev0 :: new1) ++ ev_c :: tail) = part_uploads new1).
  { intros tail Htail. rewrite part_uploads_app. simpl. rewrite Htail, app_nil_r.
    reflexivity. }
  assert (Hfinish : forall (r : result LoadDataClient.JobDetailResponse) w' tail,
            LoadDataClient.log w' = LoadDataClient.log w2 ++ tail ->
            completions tail = [] -> part_uploads tail = [] ->
            LoadDataClient.log w' = LoadDataClient.log w ++ ((ev0 :: new1) ++ ev_c :: tail) /\
            (forall req', In req' (completions ((ev0 :: new1) ++ ev_c :: tail)) ->
               completions ((ev0 :: new1) ++ ev_c :: tail) = [req'] /\
               exists ps',
                 Ok ps = Ok ps' /\
                 map LoadDataClient.partNumber (LoadDataClient.partETags req')
                   = map CSVFileSplitter.part_number ps' /\
                 map (fun u => snd (fst u)) (part_uploads ((ev0 :: new1) ++ ev_c :: tail))
                   = map CSVFileSplitter.content ps' /\
                 map snd (part_uploads ((ev0 :: new1) ++ ev_c :: tail))
                   = map (fun t => Ok (LoadDataClient.eTag t))
                         (LoadDataClient.partETags req')) /\
            ((exists u, In u (part_uploads ((ev0 :: new1) ++ ev_c :: tail)) /\
                        is_raise (snd u) = true) ->
               completions ((ev0 :: new1) ++ ev_c :: tail) = [] /\ is_raise r = true)).
  { intros r w' tail Hlog Hct Hpt.
    rewrite (Hcomp tail Hct), (Hputs tail Hpt).
    split.
    - rewrite Hlog, Hlog2, <- !app_assoc. reflexivity.
    - split.
      + intros req' [<-|[]]. split; [reflexivity|].
        exists ps. simpl. auto.
      + intros Hu. apply Hfail in Hu. discriminate. }
  destruct out_c as [[]|e] eqn:Hout_c.
  2:{ exists (Raise e), w2, ((ev0 :: new1) ++ ev_c :: []).
      split; [reflexivity|].
      apply (Hfinish (Raise e) w2 []); [rewrite app_nil_r|..]; reflexivity. }
  unfold LoadDataClient.bind at 1. unfold LoadDataClient.lift at 1.
  destruct (LoadDataClient._get_file_uri_from_response upload_response) as [file_uri|e].
  2:{ exists (Raise e), w2, ((ev0 :: new1) ++ ev_c :: []).
      split; [reflexivity|].
      apply (Hfinish (Raise e) w2 []); [rewrite app_nil_r|..]; reflexivity. }
  unfold LoadDataClient._submit_data_pull_request, LoadDataClient.call.
  eexists _, _, ((ev0 :: new1) ++ ev_c :: [_]).
  split; [reflexivity|].
  apply Hfinish; reflexivity.
Qed.

End Multipart.

(** C3 as stated fails at a file of 60 MiB (a header line of 1 MiB and one
    row of 59 MiB) uploaded with the default client: 3 parts are requested,
    the splitter yields 2, and completion is submitted with 2 pairs. *)
Lemma completion_with_fewer_pairs_than_requested :
  let self := LoadDataClient.__init__ LoadDataClient.default_chunk_size in
  let env := accepting_backend sized_len (sized_fs csv_one_long_row) [] in
  let run := LoadDataClient.upload_data sized_len env 0 self "p1" "data.csv"
               "stores" "full" false [] fresh in
  requested_parts (log_of run) = [Some 3] /\
  exists req,
    completions (log_of run) = [req] /\
    List.length (LoadDataClient.partETags req) = 2%nat /\
    Z.of_nat (List.length (LoadDataClient.partETags req)) <> 3.
Proof.
  vm_compute.
  split; [reflexivity|].
  eexists. split; [reflexivity|].
  split; [reflexivity|discriminate].
Qed.

(** ** Polling *)

Section Polling.
Context {line : Type}.
Variable env : LoadDataClient.collaborators line.

Lemma fetches_app (h1 h2 : list (LoadDataClient.event line)) :
  fetches (h1 ++ h2) = (fetches h1 + fetches h2)%nat.
Proof. unfold fetches. rewrite filter_app, length_app. reflexivity. Qed.

(** One iteration that fetches [SUCCEEDED]. *)
Lemma poll_loop_succeeded (fuel : nat) (job : string) (poll_interval : Z)
    (timeout : option Z) (start_time : Z) (w : LoadDataClient.world line)
    (js : LoadDataClient.JobDetailResponse) :
  LoadDataClient.get_job_status env (LoadDataClient.log w) job "dataPull" = Ok js ->
  LoadDataClient.status js = "SUCCEEDED"%string ->
  LoadDataClient.poll_loop env (S fuel) job poll_interval timeout start_time w
  = Some (Ok true, after_call env w (LoadDataClient.GetJobStatus job "dataPull" (Ok js))).
Proof.
  intros Hget Hst.
  cbn [LoadDataClient.poll_loop].
  unfold LoadDataClient.bind at 1. unfold LoadDataClient.call.
  rewrite Hget, Hst. reflexivity.
Qed.

(** One iteration that fetches a status that is not terminal. *)
Lemma poll_loop_not_terminal (fuel : nat) (job : string) (poll_interval : Z)
    (timeout : option Z) (start_time : Z) (w : LoadDataClient.world line)
    (js : LoadDataClient.JobDetailResponse) :
  LoadDataClient.get_job_status env (LoadDataClient.log w) job "dataPull" = Ok js ->
  LoadDataClient.status js <> "SUCCEEDED"%string ->
  LoadDataClient.status js <> "FAILED"%string ->
  let w1 := after_call env w (LoadDataClient.GetJobStatus job "dataPull" (Ok js)) in
  LoadDataClient.poll_loop env (S fuel) job poll_interval timeout start_time w
  = if LoadDataClient.truthy_int timeout &&
       (LoadDataClient.now w1 - start_time
        >? match timeout with Some v => v | None => 0 end
           * LoadDataClient.ticks_per_second env)
    then Some (Raise (TimeoutError
                        (timeout_message job match timeout with Some v => v | None => 0 end)),
               w1)
    else if poll_interval <? 0
    then Some (Raise (ValueError "sleep length must be non-negative"), w1)
    else LoadDataClient.poll_loop env fuel job poll_interval timeout start_time
           {| LoadDataClient.log := LoadDataClient.log w1 ++ [LoadDataClient.Sleep poll_interval];
              LoadDataClient.now :=
                LoadDataClient.now w1 + poll_interval * LoadDataClient.ticks_per_second env |}.
Proof.
  intros Hget Hs Hf w1.
  cbn [LoadDataClient.poll_loop].
  unfold LoadDataClient.bind at 1. unfold LoadDataClient.call.
  rewrite Hget.
  apply String.eqb_neq in Hs, Hf. rewrite Hs, Hf.
  unfold LoadDataClient.bind at 1. unfold LoadDataClient.time_time.
  fold (after_call env w (LoadDataClient.GetJobStatus job "dataPull" (Ok js))).
  fold w1.
  destruct (LoadDataClient.truthy_int timeout && _); [reflexivity|].
  unfold LoadDataClient.bind, LoadDataClient.time_sleep.
  destruct (poll_interval <? 0); reflexivity.
Qed.

(** If the last call recorded by the poller is a fetch that answered
    [FAILED], the poller returned [False]. *)
Lemma poll_loop_failed_returns_false (fuel : nat) (job : string) (poll_interval : Z)
    (timeout : option Z) (start_time : Z) :
  forall (w w' : LoadDataClient.world line) (r : result bool)
         (h : list (LoadDataClient.event line)) (j t : string)
         (js : LoadDataClient.JobDetailResponse),
  LoadDataClient.poll_loop env fuel job poll_interval timeout start_time w = Some (r, w') ->
  LoadDataClient.log w' = h ++ [LoadDataClient.GetJobStatus j t (Ok js)] ->
  LoadDataClient.status js = "FAILED"%string ->
  r = Ok false.
Proof.
  induction fuel as [|fuel IH]; intros w w' r h j t js Hrun Hlog Hfailed.
  - discriminate.
  - destruct (LoadDataClient.get_job_status env (LoadDataClient.log w) job "dataPull")
      as [js0|e] eqn:Hget.
    + destruct (String.eqb_spec (LoadDataClient.status js0) "SUCCEEDED") as [Hs|Hs].
      { rewrite (poll_loop_succeeded fuel job poll_interval timeout start_time w js0 Hget Hs)
          in Hrun.
        injection Hrun as <- <-. simpl in Hlog.
        apply app_inj_tail in Hlog. destruct Hlog as [_ Hev].
        injection Hev as _ _ ->. congruence. }
      destruct (String.eqb_spec (LoadDataClient.status js0) "FAILED") as [Hf|Hf].
      { cbn [LoadDataClient.poll_loop] in Hrun.
        unfold LoadDataClient.bind at 1 in Hrun. unfold LoadDataClient.call in Hrun.
        rewrite Hget in Hrun.
        apply String.eqb_neq in Hs. rewrite Hs in Hrun.
        apply String.eqb_eq in Hf. rewrite Hf in Hrun.
        injection Hrun as <- _. reflexivity. }
      rewrite (poll_loop_not_terminal fuel job poll_interval timeout start_time w js0
                 Hget Hs Hf) in Hrun.
      cbv zeta in Hrun.
      destruct (LoadDataClient.truthy_int timeout && _).
      { injection Hrun as _ <-. simpl in Hlog.
        apply app_inj_tail in Hlog. destruct Hlog as [_ Hev].
        injection Hev as _ _ ->. congruence. }
      destruct (poll_interval <? 0).
      { injection Hrun as _ <-. simpl in Hlog.
        apply app_inj_tail in Hlog. destruct Hlog as [_ Hev].
        injection Hev as _ _ ->. congruence. }
      exact (IH _ _ _ _ _ _ _ Hrun Hlog Hfailed).
    + cbn [LoadDataClient.poll_loop] in Hrun.
      unfold LoadDataClient.bind at 1 in Hrun. unfold LoadDataClient.call in Hrun.
      rewrite Hget in Hrun.
      injection Hrun as _ <-. simpl in Hlog.
      apply app_inj_tail in Hlog. destruct Hlog as [_ Hev]. discriminate.
Qed.

(** With a timeout of one second, statuses that never turn terminal and a
    clock that advances on every iteration, the loop raises [TimeoutError]
    as soon as it has fuel for the iterations one second can hold. *)
Lemma poll_loop_times_out (job : string) (poll_interval start_time : Z) :
  (forall h, exists js,
     LoadDataClient.get_job_status env h job "dataPull" = Ok js /\
     LoadDataClient.status js <> "SUCCEEDED"%string /\
     LoadDataClient.status js <> "FAILED"%string) ->
  0 <= poll_interval ->
  (forall h, 1 <= poll_interval * LoadDataClient.ticks_per_second env
                  + Z.max 0 (LoadDataClient.latency env h)) ->
  forall (n fuel : nat) (w : LoadDataClient.world line),
  (n < fuel)%nat ->
  LoadDataClient.ticks_per_second env - (LoadDataClient.now w - start_time) < Z.of_nat n ->
  exists w',
    LoadDataClient.poll_loop env fuel job poll_interval (Some 1) start_time w
    = Some (Raise (TimeoutError (timeout_message job 1)), w').
Proof.
  intros Hnever Hinterval Hprogress.
  induction n as [|n IH]; intros fuel w Hfuel Hleft.
  - destruct fuel as [|fuel]; [lia|].
    destruct (Hnever (LoadDataClient.log w)) as (js & Hget & Hs & Hf).
    rewrite (poll_loop_not_terminal fuel job poll_interval (Some 1) start_time w js
               Hget Hs Hf).
    cbv zeta. simpl LoadDataClient.truthy_int. simpl LoadDataClient.now.
    replace (_ >? _) with true by (symmetry; apply Z.gtb_gt; lia).
    simpl. eexists. reflexivity.
  - destruct fuel as [|fuel]; [lia|].
    destruct (Hnever (LoadDataClient.log w)) as (js & Hget & Hs & Hf).
    rewrite (poll_loop_not_terminal fuel job poll_interval (Some 1) start_time w js
               Hget Hs Hf).
    cbv zeta. simpl LoadDataClient.truthy_int. simpl LoadDataClient.now.
    destruct (_ >? _) eqn:Hgt.
    + simpl. eexists. reflexivity.
    + simpl andb. cbv iota.
      replace (poll_interval <? 0) with false by (symmetry; apply Z.ltb_ge; lia).
      apply IH; [lia|].
      simpl LoadDataClient.now.
      specialize (Hprogress (LoadDataClient.log w)). lia.
Qed.

End Polling.

Section PollingClaims.
Context {line : Type}.

(** C8. (1) When the status fetches answer RUNNING, RUNNING, SUCCEEDED,
    [poll_job_status] with interval 0 and no timeout returns [True], and
    it has then made exactly 3 status fetches.  (2) With [timeout = 1] and
    statuses that never turn terminal, [poll_job_status] raises
    [TimeoutError]; the clock is taken to advance on every iteration (by
    the sleep or by the time a fetch takes). *)
Theorem poll_job_status_scenarios :
  (forall (env : LoadDataClient.collaborators line) (job : string)
          (w : LoadDataClient.world line) (fuel : nat)
          (script : list (string * option string)),
     LoadDataClient.get_job_status env = scripted_status script ->
     map fst script = ["RUNNING"; "RUNNING"; "SUCCEEDED"]%string ->
     fetches (LoadDataClient.log w) = 0%nat ->
     (3 <= fuel)%nat ->
     exists w',
       LoadDataClient.poll_job_status env fuel job 0 None w = Some (Ok true, w') /\
       fetches (LoadDataClient.log w') = 3%nat) /\
  (forall (env : LoadDataClient.collaborators line) (job : string)
          (poll_interval : Z) (w : LoadDataClient.world line),
     (forall h, exists js,
        LoadDataClient.get_job_status env h job "dataPull" = Ok js /\
        LoadDataClient.status js <> "SUCCEEDED"%string /\
        LoadDataClient.status js <> "FAILED"%string) ->
     0 <= poll_interval ->
     (forall h, 1 <= poll_interval * LoadDataClient.ticks_per_second env
                     + Z.max 0 (LoadDataClient.latency env h)) ->
     exists fuel0,
       forall fuel, (fuel0 <= fuel)%nat ->
       exists w',
         LoadDataClient.poll_job_status env fuel job poll_interval (Some 1) w
         = Some (Raise (TimeoutError (timeout_message job 1)), w')).
Proof.
  split.
  - intros env job w fuel script Hget Hscript Hzero Hfuel.
    destruct script as [|[s1 m1] [|[s2 m2] [|[s3 m3] [|]]]]; try discriminate.
    injection Hscript as -> -> ->.
    destruct fuel as [|[|[|fuel]]]; try lia.
    unfold LoadDataClient.poll_job_status, LoadDataClient.bind, LoadDataClient.time_time.
    set (js := fun m => {| LoadDataClient.job_id := job;
                           LoadDataClient.status := "RUNNING";
                           LoadDataClient.message := m |}).
    assert (Hstep : forall f w0 m n,
              fetches (LoadDataClient.log w0) = n ->
              nth_error [("RUNNING", m1); ("RUNNING", m2); ("SUCCEEDED", m3)]%string n
                = Some ("RUNNING"%string, m) ->
              exists w1,
                LoadDataClient.poll_loop env (S f) job 0 None (LoadDataClient.now w) w0
                = LoadDataClient.poll_loop env f job 0 None (LoadDataClient.now w) w1 /\
                fetches (LoadDataClient.log w1) = S n).
    { intros f w0 m n Hn Hnth.
      assert (Hg : LoadDataClient.get_job_status env (LoadDataClient.log w0) job "dataPull"
                   = Ok (js m)).
      { rewrite Hget. unfold scripted_status. rewrite Hn, Hnth. reflexivity. }
      rewrite (poll_loop_not_terminal env f job 0 None (LoadDataClient.now w) w0 (js m) Hg)
        by discriminate.
      cbv zeta. simpl.
      eexists. split; [reflexivity|].
      simpl. rewrite !fetches_app, Hn. unfold fetches. simpl. lia. }
    destruct (Hstep (S (S fuel)) w m1 0%nat Hzero eq_refl) as (w1 & -> & H1).
    destruct (Hstep (S fuel) w1 m2 1%nat H1 eq_refl) as (w2 & -> & H2).
    assert (Hg : LoadDataClient.get_job_status env (LoadDataClient.log w2) job "dataPull"
                 = Ok {| LoadDataClient.job_id := job;
                         LoadDataClient.status := "SUCCEEDED";
                         LoadDataClient.message := m3 |}).
    { rewrite Hget. unfold scripted_status. rewrite H2. reflexivity. }
    rewrite (poll_loop_succeeded env fuel job 0 None (LoadDataClient.now w) w2 _ Hg eq_refl).
    eexists. split; [reflexivity|].
    simpl. rewrite fetches_app, H2. unfold fetches. reflexivity.
  - intros env job poll_interval w Hnever Hinterval Hprogress.
    exists (S (Z.to_nat (LoadDataClient.ticks_per_second env) + 1)).
    intros fuel Hfuel.
    unfold LoadDataClient.poll_job_status, LoadDataClient.bind, LoadDataClient.time_time.
    apply (poll_loop_times_out env job poll_interval (LoadDataClient.now w)
             Hnever Hinterval Hprogress
             (Z.to_nat (LoadDataClient.ticks_per_second env) + 1) fuel w); lia.
Qed.

Variable byte_len : line -> Z.
Variable env : LoadDataClient.collaborators line.

(** C7, amended. When [upload_data] waits for the job ([poll_job=True])
    and the last status fetched is FAILED, whatever message the backend
    gave with it, the error raised to the caller is
    [Exception("Job <id> failed")]: its text is built from the job id
    alone; the backend's message is not used for it. *)
Theorem failed_job_error_names_the_job (fuel : nat) (self : LoadDataClient.t)
    (project_id csv_file_path dataset_name mode : string)
    (csv_options : LoadDataClient.DataPullRequestCsvOptions)
    (f : list line) (w w1 w2 : LoadDataClient.world line)
    (job_response : LoadDataClient.JobDetailResponse) (r : result bool)
    (h : list (LoadDataClient.event line)) (js : LoadDataClient.JobDetailResponse) :
  LoadDataClient.files env csv_file_path = Some f ->
  mode = "full"%string \/ mode = "incremental"%string ->
  LoadDataClient.choose_upload byte_len env self project_id csv_file_path
    dataset_name mode csv_options (total_bytes byte_len f) w
    = Some (Ok job_response, w1) ->
  LoadDataClient.poll_job_status env fuel (LoadDataClient.job_id job_response) 5 None w1
    = Some (r, w2) ->
  LoadDataClient.log w2
    = h ++ [LoadDataClient.GetJobStatus (LoadDataClient.job_id job_response)
              "dataPull" (Ok js)] ->
  LoadDataClient.status js = "FAILED"%string ->
  LoadDataClient.upload_data byte_len env fuel self project_id csv_file_path
    dataset_name mode true csv_options w
  = Some (Raise (Exception
                   ("Job " ++ LoadDataClient.job_id job_response ++ " failed")%string),
          w2).
Proof.
  intros Hfile Hmode Hupload Hpoll Hlog Hfailed.
  assert (Hr : r = Ok false).
  { unfold LoadDataClient.poll_job_status, LoadDataClient.bind,
      LoadDataClient.time_time in Hpoll.
    exact (poll_loop_failed_returns_false env fuel _ 5 None _ _ _ _ _ _ _ _
             Hpoll Hlog Hfailed). }
  subst r.
  rewrite (upload_data_checks_pass byte_len env fuel self project_id csv_file_path
             dataset_name mode true csv_options f w Hfile Hmode).
  unfold LoadDataClient.bind at 1. rewrite Hupload.
  unfold LoadDataClient.await_job.
  unfold LoadDataClient.bind at 1. rewrite Hpoll. reflexivity.
Qed.

End PollingClaims.

(** C7 as stated fails for [data.csv] uploaded with the default client
    when the job answers RUNNING and then FAILED with the message
    [disk full]: the error raised is [Exception("Job job-1 failed")], and
    [disk full] is not part of it. *)
Lemma failed_job_error_lacks_backend_message :
  let self := LoadDataClient.__init__ LoadDataClient.default_chunk_size in
  let env := accepting_backend utf8_len (small_fs small_csv)
               [("RUNNING", None); ("FAILED", Some "disk full")]%string in
  let run := LoadDataClient.upload_data utf8_len env 2 self "p1" "data.csv"
               "stores" "full" true [] fresh in
  exists e h js,
    outcome_of run = Some (Raise e) /\
    log_of run = h ++ [LoadDataClient.GetJobStatus "job-1" "dataPull" (Ok js)] /\
    LoadDataClient.status js = "FAILED"%string /\
    LoadDataClient.message js = Some "disk full"%string /\
    e = Exception "Job job-1 failed" /\
    contains "disk full" (exn_message e) = false.
Proof.
  intros self env run.
  exists (Exception "Job job-1 failed"), (removelast (log_of run)),
    {| LoadDataClient.job_id := "job-1";
       LoadDataClient.status := "FAILED";
       LoadDataClient.message := Some "disk full"%string |}.
  vm_compute. repeat split; reflexivity.
Qed.

(** ** The theorems at concrete inputs *)

Lemma split_file_preserves_rows_witness :
  exists ps,
    CSVFileSplitter.split_file utf8_len (small_fs small_csv) (entered 3) "data.csv" 2
      = Ok ps /\
    List.concat (map CSVFileSplitter.rows_written ps)
      = [("a" ++ nl)%string; ("b" ++ nl)%string] /\
    List.concat (map CSVFileSplitter.content ps)
      = [("h" ++ nl)%string; ("a" ++ nl)%string; ("b" ++ nl)%string] /\
    Z.of_nat (List.length ps) <= 2.
Proof.
  apply (split_file_preserves_rows utf8_len (small_fs small_csv) (entered 3)
           "data.csv" 2 ("h" ++ nl)%string [("a" ++ nl)%string; ("b" ++ nl)%string]).
  - reflexivity.
  - reflexivity.
  - lia.
Defined.

Lemma split_file_part_numbers_witness :
  exists ps k,
    CSVFileSplitter.split_file utf8_len (small_fs small_csv) (entered 3) "data.csv" 5
      = Ok ps /\
    map CSVFileSplitter.part_number ps = map Z.of_nat (seq 1 k) /\
    (1 <= k)%nat /\ Z.of_nat k <= 5 /\
    forall upload_urls : list string,
      5 <= Z.of_nat (List.length upload_urls) ->
      forall p, In p ps ->
        exists url,
          LoadDataClient.list_getitem upload_urls (CSVFileSplitter.part_number p - 1)
            = Ok url.
Proof.
  apply (split_file_part_numbers utf8_len (small_fs small_csv) (entered 3)
           "data.csv" 5 ("h" ++ nl)%string [("a" ++ nl)%string; ("b" ++ nl)%string]).
  - reflexivity.
  - reflexivity.
  - lia.
Defined.

Lemma split_file_header_only_witness :
  exists p,
    CSVFileSplitter.split_file utf8_len (small_fs [("h" ++ nl)%string]) (entered 3)
      "data.csv" 4 = Ok [p] /\
    CSVFileSplitter.part_number p = 1 /\
    CSVFileSplitter.content p = [("h" ++ nl)%string].
Proof.
  apply (split_file_header_only utf8_len (small_fs [("h" ++ nl)%string]) (entered 3)
           "data.csv" 4 ("h" ++ nl)%string).
  - reflexivity.
  - reflexivity.
Defined.

Lemma upload_data_threshold_boundary_witness :
  let env := accepting_backend utf8_len (small_fs small_csv) [] in
  (LoadDataClient.upload_data utf8_len env 0 (LoadDataClient.__init__ 6) "p1" "data.csv"
     "stores" "full" false [] fresh
   = LoadDataClient.bind
       (LoadDataClient._single_part_upload utf8_len env (LoadDataClient.__init__ 6)
          "p1" "data.csv" "stores" "full" [])
       (LoadDataClient.await_job env 0 false) fresh) /\
  (exists parts,
     (parts - 1) * (20 * 1024 * 1024) < 6 <= parts * (20 * 1024 * 1024) /\
     LoadDataClient.upload_data utf8_len env 0 (LoadDataClient.__init__ 5) "p1" "data.csv"
       "stores" "full" false [] fresh
     = LoadDataClient.bind
         (LoadDataClient._multipart_upload utf8_len env (LoadDataClient.__init__ 5)
            "p1" "data.csv" parts "stores" "full" [])
         (LoadDataClient.await_job env 0 false) fresh).
Proof.
  intros env. split.
  - apply (proj1 (upload_data_threshold_boundary utf8_len env 0
                    (LoadDataClient.__init__ 6) "p1" "data.csv" "stores" "full" false []
                    small_csv fresh eq_refl (or_introl eq_refl) eq_refl)).
    reflexivity.
  - apply (proj2 (upload_data_threshold_boundary utf8_len env 0
                    (LoadDataClient.__init__ 5) "p1" "data.csv" "stores" "full" false []
                    small_csv fresh eq_refl (or_introl eq_refl) eq_refl)).
    reflexivity.
Defined.

Lemma poll_job_status_scenarios_witness :
  (exists w',
     LoadDataClient.poll_job_status
       (accepting_backend utf8_len (small_fs small_csv)
          [("RUNNING", None); ("RUNNING", None); ("SUCCEEDED", None)]%string)
       3 "job-1" 0 None fresh = Some (Ok true, w') /\
     fetches (LoadDataClient.log w') = 3%nat) /\
  (exists fuel0,
     forall fuel, (fuel0 <= fuel)%nat ->
     exists w',
       LoadDataClient.poll_job_status (stalled_backend utf8_len (small_fs small_csv))
         fuel "job-1" 5 (Some 1) fresh
       = Some (Raise (TimeoutError (timeout_message "job-1" 1)), w')).
Proof.
  split.
  - apply (proj1 (@poll_job_status_scenarios string)
             (accepting_backend utf8_len (small_fs small_csv)
                [("RUNNING", None); ("RUNNING", None); ("SUCCEEDED", None)]%string)
             "job-1"%string fresh 3%nat
             [("RUNNING", None); ("RUNNING", None); ("SUCCEEDED", None)]%string).
    + reflexivity.
    + reflexivity.
    + reflexivity.
    + lia.
  - apply (proj2 (@poll_job_status_scenarios string)
             (stalled_backend utf8_len (small_fs small_csv)) "job-1"%string 5 fresh).
    + intros h. eexists. split; [reflexivity|]. split; discriminate.
    + lia.
    + intros h. simpl. lia.
Defined.

Lemma failed_job_error_names_the_job_witness :
  let env := accepting_backend utf8_len (small_fs small_csv)
               [("RUNNING", None); ("FAILED", Some "disk full")]%string in
  exists w2,
    LoadDataClient.upload_data utf8_len env 2
      (LoadDataClient.__init__ LoadDataClient.default_chunk_size)
      "p1" "data.csv" "stores" "full" true [] fresh
    = Some (Raise (Exception "Job job-1 failed"), w2).
Proof.
  intros env.
  pose (run := LoadDataClient.upload_data utf8_len env 2
                 (LoadDataClient.__init__ LoadDataClient.default_chunk_size)
                 "p1" "data.csv" "stores" "full" true [] fresh).
  eexists.
  eapply (failed_job_error_names_the_job utf8_len env 2
            (LoadDataClient.__init__ LoadDataClient.default_chunk_size)
            "p1" "data.csv" "stores" "full" [] small_csv fresh _ _
            {| LoadDataClient.job_id := "job-1";
               LoadDataClient.status := "RUNNING";
               LoadDataClient.message := None |}
            _ (removelast (log_of run))
            {| LoadDataClient.job_id := "job-1";
               LoadDataClient.status := "FAILED";
               LoadDataClient.message := Some "disk full"%string |}).
  - reflexivity.
  - left. reflexivity.
  - vm_compute. reflexivity.
  - vm_compute. reflexivity.
  - vm_compute. reflexivity.
  - reflexivity.
Defined.

(** * Further properties *)

(** ** The splitter: failures, budget, file names *)

Section SplitterMore.
Context {line : Type}.
Variable byte_len : line -> Z.

Lemma closed_when_full_snoc (chunk_size : Z) (header : line)
    (ps : list (CSVFileSplitter.part line)) (p q : CSVFileSplitter.part line) (r : line)
    (rs : list line) :
  closed_when_full byte_len chunk_size header (ps ++ [p]) ->
  CSVFileSplitter.rows_written q = r :: rs ->
  byte_len header + total_bytes byte_len (CSVFileSplitter.rows_written p) + byte_len r
    > chunk_size ->
  closed_when_full byte_len chunk_size header ((ps ++ [p]) ++ [q]).
Proof.
  intros Hps Hq Hfull.
  induction ps as [|a ps IH]; simpl in *.
  - rewrite Hq. auto.
  - destruct (ps ++ [p]) as [|b l] eqn:E.
    + destruct ps; discriminate.
    + simpl in *. destruct Hps as [Hab Hrest]. split; [exact Hab|].
      apply IH. exact Hrest.
Qed.

(** Appending a row to the last part keeps [closed_when_full]. *)
Lemma closed_when_full_write (chunk_size : Z) (header : line)
    (ps : list (CSVFileSplitter.part line)) (p p' : CSVFileSplitter.part line) (row : line) :
  CSVFileSplitter.rows_written p' = CSVFileSplitter.rows_written p ++ [row] ->
  closed_when_full byte_len chunk_size header (ps ++ [p]) ->
  closed_when_full byte_len chunk_size header (ps ++ [p']).
Proof.
  intros Hrows.
  induction ps as [|a ps IH]; simpl.
  - auto.
  - destruct ps as [|b ps]; simpl in *.
    + rewrite Hrows. destruct (CSVFileSplitter.rows_written p); simpl; tauto.
    + intros [Hab Hrest]. split; [exact Hab|]. apply IH. exact Hrest.
Qed.

Lemma parts_invariant_first_part (self : CSVFileSplitter.t) (d : string)
    (header : line) (num_parts : Z) :
  parts_invariant byte_len self d header num_parts
    (CSVFileSplitter.first_part byte_len d header).
Proof.
  unfold parts_invariant, within_budget; simpl.
  repeat split.
  - constructor.
  - intros _. right. lia.
  - repeat constructor.
  - constructor; [|constructor]. simpl. intros H. contradiction.
Qed.

Lemma parts_invariant_body (self : CSVFileSplitter.t) (d : string) (header : line)
    (num_parts : Z) (pre : list line) (st : CSVFileSplitter.loop_state line) (row : line) :
  loop_invariant byte_len d header num_parts pre st ->
  parts_invariant byte_len self d header num_parts st ->
  parts_invariant byte_len self d header num_parts
    (CSVFileSplitter.loop_body byte_len self d (byte_len header) num_parts st row).
Proof.
  intros (Hcp & _ & _ & _ & _ & Hsize & _) (Hbud & Hopen & Hpath & Hrows & Hfull).
  unfold CSVFileSplitter.loop_body.
  destruct (CSVFileSplitter.starts_new_part byte_len self num_parts st row) eqn:Hnew.
  - (* a new part is started *)
    unfold CSVFileSplitter.starts_new_part in Hnew.
    apply andb_true_iff in Hnew. destruct Hnew as [Hover Hlt].
    apply Z.gtb_gt in Hover. apply Z.ltb_lt in Hlt.
    unfold parts_invariant; simpl.
    repeat split.
    + apply Forall_app. split; [exact Hbud|]. constructor; [|constructor]. auto.
    + intros _. right. simpl. lia.
    + apply Forall_app. split; [exact Hpath|]. constructor; [|constructor]. reflexivity.
    + apply Forall_app. split; [exact Hrows|]. constructor; [|constructor].
      simpl. intros _. discriminate.
    + apply (closed_when_full_snoc (CSVFileSplitter.chunk_size self) header
               (CSVFileSplitter.yielded st) (CSVFileSplitter.closed_part st) _ row []).
      * exact Hfull.
      * reflexivity.
      * simpl. lia.
  - (* the row joins the open part *)
    unfold CSVFileSplitter.starts_new_part in Hnew.
    unfold parts_invariant; simpl.
    apply Forall_app in Hpath. destruct Hpath as [Hpath Hpath'].
    apply Forall_app in Hrows. destruct Hrows as [Hrows Hrows'].
    repeat split.
    + exact Hbud.
    + intros Hlt. left. simpl.
      rewrite total_bytes_app. simpl.
      apply andb_false_iff in Hnew. destruct Hnew as [Hfit|Hlast].
      * rewrite Z.gtb_ltb in Hfit. apply Z.ltb_ge in Hfit. lia.
      * apply Z.ltb_ge in Hlast. lia.
    + apply Forall_app. split; [exact Hpath|]. constructor; [|constructor].
      inversion Hpath'; subst. assumption.
    + apply Forall_app. split; [exact Hrows|]. constructor; [|constructor].
      simpl. intros _. destruct (CSVFileSplitter.writer_rows st); discriminate.
    + apply (closed_when_full_write (CSVFileSplitter.chunk_size self) header
               (CSVFileSplitter.yielded st) (CSVFileSplitter.closed_part st) _ row);
        [reflexivity|exact Hfull].
Qed.

Lemma parts_invariant_run (self : CSVFileSplitter.t) (d : string) (header : line)
    (num_parts : Z) (rows pre : list line) (st : CSVFileSplitter.loop_state line) :
  loop_invariant byte_len d header num_parts pre st ->
  parts_invariant byte_len self d header num_parts st ->
  parts_invariant byte_len self d header num_parts
    (CSVFileSplitter.run_loop byte_len self d (byte_len header) num_parts rows st).
Proof.
  revert pre st.
  induction rows as [|row rows IH]; intros pre st Hinv Hparts; simpl.
  - exact Hparts.
  - apply (IH (pre ++ [row])).
    + apply loop_invariant_body. exact Hinv.
    + apply (parts_invariant_body self d header num_parts pre). exact Hinv. exact Hparts.
Qed.

End SplitterMore.

Section SplitFileMore.
Context {line : Type}.
Variable byte_len : line -> Z.

(** As [split_file_yields], with the further invariants. *)
Lemma split_file_yields_parts (fs : filesystem line) (self : CSVFileSplitter.t)
    (file_path : string) (num_parts : Z) (header : line) (rows : list line) :
  truthy_str (CSVFileSplitter.temp_dir self) = true ->
  fs file_path = Some (header :: rows) ->
  exists d st,
    CSVFileSplitter.temp_dir self = Some d /\
    CSVFileSplitter.split_file byte_len fs self file_path num_parts
      = Ok (CSVFileSplitter.yielded st ++ [CSVFileSplitter.closed_part st]) /\
    st = CSVFileSplitter.run_loop byte_len self d (byte_len header) num_parts rows
           (CSVFileSplitter.first_part byte_len d header) /\
    loop_invariant byte_len d header num_parts rows st /\
    parts_invariant byte_len self d header num_parts st.
Proof.
  intros Hdir Hfile.
  unfold CSVFileSplitter.split_file.
  rewrite Hdir, Hfile; simpl.
  destruct (CSVFileSplitter.temp_dir self) as [d|] eqn:Hd; [|discriminate].
  exists d. eexists. split; [reflexivity|]. split; [reflexivity|]. split; [reflexivity|].
  split.
  - apply (loop_invariant_run byte_len self d header num_parts rows []).
    apply loop_invariant_first_part.
  - apply (parts_invariant_run byte_len self d header num_parts rows []).
    + apply loop_invariant_first_part.
    + apply parts_invariant_first_part.
Qed.

(** While the size counter plus the rows still to come stays within the
    chunk size, the loop starts no part. *)
Lemma run_loop_fits (self : CSVFileSplitter.t) (d : string) (header_size num_parts : Z)
    (rows : list line) :
  (forall l, 0 <= byte_len l) ->
  forall st : CSVFileSplitter.loop_state line,
  CSVFileSplitter.current_size st + total_bytes byte_len rows
    <= CSVFileSplitter.chunk_size self ->
  CSVFileSplitter.yielded
    (CSVFileSplitter.run_loop byte_len self d header_size num_parts rows st)
  = CSVFileSplitter.yielded st.
Proof.
  intros Hnonneg.
  induction rows as [|row rows IH]; intros st Hfits; simpl in *.
  - reflexivity.
  - assert (Hrest : 0 <= total_bytes byte_len rows).
    { clear -Hnonneg. induction rows as [|r rs IHr]; simpl; [lia|].
      specialize (Hnonneg r). lia. }
    assert (Hbody : CSVFileSplitter.loop_body byte_len self d header_size num_parts st row
                    = CSVFileSplitter.write_row byte_len st row).
    { unfold CSVFileSplitter.loop_body, CSVFileSplitter.starts_new_part.
      replace (CSVFileSplitter.current_size st + byte_len row
               >? CSVFileSplitter.chunk_size self) with false; [reflexivity|].
      symmetry. rewrite Z.gtb_ltb. apply Z.ltb_ge. lia. }
    rewrite Hbody, IH; [reflexivity|]. simpl. lia.
Qed.

(** A file that fits the chunk size, header included, comes out as one
    part holding the whole file; so does any file when at most one part is
    asked for. *)
Theorem split_file_single_part (fs : filesystem line) (self : CSVFileSplitter.t)
    (file_path : string) (num_parts : Z) (header : line) (rows : list line) :
  truthy_str (CSVFileSplitter.temp_dir self) = true ->
  fs file_path = Some (header :: rows) ->
  (forall l, 0 <= byte_len l) ->
  total_bytes byte_len (header :: rows) <= CSVFileSplitter.chunk_size self \/
  num_parts <= 1 ->
  exists p,
    CSVFileSplitter.split_file byte_len fs self file_path num_parts = Ok [p] /\
    CSVFileSplitter.part_number p = 1 /\
    CSVFileSplitter.content p = header :: rows.
Proof.
  intros Hdir Hfile Hnonneg Hcase.
  destruct (split_file_yields byte_len fs self file_path num_parts header rows Hdir Hfile)
    as (d & st & Hsplit & Hst & Hinv).
  assert (Hnone : CSVFileSplitter.yielded st = []).
  { rewrite Hst. destruct Hcase as [Hfits|Hone].
    - rewrite run_loop_fits; [reflexivity|exact Hnonneg|]. simpl in *. lia.
    - destruct (run_loop_last_part byte_len self d (byte_len header) num_parts rows
                  (CSVFileSplitter.first_part byte_len d header)) as (Hy & _);
        [simpl; lia|].
      rewrite Hy. reflexivity. }
  destruct Hinv as (Hcp & _ & _ & _ & Hcont & _).
  rewrite Hnone in *. simpl in *.
  exists (CSVFileSplitter.closed_part st).
  split; [exact Hsplit|]. split; [exact Hcp|exact Hcont].
Qed.

Lemma concat_length_nonempty (ls : list (list line)) :
  Forall (fun l => l <> []) ls ->
  (List.length ls <= List.length (List.concat ls))%nat.
Proof.
  induction 1 as [|l ls Hl _ IH]; simpl.
  - lia.
  - rewrite length_app. destruct l; [contradiction|simpl; lia].
Qed.

(** Every part after the first holds at least one data row, so that a file
    with n data rows comes out in at most n + 1 parts. *)
Theorem split_file_later_parts_nonempty (fs : filesystem line)
    (self : CSVFileSplitter.t) (file_path : string) (num_parts : Z)
    (header : line) (rows : list line) :
  truthy_str (CSVFileSplitter.temp_dir self) = true ->
  fs file_path = Some (header :: rows) ->
  exists ps,
    CSVFileSplitter.split_file byte_len fs self file_path num_parts = Ok ps /\
    (forall p, In p ps -> CSVFileSplitter.part_number p <> 1 ->
       CSVFileSplitter.rows_written p <> []) /\
    (List.length ps <= List.length rows + 1)%nat.
Proof.
  intros Hdir Hfile.
  destruct (split_file_yields_parts fs self file_path num_parts header rows Hdir Hfile)
    as (d & st & _ & Hsplit & _ & Hinv & Hparts).
  destruct Hparts as (_ & _ & _ & Hne & _).
  destruct Hinv as (Hcp & _ & Hnum & Hrows & _).
  exists (CSVFileSplitter.yielded st ++ [CSVFileSplitter.closed_part st]).
  split; [exact Hsplit|].
  split; [rewrite Forall_forall in Hne; exact Hne|].
  (* the first part aside, the parts are non-empty lists of rows *)
  set (ps := CSVFileSplitter.yielded st ++ [CSVFileSplitter.closed_part st]) in *.
  assert (Hall : List.concat (map CSVFileSplitter.rows_written ps) = rows).
  { subst ps. rewrite map_app, concat_app. simpl. rewrite app_nil_r. exact Hrows. }
  assert (Hnums : map CSVFileSplitter.part_number ps
                  = map Z.of_nat (seq 1 (List.length ps))).
  { subst ps. rewrite map_app, length_app, Hnum. simpl.
    rewrite Nat.add_1_r, seq_S, map_app. simpl. do 2 f_equal. lia. }
  destruct ps as [|p1 rest]; [simpl; lia|].
  simpl in Hall, Hnums. injection Hnums as _ Hrest.
  assert (Hrest_ne : Forall (fun l => l <> [])
                       (map CSVFileSplitter.rows_written rest)).
  { apply Forall_forall. intros l Hl.
    apply in_map_iff in Hl. destruct Hl as (p & <- & Hp).
    rewrite Forall_forall in Hne. apply Hne; [right; exact Hp|].
    assert (Hin : In (CSVFileSplitter.part_number p)
                     (map Z.of_nat (seq 2 (List.length rest)))).
    { rewrite <- Hrest. apply in_map. exact Hp. }
    apply in_map_iff in Hin. destruct Hin as (i & <- & Hi).
    apply in_seq in Hi. lia. }
  apply concat_length_nonempty in Hrest_ne.
  rewrite length_map in Hrest_ne.
  rewrite <- Hall, length_app. simpl. lia.
Qed.

(** Every part but the last one is within budget: the header's bytes plus
    the bytes of its rows do not exceed the chunk size, unless the part
    holds a single row (one that is too long by itself).  With a header of
    non-negative length this bounds the bytes of the part file. *)
Theorem split_file_parts_within_budget (fs : filesystem line)
    (self : CSVFileSplitter.t) (file_path : string) (num_parts : Z)
    (header : line) (rows : list line) :
  truthy_str (CSVFileSplitter.temp_dir self) = true ->
  fs file_path = Some (header :: rows) ->
  exists ps,
    CSVFileSplitter.split_file byte_len fs self file_path num_parts = Ok ps /\
    forall p, In p (removelast ps) ->
      within_budget byte_len (CSVFileSplitter.chunk_size self) header p /\
      (0 <= byte_len header ->
       total_bytes byte_len (CSVFileSplitter.content p) <= CSVFileSplitter.chunk_size self \/
       (List.length (CSVFileSplitter.rows_written p) <= 1)%nat).
Proof.
  intros Hdir Hfile.
  destruct (split_file_yields_parts fs self file_path num_parts header rows Hdir Hfile)
    as (d & st & _ & Hsplit & _ & Hinv & Hparts).
  destruct Hparts as (Hbud & _).
  destruct Hinv as (_ & _ & _ & _ & _ & _ & _ & Hhdr).
  exists (CSVFileSplitter.yielded st ++ [CSVFileSplitter.closed_part st]).
  split; [exact Hsplit|].
  rewrite removelast_last.
  intros p Hp.
  rewrite Forall_forall in Hbud, Hhdr.
  specialize (Hbud p Hp). specialize (Hhdr p Hp).
  split; [exact Hbud|].
  intros Hnonneg.
  destruct Hbud as [Hle|Hone]; [left|right; exact Hone].
  unfold CSVFileSplitter.content. rewrite total_bytes_app, Hhdr.
  destruct (CSVFileSplitter.part_number p =? 1); simpl; lia.
Qed.

(** A part is closed only when the next row does not fit: for each part
    but the last, the header's bytes plus the bytes of its rows plus the
    bytes of the first row of the next part exceed the chunk size. *)
Theorem split_file_closes_parts_when_full (fs : filesystem line)
    (self : CSVFileSplitter.t) (file_path : string) (num_parts : Z)
    (header : line) (rows : list line) :
  truthy_str (CSVFileSplitter.temp_dir self) = true ->
  fs file_path = Some (header :: rows) ->
  exists ps,
    CSVFileSplitter.split_file byte_len fs self file_path num_parts = Ok ps /\
    closed_when_full byte_len (CSVFileSplitter.chunk_size self) header ps.
Proof.
  intros Hdir Hfile.
  destruct (split_file_yields_parts fs self file_path num_parts header rows Hdir Hfile)
    as (d & st & _ & Hsplit & _ & _ & Hparts).
  destruct Hparts as (_ & _ & _ & _ & Hfull).
  eexists. split; [exact Hsplit|exact Hfull].
Qed.

End SplitFileMore.

(** ** Part file names *)

Lemma str_inj (a b : Z) : str a = str b -> a = b.
Proof.
  unfold str. intros Heq.
  apply DecimalZ.to_int_inj.
  assert (Hnonnil : forall z, Z.to_int z <> Decimal.Pos Decimal.Nil /\
                              Z.to_int z <> Decimal.Neg Decimal.Nil).
  { intros [|p|p]; simpl; split; try discriminate;
      intros [= H]; exact (DecimalPos.Unsigned.to_uint_nonnil p H). }
  assert (Hparse : forall z, NilZero.int_of_string (NilZero.string_of_int (Z.to_int z))
                             = Some (Z.to_int z)).
  { intros z. apply NilZero.isi; apply Hnonnil. }
  pose proof (Hparse a) as Ha. rewrite Heq, Hparse in Ha.
  injection Ha as Ha. symmetry. exact Ha.
Qed.

Lemma string_app_inv_head (p s t : string) :
  (p ++ s)%string = (p ++ t)%string -> s = t.
Proof.
  induction p as [|c p IH]; simpl; intros Heq.
  - exact Heq.
  - injection Heq as Heq. apply IH. exact Heq.
Qed.

Lemma string_length_app (s t : string) :
  String.length (s ++ t) = (String.length s + String.length t)%nat.
Proof.
  induction s as [|c s IH]; simpl; [reflexivity|]. rewrite IH. reflexivity.
Qed.

Lemma string_app_inv_tail (s t q : string) :
  (s ++ q)%string = (t ++ q)%string -> s = t.
Proof.
  revert t.
  induction s as [|c s IH]; intros [|c' t] Heq; simpl in *.
  - reflexivity.
  - apply (f_equal String.length) in Heq. simpl in Heq.
    rewrite string_length_app in Heq. lia.
  - apply (f_equal String.length) in Heq. simpl in Heq.
    rewrite string_length_app in Heq. lia.
  - injection Heq as -> Heq. f_equal. apply IH. exact Heq.
Qed.

(** [_create_temp_file] gives different part numbers different names. *)
Lemma _create_temp_file_inj (d : string) (m n : Z) :
  CSVFileSplitter._create_temp_file d m = CSVFileSplitter._create_temp_file d n -> m = n.
Proof.
  unfold CSVFileSplitter._create_temp_file, os_path_join.
  change (prefix "/" ("part_" ++ str m ++ ".csv")) with false.
  change (prefix "/" ("part_" ++ str n ++ ".csv")) with false.
  cbv iota. intros Heq.
  destruct ((d =? "")%string || ends_with_sep d);
    apply string_app_inv_head in Heq;
    [|apply (string_app_inv_head "/") in Heq];
    apply (string_app_inv_head "part_") in Heq;
    apply string_app_inv_tail in Heq;
    apply str_inj; exact Heq.
Qed.

Section PartFiles.
Context {line : Type}.
Variable byte_len : line -> Z.

(** Each part is written to
    [os.path.join(temp_dir, "part_<part_number>.csv")], which is
    [<temp_dir>/part_<part_number>.csv] for a directory name that does not
    end in a separator, as [tempfile.mkdtemp] gives; and no two parts of
    one split share a file: a part yielded earlier is never overwritten by
    a later one. *)
Theorem split_file_part_files_distinct (fs : filesystem line)
    (self : CSVFileSplitter.t) (file_path : string) (num_parts : Z)
    (header : line) (rows : list line) :
  truthy_str (CSVFileSplitter.temp_dir self) = true ->
  fs file_path = Some (header :: rows) ->
  exists d ps,
    CSVFileSplitter.temp_dir self = Some d /\
    CSVFileSplitter.split_file byte_len fs self file_path num_parts = Ok ps /\
    (forall p, In p ps ->
       CSVFileSplitter.temp_file_path p
       = os_path_join d ("part_" ++ str (CSVFileSplitter.part_number p) ++ ".csv")) /\
    (ends_with_sep d = false ->
     forall p, In p ps ->
       CSVFileSplitter.temp_file_path p
       = (d ++ "/part_" ++ str (CSVFileSplitter.part_number p) ++ ".csv")%string) /\
    NoDup (map CSVFileSplitter.temp_file_path ps).
Proof.
  intros Hdir Hfile.
  destruct (split_file_yields_parts byte_len fs self file_path num_parts header rows
              Hdir Hfile) as (d & st & Htemp & Hsplit & _ & Hinv & Hparts).
  destruct Hparts as (_ & _ & Hpath & _).
  destruct Hinv as (Hcp & _ & Hnum & _).
  set (ps := CSVFileSplitter.yielded st ++ [CSVFileSplitter.closed_part st]) in *.
  exists d, ps.
  split; [exact Htemp|]. split; [exact Hsplit|].
  rewrite Forall_forall in Hpath.
  split; [intros p Hp; rewrite (Hpath p Hp); reflexivity|].
  split.
  { intros Hsep p Hp. rewrite (Hpath p Hp).
    unfold CSVFileSplitter._create_temp_file, os_path_join.
    change (prefix "/" ("part_" ++ str (CSVFileSplitter.part_number p) ++ ".csv"))
      with false.
    rewrite Htemp in Hdir. simpl in Hdir.
    destruct d as [|c d']; [discriminate|].
    rewrite Hsep. reflexivity. }
  assert (Hnums : map CSVFileSplitter.part_number ps
                  = map Z.of_nat (seq 1 (List.length ps))).
  { subst ps. rewrite map_app, length_app, Hnum. simpl.
    rewrite Nat.add_1_r, seq_S, map_app. simpl. do 2 f_equal. lia. }
  assert (Hpaths : map CSVFileSplitter.temp_file_path ps
                   = map (CSVFileSplitter._create_temp_file d)
                       (map CSVFileSplitter.part_number ps)).
  { rewrite map_map. apply map_ext_in. exact Hpath. }
  rewrite Hpaths, Hnums.
  apply Finite.Injective_map_NoDup.
  - intros m n. apply _create_temp_file_inj.
  - apply Finite.Injective_map_NoDup; [|apply seq_NoDup].
    intros m n. apply Nat2Z.inj.
Qed.

End PartFiles.

(** ** The upload loop and the multipart path, call by call *)

Section MultipartMore.
Context {line : Type}.
Variable byte_len : line -> Z.
Variable env : LoadDataClient.collaborators line.

Lemma list_getitem_nth {A : Type} (l : list A) (i : Z) (a : A) :
  0 <= i ->
  LoadDataClient.list_getitem l i = Ok a ->
  nth_error l (Z.to_nat i) = Some a.
Proof.
  intros Hi. unfold LoadDataClient.list_getitem.
  replace (i <? 0) with false by (symmetry; apply Z.ltb_ge; exact Hi).
  destruct ((0 <=? i) && (i <? Z.of_nat (List.length l))); [|discriminate].
  destruct (nth_error l (Z.to_nat i)); [|discriminate].
  intros [= ->]. reflexivity.
Qed.

Lemma skipn_nth_error {A : Type} (l : list A) (n : nat) (a : A) :
  nth_error l n = Some a -> skipn n l = a :: skipn (S n) l.
Proof.
  revert l. induction n as [|n IH]; intros [|x l] H; simpl in *; try discriminate.
  - injection H as ->. reflexivity.
  - apply IH. exact H.
Qed.

(** A tag taken from a response is never empty. *)
Lemma etag_of_response_nonempty (response : LoadDataClient.Response) (etag : string) :
  LoadDataClient.etag_of_response response = Ok etag ->
  etag <> ""%string /\
  LoadDataClient.dict_get (LoadDataClient.headers response) "ETag" = Some etag /\
  ~ (400 <= LoadDataClient.status_code response < 600).
Proof.
  unfold LoadDataClient.etag_of_response, LoadDataClient.raise_for_status.
  destruct ((400 <=? LoadDataClient.status_code response)
            && (LoadDataClient.status_code response <? 600)) eqn:Hcode; [discriminate|].
  destruct (LoadDataClient.dict_get (LoadDataClient.headers response) "ETag")
    as [t|]; [|discriminate].
  destruct (String.eqb_spec t ""); [discriminate|].
  intros [= <-]. split; [assumption|]. split; [reflexivity|].
  apply andb_false_iff in Hcode. rewrite Z.leb_gt, Z.ltb_ge in Hcode. lia.
Qed.

(** The upload loop, call by call: it records nothing but PUTs of
    compressed parts; parts numbered n+1, n+2, ... go to the URLs at the
    positions n, n+1, ... of the list, in this order; the pairs it appends
    carry non-empty tags. *)
Lemma upload_parts_loop (self : LoadDataClient.t) (upload_urls : list string)
    (ps : list (CSVFileSplitter.part line)) :
  forall (acc : list LoadDataClient.PartETag) (w : LoadDataClient.world line),
  exists r w' loop,
    LoadDataClient.upload_parts env self upload_urls ps acc w = Some (r, w') /\
    LoadDataClient.log w' = LoadDataClient.log w ++ loop /\
    Forall (fun e => exists url c hdrs out,
              e = LoadDataClient.RequestsPut url (LoadDataClient.GzipCompressed c) hdrs out)
           loop /\
    (forall n : nat,
       map CSVFileSplitter.part_number ps = map Z.of_nat (seq (S n) (List.length ps)) ->
       map (fun u => fst (fst u)) (part_uploads loop)
       = firstn (List.length (part_uploads loop)) (skipn n upload_urls)) /\
    (forall uploaded, r = Ok uploaded ->
       exists tags, uploaded = acc ++ tags /\
                    Forall (fun t => LoadDataClient.eTag t <> ""%string) tags).
Proof.
  induction ps as [|p ps IH]; intros acc w.
  - exists (Ok acc), w, []. simpl.
    split; [reflexivity|]. split; [rewrite app_nil_r; reflexivity|].
    split; [constructor|]. split; [reflexivity|].
    intros uploaded [= <-]. exists []. rewrite app_nil_r. auto.
  - cbn [LoadDataClient.upload_parts].
    unfold LoadDataClient.bind at 1. unfold LoadDataClient.lift.
    destruct (LoadDataClient.list_getitem upload_urls
                (CSVFileSplitter.part_number p - 1)) as [url|e] eqn:Hurl.
    2:{ exists (Raise e), w, []. simpl.
        split; [reflexivity|]. split; [rewrite app_nil_r; reflexivity|].
        split; [constructor|]. split; [reflexivity|discriminate]. }
    unfold LoadDataClient.bind at 1.
    destruct (_upload_part_run env self url (CSVFileSplitter.content p) w)
      as (hdrs & out & w1 & Hrun & Hlog1).
    rewrite Hrun.
    set (ev := LoadDataClient.RequestsPut url
                 (LoadDataClient.GzipCompressed (CSVFileSplitter.content p)) hdrs out).
    assert (Hev : exists url' c hdrs' out',
              ev = LoadDataClient.RequestsPut url' (LoadDataClient.GzipCompressed c)
                     hdrs' out')
      by (do 4 eexists; reflexivity).
    assert (Hfirst : forall n : nat,
              CSVFileSplitter.part_number p = Z.of_nat (S n) ->
              skipn n upload_urls = url :: skipn (S n) upload_urls).
    { intros n Hn. apply skipn_nth_error.
      apply list_getitem_nth in Hurl; [|lia].
      replace (Z.to_nat (CSVFileSplitter.part_number p - 1)) with n in Hurl by lia.
      exact Hurl. }
    destruct (part_upload_outcome out) as [etag|e] eqn:Hout.
    + destruct (IH (acc ++ [{| LoadDataClient.eTag := etag;
                               LoadDataClient.partNumber := CSVFileSplitter.part_number p |}])
                   w1)
        as (r & w' & loop & Hrest & Hlog & Hputs & Hurls & Hok).
      exists r, w', (ev :: loop).
      split; [exact Hrest|].
      split; [rewrite Hlog, Hlog1, <- app_assoc; reflexivity|].
      split; [constructor; assumption|].
      split.
      * intros n Hnums. simpl in Hnums. injection Hnums as Hp Hnums.
        subst ev. simpl. rewrite (Hfirst n Hp). cbn [firstn]. f_equal.
        apply (Hurls (S n)). exact Hnums.
      * intros uploaded Hr. destruct (Hok uploaded Hr) as (tags & -> & Htags).
        exists ({| LoadDataClient.eTag := etag;
                   LoadDataClient.partNumber := CSVFileSplitter.part_number p |} :: tags).
        rewrite <- app_assoc. split; [reflexivity|].
        constructor; [|exact Htags]. simpl.
        destruct out as [response|]; [|discriminate].
        apply etag_of_response_nonempty in Hout. tauto.
    + exists (Raise e), w1, [ev].
      split; [reflexivity|].
      split; [exact Hlog1|].
      split; [constructor; [assumption|constructor]|].
      split; [|discriminate].
      intros n Hnums. simpl in Hnums. injection Hnums as Hp _.
      subst ev. simpl. rewrite (Hfirst n Hp). reflexivity.
Qed.

(** [_multipart_upload] always ends, in one of the ways of
    [multipart_run]. *)
Lemma _multipart_upload_runs (self : LoadDataClient.t)
    (project_id csv_file_path : string) (parts : Z) (dataset_name mode : string)
    (csv_options : LoadDataClient.DataPullRequestCsvOptions)
    (w : LoadDataClient.world line) :
  exists r w' new,
    LoadDataClient._multipart_upload byte_len env self project_id csv_file_path
      parts dataset_name mode csv_options w = Some (r, w') /\
    LoadDataClient.log w' = LoadDataClient.log w ++ new /\
    multipart_run byte_len env self project_id csv_file_path parts dataset_name mode
      csv_options w r new.
Proof.
  unfold LoadDataClient._multipart_upload.
  unfold LoadDataClient.bind at 1. unfold LoadDataClient.call at 1.
  destruct (LoadDataClient.data_upload env (LoadDataClient.log w) project_id (Some parts))
    as [upload_response|e] eqn:Hup.
  2:{ do 3 eexists. split; [reflexivity|]. split; [reflexivity|].
      apply no_upload_slots. exact Hup. }
  unfold LoadDataClient.bind at 1. unfold LoadDataClient.lift at 1.
  destruct (CSVFileSplitter.split_file byte_len (LoadDataClient.files env) _
              csv_file_path parts) as [ps|e] eqn:Hsplit.
  2:{ do 3 eexists. split; [reflexivity|]. split; [reflexivity|].
      apply (split_failed byte_len env _ _ _ _ _ _ _ _ upload_response e Hup Hsplit). }
  unfold LoadDataClient.bind at 1.
  set (ev0 := LoadDataClient.DataUpload project_id (Some parts) (Ok upload_response)).
  fold (after_call env w ev0).
  destruct (upload_parts_loop self (LoadDataClient.upload_urls_encoded upload_response)
              ps [] (after_call env w ev0))
    as (r1 & w1 & loop & Hloop & Hlog1 & _).
  rewrite Hloop.
  assert (Hshape : forall r tail w',
            LoadDataClient.log w' = LoadDataClient.log w1 ++ tail ->
            after_parts env self project_id dataset_name mode csv_options
              upload_response w1 r1 r tail ->
            LoadDataClient.log w' = LoadDataClient.log w ++ (ev0 :: loop ++ tail) /\
            multipart_run byte_len env self project_id csv_file_path parts dataset_name
              mode csv_options w r (ev0 :: loop ++ tail)).
  { intros r tail w' Hlog Hafter. split.
    - rewrite Hlog, Hlog1. simpl. rewrite <- !app_assoc. reflexivity.
    - apply (parts_uploaded byte_len env _ _ _ _ _ _ _ _ upload_response ps r1 w1 loop
               r tail Hup Hsplit Hloop Hlog1 Hafter). }
  destruct r1 as [uploaded|e].
  2:{ exists (Raise e), w1, (ev0 :: loop ++ []).
      split; [reflexivity|].
      apply Hshape; [rewrite app_nil_r; reflexivity|apply part_failed]. }
  unfold LoadDataClient.bind at 1. unfold LoadDataClient.call at 1.
  destruct (LoadDataClient.complete_multipart_upload env (LoadDataClient.log w1)
              project_id (LoadDataClient.id upload_response) _) as [[]|e] eqn:Hcomplete.
  2:{ do 3 eexists. split; [reflexivity|].
      apply Hshape; [reflexivity|].
      apply completion_failed. exact Hcomplete. }
  unfold LoadDataClient.bind at 1. unfold LoadDataClient.lift at 1.
  destruct (LoadDataClient._get_file_uri_from_response upload_response)
    as [file_uri|e] eqn:Huri.
  2:{ do 3 eexists. split; [reflexivity|].
      apply Hshape; [reflexivity|].
      apply no_file_uri; assumption. }
  unfold LoadDataClient._submit_data_pull_request, LoadDataClient.call.
  do 3 eexists. split; [reflexivity|].
  eapply Hshape; cycle 1.
  - apply job_submitted; eassumption.
  - simpl. rewrite <- app_assoc. reflexivity.
Qed.

End MultipartMore.

Section MultipartFacts.
Context {line : Type}.
Variable byte_len : line -> Z.
Variable env : LoadDataClient.collaborators line.

Lemma split_file_ok_numbers (fs : filesystem line) (self : CSVFileSplitter.t)
    (file_path : string) (num_parts : Z) (ps : list (CSVFileSplitter.part line)) :
  CSVFileSplitter.split_file byte_len fs self file_path num_parts = Ok ps ->
  map CSVFileSplitter.part_number ps = map Z.of_nat (seq 1 (List.length ps)).
Proof.
  intros Hsplit.
  destruct (truthy_str (CSVFileSplitter.temp_dir self)) eqn:Hdir.
  2:{ unfold CSVFileSplitter.split_file in Hsplit. rewrite Hdir in Hsplit. discriminate. }
  destruct (fs file_path) as [[|header rows]|] eqn:Hfile;
    try (unfold CSVFileSplitter.split_file in Hsplit; rewrite Hdir, Hfile in Hsplit;
         simpl in Hsplit; destruct (CSVFileSplitter.temp_dir self); discriminate).
  destruct (split_file_yields byte_len fs self file_path num_parts header rows Hdir Hfile)
    as (d & st & Hsplit' & _ & Hinv).
  rewrite Hsplit in Hsplit'. injection Hsplit' as ->.
  destruct Hinv as (Hcp & _ & Hnum & _).
  rewrite map_app, length_app, Hnum. simpl.
  rewrite Nat.add_1_r, seq_S, map_app. simpl. do 2 f_equal.
  lia.
Qed.

Lemma observers_of_puts (l : list (LoadDataClient.event line)) :
  Forall (fun e => exists url c hdrs out,
            e = LoadDataClient.RequestsPut url (LoadDataClient.GzipCompressed c) hdrs out)
         l ->
  fetches l = 0%nat /\ sleeps l = [] /\ completions l = [] /\ submissions l = [].
Proof.
  induction 1 as [|e l (url & c & hdrs & out & ->) _ (Hf & Hs & Hc & Hj)].
  - repeat split.
  - unfold fetches in *. simpl. auto.
Qed.

Lemma submissions_app (h1 h2 : list (LoadDataClient.event line)) :
  submissions (h1 ++ h2) = submissions h1 ++ submissions h2.
Proof. unfold submissions. apply flat_map_app. Qed.

Lemma sleeps_app (h1 h2 : list (LoadDataClient.event line)) :
  sleeps (h1 ++ h2) = sleeps h1 ++ sleeps h2.
Proof. unfold sleeps. apply flat_map_app. Qed.

(** What every run of [_multipart_upload] has in common. *)
Lemma multipart_run_facts (self : LoadDataClient.t)
    (project_id csv_file_path : string) (parts : Z) (dataset_name mode : string)
    (csv_options : LoadDataClient.DataPullRequestCsvOptions)
    (w : LoadDataClient.world line)
    (r : result LoadDataClient.JobDetailResponse)
    (new : list (LoadDataClient.event line)) :
  multipart_run byte_len env self project_id csv_file_path parts dataset_name mode
    csv_options w r new ->
  fetches new = 0%nat /\ sleeps new = [] /\
  (forall upload_response,
     LoadDataClient.data_upload env (LoadDataClient.log w) project_id (Some parts)
       = Ok upload_response ->
     map (fun u => fst (fst u)) (part_uploads new)
     = firstn (List.length (part_uploads new))
         (LoadDataClient.upload_urls_encoded upload_response)) /\
  (forall req, In req (completions new) ->
     Forall (fun t => LoadDataClient.eTag t <> ""%string) (LoadDataClient.partETags req)) /\
  (forall job_request out, In (job_request, out) (submissions new) ->
     r = out /\
     exists upload_response file_uri pre req,
       LoadDataClient.data_upload env (LoadDataClient.log w) project_id (Some parts)
         = Ok upload_response /\
       LoadDataClient._get_file_uri_from_response upload_response = Ok file_uri /\
       job_request = LoadDataClient._create_data_pull_job_request project_id
                       dataset_name mode file_uri csv_options /\
       new = pre ++ [LoadDataClient.CompleteMultipartUpload project_id
                       (LoadDataClient.id upload_response) req (Ok tt);
                     LoadDataClient.SubmitJobExecution job_request out]).
Proof.
  intros Hrun.
  destruct Hrun as [e Hup | upload_response e Hup Hsplit
                   | upload_response ps r1 w1 loop r tail Hup Hsplit Hloop Hlog Hafter].
  - repeat split; try (intros; contradiction).
  - repeat split; try (intros; contradiction).
  - destruct (upload_parts_loop env self
                (LoadDataClient.upload_urls_encoded upload_response) ps []
                (after_call env w
                   (LoadDataClient.DataUpload project_id (Some parts) (Ok upload_response))))
      as (r1' & w1' & loop' & Hloop' & Hlog' & Hputs & Hurls & Htags).
    rewrite Hloop in Hloop'. injection Hloop' as <- <-.
    simpl in Hlog'. rewrite Hlog in Hlog'. apply app_inv_head in Hlog'. subst loop'.
    destruct (observers_of_puts loop Hputs) as (Hf & Hs & Hc & Hj).
    specialize (Hurls 0%nat (split_file_ok_numbers _ _ _ _ _ Hsplit)). simpl in Hurls.
    set (ev0 := LoadDataClient.DataUpload project_id (Some parts) (Ok upload_response)).
    change (ev0 :: loop ++ tail) with ([ev0] ++ loop ++ tail).
    split; [|split; [|split; [|split]]].
    + rewrite !fetches_app, Hf. destruct Hafter; reflexivity.
    + rewrite !sleeps_app, Hs. destruct Hafter; reflexivity.
    + intros up Hup'. rewrite Hup in Hup'. injection Hup' as <-.
      assert (Htail : part_uploads tail = []) by (destruct Hafter; reflexivity).
      rewrite !part_uploads_app, Htail. simpl. rewrite app_nil_r. exact Hurls.
    + intros req Hin. rewrite !completions_app, Hc in Hin. simpl in Hin.
      destruct Hafter; simpl in Hin; try contradiction;
        destruct Hin as [<-|[]]; simpl;
        destruct (Htags uploaded eq_refl) as (tags & Heq & Hne);
        simpl in Heq; subst tags; exact Hne.
    + intros job_request out Hin. rewrite !submissions_app, Hj in Hin. simpl in Hin.
      destruct Hafter as [e | uploaded e req Hcomplete | uploaded e req Hcomplete Huri
                         | uploaded file_uri out' req job_request' Hcomplete Huri];
        simpl in Hin; try contradiction.
      destruct Hin as [[= <- <-]|[]].
      split; [reflexivity|].
      exists upload_response, file_uri, ([ev0] ++ loop), req.
      split; [exact Hup|]. split; [exact Huri|]. split; [reflexivity|].
      rewrite <- app_assoc. reflexivity.
Qed.

End MultipartFacts.

(** ** The single-part path *)

Section SinglePart.
Context {line : Type}.
Variable byte_len : line -> Z.
Variable env : LoadDataClient.collaborators line.

(** [_upload_file] on an existing file: one PUT of the raw file, with its
    size as [Content-Length]; the call fails as the PUT fails, or on a
    4xx/5xx answer. *)
Lemma _upload_file_run (self : LoadDataClient.t) (url csv_file_path : string)
    (f : list line) (w : LoadDataClient.world line) :
  LoadDataClient.files env csv_file_path = Some f ->
  let hdrs := [("Content-Type", LoadDataClient.content_type self);
               ("Content-Length", str (total_bytes byte_len f))]%string in
  let out := LoadDataClient.requests_put env (LoadDataClient.log w) url
               (LoadDataClient.RawFile f) hdrs in
  LoadDataClient._upload_file byte_len env self url csv_file_path w
  = Some (match out with
          | Ok response => LoadDataClient.raise_for_status response
          | Raise e => Raise e
          end,
          after_call env w
            (LoadDataClient.RequestsPut url (LoadDataClient.RawFile f) hdrs out)).
Proof.
  intros Hfile hdrs out.
  unfold LoadDataClient._upload_file, LoadDataClient.os_path_getsize.
  rewrite Hfile.
  unfold LoadDataClient.bind, LoadDataClient.lift, LoadDataClient.call.
  fold hdrs. fold out.
  destruct out as [response|e]; reflexivity.
Qed.

(** [_single_part_upload], call by call. *)
Lemma _single_part_upload_runs (self : LoadDataClient.t)
    (project_id csv_file_path dataset_name mode : string)
    (csv_options : LoadDataClient.DataPullRequestCsvOptions)
    (w : LoadDataClient.world line) :
  exists r w' new,
    LoadDataClient._single_part_upload byte_len env self project_id csv_file_path
      dataset_name mode csv_options w = Some (r, w') /\
    LoadDataClient.log w' = LoadDataClient.log w ++ new /\
    fetches new = 0%nat /\ sleeps new = [] /\
    completions new = [] /\ part_uploads new = [] /\
    (forall job_request out, In (job_request, out) (submissions new) ->
       r = out /\
       exists upload_response f response file_uri,
         LoadDataClient.files env csv_file_path = Some f /\
         LoadDataClient.raise_for_status response = Ok tt /\
         LoadDataClient._get_file_uri_from_response upload_response = Ok file_uri /\
         job_request = LoadDataClient._create_data_pull_job_request project_id
                         dataset_name mode file_uri csv_options /\
         new = [LoadDataClient.DataUpload project_id None (Ok upload_response);
                LoadDataClient.RequestsPut
                  (LoadDataClient.upload_url_encoded upload_response)
                  (LoadDataClient.RawFile f)
                  [("Content-Type", LoadDataClient.content_type self);
                   ("Content-Length", str (total_bytes byte_len f))]%string
                  (Ok response);
                LoadDataClient.SubmitJobExecution job_request out]).
Proof.
  unfold LoadDataClient._single_part_upload.
  unfold LoadDataClient.bind at 1. unfold LoadDataClient.call at 1.
  destruct (LoadDataClient.data_upload env (LoadDataClient.log w) project_id None)
    as [upload_response|e] eqn:Hup.
  2:{ do 3 eexists. split; [reflexivity|]. split; [reflexivity|].
      do 4 (split; [reflexivity|]). intros ? ? []. }
  unfold LoadDataClient.bind at 1.
  set (ev0 := LoadDataClient.DataUpload project_id None (Ok upload_response)).
  fold (after_call env w ev0).
  destruct (LoadDataClient.files env csv_file_path) as [f|] eqn:Hfile.
  2:{ unfold LoadDataClient._upload_file. rewrite Hfile. unfold LoadDataClient.raise.
      do 3 eexists. split; [reflexivity|]. split; [reflexivity|].
      do 4 (split; [reflexivity|]). intros ? ? []. }
  rewrite (_upload_file_run self _ csv_file_path f (after_call env w ev0) Hfile).
  cbv zeta.
  set (hdrs := [("Content-Type", LoadDataClient.content_type self);
                ("Content-Length", str (total_bytes byte_len f))]%string).
  destruct (LoadDataClient.requests_put env (LoadDataClient.log (after_call env w ev0))
              (LoadDataClient.upload_url_encoded upload_response)
              (LoadDataClient.RawFile f) hdrs) as [response|e] eqn:Hput.
  2:{ do 3 eexists. split; [reflexivity|].
      split; [simpl; rewrite <- app_assoc; reflexivity|].
      do 4 (split; [reflexivity|]). intros ? ? []. }
  destruct (LoadDataClient.raise_for_status response) as [[]|e] eqn:Hstatus.
  2:{ do 3 eexists. split; [reflexivity|].
      split; [simpl; rewrite <- app_assoc; reflexivity|].
      do 4 (split; [reflexivity|]). intros ? ? []. }
  unfold LoadDataClient.bind at 1. unfold LoadDataClient.lift at 1.
  destruct (LoadDataClient._get_file_uri_from_response upload_response)
    as [file_uri|e] eqn:Huri.
  2:{ do 3 eexists. split; [reflexivity|].
      split; [simpl; rewrite <- app_assoc; reflexivity|].
      do 4 (split; [reflexivity|]). intros ? ? []. }
  unfold LoadDataClient._submit_data_pull_request, LoadDataClient.call.
  set (out0 := LoadDataClient.submit_job_execution env _ _).
  do 3 eexists. split; [reflexivity|].
  split; [simpl; rewrite <- !app_assoc; reflexivity|].
  do 4 (split; [reflexivity|]).
  intros job_request out [[= <- <-]|[]].
  split; [reflexivity|].
  exists upload_response, f, response, file_uri.
  repeat split; assumption || reflexivity.
Qed.

End SinglePart.

(** ** What the upload paths promise their caller *)

Section UploadFacts.
Context {line : Type}.
Variable byte_len : line -> Z.
Variable env : LoadDataClient.collaborators line.

(** [upload_data] checks its input before it calls anything: a missing
    file raises [FileNotFoundError], also when the mode is invalid too, and
    an invalid mode on an existing file raises [ValueError]; in both cases
    no call is recorded and the clock does not move. *)
Theorem upload_data_rejects_before_any_call (fuel : nat) (self : LoadDataClient.t)
    (project_id csv_file_path dataset_name mode : string) (poll_job : bool)
    (csv_options : LoadDataClient.DataPullRequestCsvOptions)
    (w : LoadDataClient.world line) :
  (LoadDataClient.files env csv_file_path = None ->
   LoadDataClient.upload_data byte_len env fuel self project_id csv_file_path
     dataset_name mode poll_job csv_options w
   = Some (Raise (FileNotFoundError ("CSV file not found: " ++ csv_file_path)), w)) /\
  (LoadDataClient.files env csv_file_path <> None ->
   mode <> "full"%string -> mode <> "incremental"%string ->
   LoadDataClient.upload_data byte_len env fuel self project_id csv_file_path
     dataset_name mode poll_job csv_options w
   = Some (Raise (ValueError
                    "Invalid data loading mode. Must be 'full' or 'incremental'."), w)).
Proof.
  unfold LoadDataClient.upload_data, LoadDataClient.os_path_exists.
  split.
  - intros ->. reflexivity.
  - intros Hfile Hfull Hincr.
    destruct (LoadDataClient.files env csv_file_path); [|contradiction].
    apply String.eqb_neq in Hfull, Hincr. rewrite Hfull, Hincr. reflexivity.
Qed.

Lemma is_self_iff (link : LoadDataClient.dict) :
  LoadDataClient.is_self link = true
  <-> LoadDataClient.dict_get link "rel" = Some "self"%string.
Proof.
  unfold LoadDataClient.is_self.
  destruct (LoadDataClient.dict_get link "rel") as [r|].
  - rewrite String.eqb_eq. split; [intros ->; reflexivity|intros [= ->]; reflexivity].
  - split; discriminate.
Qed.

Lemma find_first {A : Type} (f : A -> bool) (l : list A) :
  match find f l with
  | Some x => exists pre post,
                l = pre ++ x :: post /\ Forall (fun y => f y = false) pre /\ f x = true
  | None => Forall (fun y => f y = false) l
  end.
Proof.
  induction l as [|a l IH]; simpl.
  - constructor.
  - destruct (f a) eqn:Ha.
    + exists [], l. auto.
    + destruct (find f l) as [x|].
      * destruct IH as (pre & post & -> & Hpre & Hx).
        exists (a :: pre), post. auto.
      * constructor; assumption.
Qed.

Lemma find_first_unique {A : Type} (f : A -> bool) (pre post : list A) (x : A) :
  Forall (fun y => f y = false) pre -> f x = true ->
  find f (pre ++ x :: post) = Some x.
Proof.
  induction 1 as [|a pre Ha _ IH]; intros Hx; simpl.
  - rewrite Hx. reflexivity.
  - rewrite Ha. apply IH. exact Hx.
Qed.

(** [_get_file_uri_from_response] returns the [href] of the first link
    whose [rel] is [self], and returns exactly when there is such a link
    and its [href] is not the empty string.  A [self] link without [href]
    makes it return [None], not raise. *)
Theorem file_uri_is_href_of_first_self_link
    (response : LoadDataClient.DataUpload200Response) (uri : option string) :
  LoadDataClient._get_file_uri_from_response response = Ok uri
  <-> exists pre link post,
        LoadDataClient.links response = Some (pre ++ link :: post) /\
        Forall (fun l => LoadDataClient.dict_get l "rel" <> Some "self"%string) pre /\
        LoadDataClient.dict_get link "rel" = Some "self"%string /\
        LoadDataClient.dict_get link "href" = uri /\
        uri <> Some ""%string.
Proof.
  unfold LoadDataClient._get_file_uri_from_response.
  split.
  - destruct (LoadDataClient.links response) as [ls|]; [|discriminate].
    pose proof (find_first LoadDataClient.is_self ls) as Hfind.
    destruct (find LoadDataClient.is_self ls) as [link|]; [|discriminate].
    destruct Hfind as (pre & post & -> & Hpre & Hlink).
    intros Huri.
    exists pre, link, post.
    split; [reflexivity|].
    split.
    { eapply Forall_impl; [|exact Hpre]. simpl. intros l Hl Hrel.
      apply is_self_iff in Hrel. congruence. }
    split; [apply is_self_iff; exact Hlink|].
    destruct (LoadDataClient.dict_get link "href") as [[|c s]|];
      try discriminate; injection Huri as <-; split; congruence.
  - intros (pre & link & post & -> & Hpre & Hlink & Hhref & Hne).
    rewrite (find_first_unique LoadDataClient.is_self pre post link).
    + rewrite Hhref. destruct uri as [[|c s]|]; [contradiction|reflexivity|reflexivity].
    + eapply Forall_impl; [|exact Hpre]. simpl. intros l Hl.
      destruct (LoadDataClient.is_self l) eqn:E; [|reflexivity].
      apply is_self_iff in E. contradiction.
    + apply is_self_iff. exact Hlink.
Qed.

(** In the multipart path the i-th part upload goes to the i-th presigned
    URL of the upload response: the URLs used, in order, are a prefix of
    [upload_urls_encoded], also when the path fails on the way. *)
Theorem multipart_parts_follow_url_order (self : LoadDataClient.t)
    (project_id csv_file_path : string) (parts : Z) (dataset_name mode : string)
    (csv_options : LoadDataClient.DataPullRequestCsvOptions)
    (w : LoadDataClient.world line) :
  exists r w' new,
    LoadDataClient._multipart_upload byte_len env self project_id csv_file_path
      parts dataset_name mode csv_options w = Some (r, w') /\
    LoadDataClient.log w' = LoadDataClient.log w ++ new /\
    forall upload_response,
      LoadDataClient.data_upload env (LoadDataClient.log w) project_id (Some parts)
        = Ok upload_response ->
      map (fun u => fst (fst u)) (part_uploads new)
      = firstn (List.length (part_uploads new))
          (LoadDataClient.upload_urls_encoded upload_response).
Proof.
  destruct (_multipart_upload_runs byte_len env self project_id csv_file_path parts
              dataset_name mode csv_options w) as (r & w' & new & Hrun & Hlog & Hshape).
  exists r, w', new. split; [exact Hrun|]. split; [exact Hlog|].
  apply (multipart_run_facts byte_len env _ _ _ _ _ _ _ _ _ _ Hshape).
Qed.

(** A completion request never carries an empty tag. *)
Theorem completion_tags_are_nonempty (self : LoadDataClient.t)
    (project_id csv_file_path : string) (parts : Z) (dataset_name mode : string)
    (csv_options : LoadDataClient.DataPullRequestCsvOptions)
    (w : LoadDataClient.world line) :
  exists r w' new,
    LoadDataClient._multipart_upload byte_len env self project_id csv_file_path
      parts dataset_name mode csv_options w = Some (r, w') /\
    LoadDataClient.log w' = LoadDataClient.log w ++ new /\
    forall req, In req (completions new) ->
      Forall (fun t => LoadDataClient.eTag t <> ""%string) (LoadDataClient.partETags req).
Proof.
  destruct (_multipart_upload_runs byte_len env self project_id csv_file_path parts
              dataset_name mode csv_options w) as (r & w' & new & Hrun & Hlog & Hshape).
  exists r, w', new. split; [exact Hrun|]. split; [exact Hlog|].
  apply (multipart_run_facts byte_len env _ _ _ _ _ _ _ _ _ _ Hshape).
Qed.

(** In the multipart path a job is submitted only as the last call, right
    after a completion call that succeeded; the job request is the
    [dataPull] request for the file URI of the upload response, and what
    the submission answers is what [_multipart_upload] returns or raises. *)
Theorem multipart_job_follows_completion (self : LoadDataClient.t)
    (project_id csv_file_path : string) (parts : Z) (dataset_name mode : string)
    (csv_options : LoadDataClient.DataPullRequestCsvOptions)
    (w : LoadDataClient.world line) :
  exists r w' new,
    LoadDataClient._multipart_upload byte_len env self project_id csv_file_path
      parts dataset_name mode csv_options w = Some (r, w') /\
    LoadDataClient.log w' = LoadDataClient.log w ++ new /\
    forall job_request out, In (job_request, out) (submissions new) ->
      r = out /\
      exists upload_response file_uri pre req,
        LoadDataClient.data_upload env (LoadDataClient.log w) project_id (Some parts)
          = Ok upload_response /\
        LoadDataClient._get_file_uri_from_response upload_response = Ok file_uri /\
        job_request = LoadDataClient._create_data_pull_job_request project_id
                        dataset_name mode file_uri csv_options /\
        new = pre ++ [LoadDataClient.CompleteMultipartUpload project_id
                        (LoadDataClient.id upload_response) req (Ok tt);
                      LoadDataClient.SubmitJobExecution job_request out].
Proof.
  destruct (_multipart_upload_runs byte_len env self project_id csv_file_path parts
              dataset_name mode csv_options w) as (r & w' & new & Hrun & Hlog & Hshape).
  exists r, w', new. split; [exact Hrun|]. split; [exact Hlog|].
  apply (multipart_run_facts byte_len env _ _ _ _ _ _ _ _ _ _ Hshape).
Qed.

(** In the single-part path a job is submitted only after the whole file
    was PUT, raw and with its byte size as [Content-Length], to the upload
    URL, and the answer was no 4xx/5xx: the calls are then exactly the
    upload request, this PUT and the submission. *)
Theorem single_part_job_follows_upload (self : LoadDataClient.t)
    (project_id csv_file_path dataset_name mode : string)
    (csv_options : LoadDataClient.DataPullRequestCsvOptions)
    (w : LoadDataClient.world line) :
  exists r w' new,
    LoadDataClient._single_part_upload byte_len env self project_id csv_file_path
      dataset_name mode csv_options w = Some (r, w') /\
    LoadDataClient.log w' = LoadDataClient.log w ++ new /\
    completions new = [] /\
    forall job_request out, In (job_request, out) (submissions new) ->
      r = out /\
      exists upload_response f response file_uri,
        LoadDataClient.files env csv_file_path = Some f /\
        LoadDataClient.raise_for_status response = Ok tt /\
        LoadDataClient._get_file_uri_from_response upload_response = Ok file_uri /\
        job_request = LoadDataClient._create_data_pull_job_request project_id
                        dataset_name mode file_uri csv_options /\
        new = [LoadDataClient.DataUpload project_id None (Ok upload_response);
               LoadDataClient.RequestsPut
                 (LoadDataClient.upload_url_encoded upload_response)
                 (LoadDataClient.RawFile f)
                 [("Content-Type", LoadDataClient.content_type self);
                  ("Content-Length", str (total_bytes byte_len f))]%string
                 (Ok response);
               LoadDataClient.SubmitJobExecution job_request out].
Proof.
  destruct (_single_part_upload_runs byte_len env self project_id csv_file_path
              dataset_name mode csv_options w)
    as (r & w' & new & Hrun & Hlog & _ & _ & Hc & _ & Hsub).
  exists r, w', new. auto.
Qed.

(** Without polling, [upload_data] fetches no job status and never
    sleeps, whichever path it takes and however it ends, and its outcome
    is the same for every bound on the polling loop. *)
Theorem upload_data_without_polling (self : LoadDataClient.t)
    (project_id csv_file_path dataset_name mode : string)
    (csv_options : LoadDataClient.DataPullRequestCsvOptions)
    (w : LoadDataClient.world line) :
  exists r w' new,
    (forall fuel : nat,
       LoadDataClient.upload_data byte_len env fuel self project_id csv_file_path
         dataset_name mode false csv_options w = Some (r, w')) /\
    LoadDataClient.log w' = LoadDataClient.log w ++ new /\
    fetches new = 0%nat /\ sleeps new = [].
Proof.
  destruct (LoadDataClient.files env csv_file_path) as [f|] eqn:Hfile.
  2:{ exists (Raise (FileNotFoundError ("CSV file not found: " ++ csv_file_path))), w, [].
      split.
      - intros fuel. unfold LoadDataClient.upload_data, LoadDataClient.os_path_exists.
        rewrite Hfile. reflexivity.
      - rewrite app_nil_r. auto. }
  assert (Hmode : (mode = "full"%string \/ mode = "incremental"%string) \/
                  (mode <> "full"%string /\ mode <> "incremental"%string)).
  { destruct (String.eqb_spec mode "full"); [tauto|].
    destruct (String.eqb_spec mode "incremental"); tauto. }
  destruct Hmode as [Hvalid|[Hfull Hincr]].
  2:{ exists (Raise (ValueError
                       "Invalid data loading mode. Must be 'full' or 'incremental'.")),
        w, [].
      split.
      - intros fuel. unfold LoadDataClient.upload_data, LoadDataClient.os_path_exists.
        rewrite Hfile. apply String.eqb_neq in Hfull, Hincr. rewrite Hfull, Hincr.
        reflexivity.
      - rewrite app_nil_r. auto. }
  assert (Hchosen : forall r w',
            LoadDataClient.choose_upload byte_len env self project_id csv_file_path
              dataset_name mode csv_options (total_bytes byte_len f) w = Some (r, w') ->
            forall fuel : nat,
              LoadDataClient.upload_data byte_len env fuel self project_id csv_file_path
                dataset_name mode false csv_options w = Some (r, w')).
  { intros r w' Hrun fuel.
    rewrite (upload_data_checks_pass byte_len env fuel self project_id csv_file_path
               dataset_name mode false csv_options f w Hfile Hvalid).
    unfold LoadDataClient.bind. rewrite Hrun.
    destruct r; reflexivity. }
  unfold LoadDataClient.choose_upload in Hchosen.
  destruct (total_bytes byte_len f <=? LoadDataClient.chunk_size self).
  - destruct (_single_part_upload_runs byte_len env self project_id csv_file_path
                dataset_name mode csv_options w)
      as (r & w' & new & Hrun & Hlog & Hf & Hs & _).
    exists r, w', new. split; [exact (Hchosen r w' Hrun)|]. auto.
  - destruct (LoadDataClient.target_part_size self =? 0).
    { eexists _, w, []. split; [apply Hchosen; reflexivity|].
      rewrite app_nil_r. auto. }
    destruct (_multipart_upload_runs byte_len env self project_id csv_file_path
                ((total_bytes byte_len f + LoadDataClient.target_part_size self - 1)
                 / LoadDataClient.target_part_size self)
                dataset_name mode csv_options w)
      as (r & w' & new & Hrun & Hlog & Hshape).
    exists r, w', new. split; [exact (Hchosen r w' Hrun)|]. split; [exact Hlog|].
    destruct (multipart_run_facts byte_len env _ _ _ _ _ _ _ _ _ _ Hshape) as (Hf & Hs & _).
    auto.
Qed.

End UploadFacts.

(** ** The polling loop, call by call *)

Section PollingMore.
Context {line : Type}.
Variable env : LoadDataClient.collaborators line.

(** How the loop ends, when it ends: for each status that is not terminal
    it has recorded the fetch and a sleep of [poll_interval]; then comes a
    last fetch, and the result follows from it. *)
Lemma poll_loop_ends (job : string) (poll_interval : Z) (timeout : option Z)
    (start_time : Z) :
  forall (fuel : nat) (w w' : LoadDataClient.world line) (r : result bool),
  LoadDataClient.poll_loop env fuel job poll_interval timeout start_time w = Some (r, w') ->
  exists (waited : list LoadDataClient.JobDetailResponse)
         (out : result LoadDataClient.JobDetailResponse),
    LoadDataClient.log w'
    = LoadDataClient.log w
      ++ flat_map (fun js => [LoadDataClient.GetJobStatus job "dataPull" (Ok js);
                              LoadDataClient.Sleep poll_interval]) waited
      ++ [LoadDataClient.GetJobStatus job "dataPull" out] /\
    Forall (fun js => LoadDataClient.status js <> "SUCCEEDED"%string /\
                      LoadDataClient.status js <> "FAILED"%string) waited /\
    match out with
    | Raise e => r = Raise e
    | Ok js =>
        (LoadDataClient.status js = "SUCCEEDED"%string /\ r = Ok true) \/
        (LoadDataClient.status js = "FAILED"%string /\ r = Ok false) \/
        (LoadDataClient.status js <> "SUCCEEDED"%string /\
         LoadDataClient.status js <> "FAILED"%string /\
         ((exists t, timeout = Some t /\ t <> 0 /\
                     LoadDataClient.now w' - start_time
                       > t * LoadDataClient.ticks_per_second env /\
                     r = Raise (TimeoutError (timeout_message job t))) \/
          (poll_interval < 0 /\
           r = Raise (ValueError "sleep length must be non-negative"))))
    end.
Proof.
  induction fuel as [|fuel IH]; intros w w' r Hrun.
  - discriminate.
  - destruct (LoadDataClient.get_job_status env (LoadDataClient.log w) job "dataPull")
      as [js|e] eqn:Hget.
    2:{ cbn [LoadDataClient.poll_loop] in Hrun.
        unfold LoadDataClient.bind at 1 in Hrun. unfold LoadDataClient.call in Hrun.
        rewrite Hget in Hrun. injection Hrun as <- <-.
        exists [], (Raise e). simpl.
        split; [reflexivity|]. split; [constructor|reflexivity]. }
    destruct (String.eqb_spec (LoadDataClient.status js) "SUCCEEDED") as [Hs|Hs].
    { rewrite (poll_loop_succeeded env fuel job poll_interval timeout start_time w js
                 Hget Hs) in Hrun.
      injection Hrun as <- <-.
      exists [], (Ok js). simpl.
      split; [reflexivity|]. split; [constructor|]. left. auto. }
    destruct (String.eqb_spec (LoadDataClient.status js) "FAILED") as [Hf|Hf].
    { cbn [LoadDataClient.poll_loop] in Hrun.
      unfold LoadDataClient.bind at 1 in Hrun. unfold LoadDataClient.call in Hrun.
      rewrite Hget in Hrun.
      apply String.eqb_neq in Hs. rewrite Hs in Hrun.
      pose proof Hf as Hf'. apply String.eqb_eq in Hf'. rewrite Hf' in Hrun.
      injection Hrun as <- <-.
      exists [], (Ok js). simpl.
      split; [reflexivity|]. split; [constructor|]. right. left. auto. }
    rewrite (poll_loop_not_terminal env fuel job poll_interval timeout start_time w js
               Hget Hs Hf) in Hrun.
    cbv zeta in Hrun.
    destruct (LoadDataClient.truthy_int timeout) eqn:Htruthy.
    + destruct timeout as [t|]; [|discriminate]. simpl in Htruthy.
      apply negb_true_iff, Z.eqb_neq in Htruthy.
      simpl andb in Hrun.
      destruct (_ >? _) eqn:Hgt in Hrun.
      { injection Hrun as <- <-.
        exists [], (Ok js). simpl. split; [reflexivity|]. split; [constructor|].
        right. right. split; [exact Hs|]. split; [exact Hf|]. left.
        exists t. apply Z.gtb_gt in Hgt. simpl in Hgt. auto. }
      destruct (poll_interval <? 0) eqn:Hneg.
      { injection Hrun as <- <-.
        exists [], (Ok js). simpl. split; [reflexivity|]. split; [constructor|].
        right. right. split; [exact Hs|]. split; [exact Hf|]. right.
        apply Z.ltb_lt in Hneg. auto. }
      destruct (IH _ _ _ Hrun) as (waited & out & Hlog & Hwaited & Hout).
      exists (js :: waited), out.
      split; [rewrite Hlog; simpl; rewrite <- !app_assoc; reflexivity|].
      split; [constructor; auto|exact Hout].
    + simpl andb in Hrun. cbv iota in Hrun.
      destruct (poll_interval <? 0) eqn:Hneg.
      { injection Hrun as <- <-.
        exists [], (Ok js). simpl. split; [reflexivity|]. split; [constructor|].
        right. right. split; [exact Hs|]. split; [exact Hf|]. right.
        apply Z.ltb_lt in Hneg. auto. }
      destruct (IH _ _ _ Hrun) as (waited & out & Hlog & Hwaited & Hout).
      exists (js :: waited), out.
      split; [rewrite Hlog; simpl; rewrite <- !app_assoc; reflexivity|].
      split; [constructor; auto|exact Hout].
Qed.

(** [poll_job_status], when it ends, has made for each status that was
    not terminal one fetch followed by one sleep of [poll_interval]
    seconds, and then a last fetch.  If that fetch raised, the same
    exception is raised at once (no retry); SUCCEEDED gives [True] and
    FAILED gives [False]; on any other status the call raised
    [TimeoutError], with a timeout set and more than that time elapsed, or
    the sleep refused a negative interval. *)
Theorem poll_job_status_ends_on_last_fetch (fuel : nat) (job : string)
    (poll_interval : Z) (timeout : option Z)
    (w w' : LoadDataClient.world line) (r : result bool) :
  LoadDataClient.poll_job_status env fuel job poll_interval timeout w = Some (r, w') ->
  exists (waited : list LoadDataClient.JobDetailResponse)
         (out : result LoadDataClient.JobDetailResponse),
    LoadDataClient.log w'
    = LoadDataClient.log w
      ++ flat_map (fun js => [LoadDataClient.GetJobStatus job "dataPull" (Ok js);
                              LoadDataClient.Sleep poll_interval]) waited
      ++ [LoadDataClient.GetJobStatus job "dataPull" out] /\
    Forall (fun js => LoadDataClient.status js <> "SUCCEEDED"%string /\
                      LoadDataClient.status js <> "FAILED"%string) waited /\
    match out with
    | Raise e => r = Raise e
    | Ok js =>
        (LoadDataClient.status js = "SUCCEEDED"%string /\ r = Ok true) \/
        (LoadDataClient.status js = "FAILED"%string /\ r = Ok false) \/
        (LoadDataClient.status js <> "SUCCEEDED"%string /\
         LoadDataClient.status js <> "FAILED"%string /\
         ((exists t, timeout = Some t /\ t <> 0 /\
                     LoadDataClient.now w' - LoadDataClient.now w
                       > t * LoadDataClient.ticks_per_second env /\
                     r = Raise (TimeoutError (timeout_message job t))) \/
          (poll_interval < 0 /\
           r = Raise (ValueError "sleep length must be non-negative"))))
    end.
Proof.
  unfold LoadDataClient.poll_job_status, LoadDataClient.bind, LoadDataClient.time_time.
  apply poll_loop_ends.
Qed.

(** A timeout of 0 is no timeout: [poll_job_status] behaves with
    [timeout=0] as with [timeout=None]. *)
Theorem poll_job_status_zero_timeout (fuel : nat) (job : string) (poll_interval : Z)
    (w : LoadDataClient.world line) :
  LoadDataClient.poll_job_status env fuel job poll_interval (Some 0) w
  = LoadDataClient.poll_job_status env fuel job poll_interval None w.
Proof.
  unfold LoadDataClient.poll_job_status, LoadDataClient.bind, LoadDataClient.time_time.
  generalize (LoadDataClient.now w) as start_time. intros start_time.
  revert w.
  induction fuel as [|fuel IH]; intros w.
  - reflexivity.
  - cbn [LoadDataClient.poll_loop].
    unfold LoadDataClient.bind, LoadDataClient.call, LoadDataClient.time_time,
      LoadDataClient.time_sleep.
    destruct (LoadDataClient.get_job_status env (LoadDataClient.log w) job "dataPull")
      as [js|e]; [|reflexivity].
    destruct (LoadDataClient.status js =? "SUCCEEDED")%string; [reflexivity|].
    destruct (LoadDataClient.status js =? "FAILED")%string; [reflexivity|].
    simpl LoadDataClient.truthy_int. simpl andb. cbv iota.
    destruct (poll_interval <? 0); [reflexivity|].
    apply IH.
Qed.

End PollingMore.

Section UploadAndWait.
Context {line : Type}.
Variable byte_len : line -> Z.
Variable env : LoadDataClient.collaborators line.

(** With [poll_job=True], [upload_data] returns a job response only after
    a status fetch for that job answered SUCCEEDED, and this fetch is the
    last call it made. *)
Theorem upload_data_returns_after_success (fuel : nat) (self : LoadDataClient.t)
    (project_id csv_file_path dataset_name mode : string)
    (csv_options : LoadDataClient.DataPullRequestCsvOptions)
    (w w' : LoadDataClient.world line) (job_response : LoadDataClient.JobDetailResponse) :
  LoadDataClient.upload_data byte_len env fuel self project_id csv_file_path
    dataset_name mode true csv_options w = Some (Ok job_response, w') ->
  exists h js,
    LoadDataClient.log w'
    = h ++ [LoadDataClient.GetJobStatus (LoadDataClient.job_id job_response)
              "dataPull" (Ok js)] /\
    LoadDataClient.status js = "SUCCEEDED"%string.
Proof.
  intros Hrun.
  destruct (LoadDataClient.files env csv_file_path) as [f|] eqn:Hfile.
  2:{ unfold LoadDataClient.upload_data, LoadDataClient.os_path_exists in Hrun.
      rewrite Hfile in Hrun. discriminate. }
  assert (Hmode : (mode = "full"%string \/ mode = "incremental"%string) \/
                  (mode <> "full"%string /\ mode <> "incremental"%string)).
  { destruct (String.eqb_spec mode "full"); [tauto|].
    destruct (String.eqb_spec mode "incremental"); tauto. }
  destruct Hmode as [Hvalid|[Hfull Hincr]].
  2:{ unfold LoadDataClient.upload_data, LoadDataClient.os_path_exists in Hrun.
      rewrite Hfile in Hrun. apply String.eqb_neq in Hfull, Hincr.
      rewrite Hfull, Hincr in Hrun. discriminate. }
  rewrite (upload_data_checks_pass byte_len env fuel self project_id csv_file_path
             dataset_name mode true csv_options f w Hfile Hvalid) in Hrun.
  unfold LoadDataClient.bind at 1 in Hrun.
  destruct (LoadDataClient.choose_upload byte_len env self project_id csv_file_path
              dataset_name mode csv_options (total_bytes byte_len f) w)
    as [[[job0|e] w1]|]; try discriminate.
  unfold LoadDataClient.await_job in Hrun.
  unfold LoadDataClient.bind at 1 in Hrun.
  destruct (LoadDataClient.poll_job_status env fuel (LoadDataClient.job_id job0) 5 None w1)
    as [[[success|e] w2]|] eqn:Hpoll; try discriminate.
  destruct success; simpl in Hrun; [|discriminate].
  injection Hrun as <- <-.
  unfold LoadDataClient.poll_job_status, LoadDataClient.bind,
    LoadDataClient.time_time in Hpoll.
  destruct (poll_loop_ends env _ _ _ _ _ _ _ _ Hpoll) as (waited & out & Hlog & _ & Hout).
  destruct out as [js|e]; [|discriminate].
  exists (LoadDataClient.log w1
          ++ flat_map (fun js0 => [LoadDataClient.GetJobStatus (LoadDataClient.job_id job0)
                                     "dataPull" (Ok js0);
                                   LoadDataClient.Sleep 5]) waited), js.
  split; [rewrite Hlog, <- app_assoc; reflexivity|].
  destruct Hout as [[Hs _]|[[_ Hr]|(_ & _ & [(t & Ht & _)|[_ Hr]])]];
    [exact Hs|discriminate..].
Qed.

End UploadAndWait.

Lemma upload_data_returns_after_success_witness :
  let env := accepting_backend utf8_len (small_fs small_csv)
               [("RUNNING", None); ("SUCCEEDED", None)]%string in
  exists h js,
    log_of (LoadDataClient.upload_data utf8_len env 2
              (LoadDataClient.__init__ LoadDataClient.default_chunk_size)
              "p1" "data.csv" "stores" "full" true [] fresh)
    = h ++ [LoadDataClient.GetJobStatus "job-1" "dataPull" (Ok js)] /\
    LoadDataClient.status js = "SUCCEEDED"%string.
Proof.
  intros env.
  destruct (LoadDataClient.upload_data utf8_len env 2
              (LoadDataClient.__init__ LoadDataClient.default_chunk_size)
              "p1" "data.csv" "stores" "full" true [] fresh)
    as [[r w']|] eqn:Hrun; [|vm_compute in Hrun; discriminate].
  assert (Hr : r = Ok {| LoadDataClient.job_id := "job-1";
                         LoadDataClient.status := "RUNNING";
                         LoadDataClient.message := None |}).
  { vm_compute in Hrun. injection Hrun as <- _. reflexivity. }
  subst r.
  exact (upload_data_returns_after_success utf8_len env 2 _ _ _ _ _ _ _ _ _ Hrun).
Defined.

(** ** API lookup by attribute name *)

Section Names.

Lemma append_nil_r (s : string) : (s ++ "")%string = s.
Proof.
  induction s as [|c s IH]; simpl; [reflexivity|]. rewrite IH. reflexivity.
Qed.

Lemma lower_char_facts (c : ascii) :
  BaseClient.is_upper (BaseClient.lower_char c) = false /\
  (BaseClient.is_lower c = true ->
   BaseClient.is_upper (BaseClient.upper_char c) = true /\
   BaseClient.lower_char (BaseClient.upper_char c) = c) /\
  (BaseClient.is_lower c || BaseClient.is_digit c = true ->
   BaseClient.is_upper c = false /\
   BaseClient.lower_char c = c /\
   Ascii.eqb c "_" = false).
Proof.
  destruct c as [[] [] [] [] [] [] [] []]; vm_compute;
    repeat split; intros; try reflexivity; discriminate.
Qed.

Lemma lower_plain (s : string) :
  all_chars (fun x => BaseClient.is_lower x || BaseClient.is_digit x) s = true ->
  BaseClient.lower s = s.
Proof.
  induction s as [|c s IH]; simpl; [reflexivity|].
  intros H. apply andb_true_iff in H. destruct H as [Hc Hs].
  rewrite (IH Hs).
  destruct (lower_char_facts c) as (_ & _ & Hplain).
  destruct (Hplain Hc) as (_ & -> & _). reflexivity.
Qed.

Lemma lower_app (s t : string) :
  BaseClient.lower (s ++ t) = (BaseClient.lower s ++ BaseClient.lower t)%string.
Proof.
  induction s as [|c s IH]; simpl; [reflexivity|]. rewrite IH. reflexivity.
Qed.

(** A run of small letters and digits goes through [underscore_runs]
    unchanged and ends any run of capital letters. *)
Lemma underscore_runs_plain (t s : string) :
  all_chars (fun x => BaseClient.is_lower x || BaseClient.is_digit x) t = true ->
  t <> EmptyString ->
  forall in_run,
    BaseClient.underscore_runs in_run (t ++ s)
    = (t ++ BaseClient.underscore_runs false s)%string.
Proof.
  induction t as [|c t IH]; [contradiction|].
  simpl. intros H _ in_run.
  apply andb_true_iff in H. destruct H as [Hc Ht].
  destruct (lower_char_facts c) as (_ & _ & Hplain).
  destruct (Hplain Hc) as (-> & _ & _).
  f_equal.
  destruct t as [|c' t'].
  - reflexivity.
  - apply IH; [exact Ht|discriminate].
Qed.

Lemma split_underscore_word (w : string) :
  all_chars (fun x => BaseClient.is_lower x || BaseClient.is_digit x) w = true ->
  BaseClient.split_underscore w = [w] /\
  forall s, BaseClient.split_underscore (w ++ String "_" s)
            = w :: BaseClient.split_underscore s.
Proof.
  induction w as [|c w IH]; simpl.
  - auto.
  - intros H. apply andb_true_iff in H. destruct H as [Hc Hw].
    destruct (lower_char_facts c) as (_ & _ & Hplain).
    destruct (Hplain Hc) as (_ & _ & ->).
    destruct (IH Hw) as (-> & Happ).
    split; [reflexivity|]. intros s. rewrite Happ. reflexivity.
Qed.

Lemma snake_word_plain (w : string) :
  snake_word w = true ->
  all_chars (fun x => BaseClient.is_lower x || BaseClient.is_digit x) w = true.
Proof.
  destruct w as [|c [|c' rest]]; try discriminate.
  unfold snake_word. intros H. apply andb_true_iff in H. destruct H as [Hc Hrest].
  change (all_chars (fun x => BaseClient.is_lower x || BaseClient.is_digit x)
            (String c (String c' rest)))
    with ((BaseClient.is_lower c || BaseClient.is_digit c)
          && all_chars (fun x => BaseClient.is_lower x || BaseClient.is_digit x)
               (String c' rest)).
  rewrite Hc, Hrest. reflexivity.
Qed.

Lemma split_underscore_join (ws : list string) :
  ws <> [] ->
  Forall (fun w => snake_word w = true) ws ->
  BaseClient.split_underscore (String.concat "_" ws) = ws.
Proof.
  induction ws as [|w ws IH]; [contradiction|].
  intros _ Hall. inversion Hall as [|? ? Hw Hws]; subst.
  apply snake_word_plain in Hw.
  destruct (split_underscore_word w Hw) as (Hone & Happ).
  destruct ws as [|w' ws'].
  - simpl. exact Hone.
  - change (String.concat "_" (w :: w' :: ws'))
      with (w ++ String "_" (String.concat "_" (w' :: ws')))%string.
    rewrite Happ, IH; [reflexivity|discriminate|exact Hws].
Qed.

(** The class name of snake-case words, put back through the regular
    expression and [lower]: every word with an underscore before it. *)
Lemma lower_underscore_runs_words (ws : list string) :
  Forall (fun w => snake_word w = true) ws ->
  BaseClient.lower
    (BaseClient.underscore_runs false
       (String.concat "" (map BaseClient.capitalize ws)))
  = String.concat "" (map (fun w => String "_" w) ws).
Proof.
  induction 1 as [|w ws Hw Hws IH]; [reflexivity|].
  assert (Hstep : forall tail,
            BaseClient.lower
              (BaseClient.underscore_runs false (BaseClient.capitalize w ++ tail))
            = (String "_" w
               ++ BaseClient.lower (BaseClient.underscore_runs false tail))%string).
  { intros tail.
    destruct w as [|c [|c' rest]]; try discriminate.
    unfold snake_word in Hw. apply andb_true_iff in Hw. destruct Hw as [Hc Hrest].
    destruct (lower_char_facts c) as (_ & Hlow & _).
    destruct (Hlow Hc) as (Hup & Hback).
    unfold BaseClient.capitalize. rewrite (lower_plain _ Hrest).
    change (String (BaseClient.upper_char c) (String c' rest) ++ tail)%string
      with (String (BaseClient.upper_char c) (String c' rest ++ tail)).
    cbn [BaseClient.underscore_runs]. rewrite Hup.
    rewrite (underscore_runs_plain (String c' rest) tail Hrest) by discriminate.
    cbn [BaseClient.lower]. rewrite Hback.
    change (BaseClient.lower_char "_") with "_"%char.
    rewrite lower_app, (lower_plain _ Hrest). reflexivity. }
  destruct ws as [|w' ws'].
  - simpl map. cbn [String.concat].
    rewrite <- (append_nil_r (BaseClient.capitalize w)) at 1.
    rewrite Hstep. simpl. rewrite append_nil_r. reflexivity.
  - change (String.concat "" (map BaseClient.capitalize (w :: w' :: ws')))
      with (BaseClient.capitalize w
            ++ String.concat "" (map BaseClient.capitalize (w' :: ws')))%string.
    rewrite Hstep, IH.
    reflexivity.
Qed.

Lemma join_words (w : string) (ws : list string) :
  (w ++ String.concat "" (map (fun x => String "_" x) ws))%string
  = String.concat "_" (w :: ws).
Proof.
  revert w. induction ws as [|w' ws IH]; intros w.
  - simpl. apply append_nil_r.
  - change (String.concat "_" (w :: w' :: ws))
      with (w ++ String "_" (String.concat "_" (w' :: ws)))%string.
    rewrite <- IH. destruct ws; simpl; [rewrite append_nil_r|]; reflexivity.
Qed.

End Names.

Section ApiLookup.

Lemma concat_empty_cons (x : string) (l : list string) :
  String.concat "" (x :: l) = (x ++ String.concat "" l)%string.
Proof.
  destruct l; simpl; [rewrite append_nil_r|]; reflexivity.
Qed.

Lemma snake_case_round_trip_helper (words : list string) :
  words <> [] ->
  Forall (fun w => snake_word w = true) words ->
  BaseClient._to_snake_case (BaseClient.to_class_name (String.concat "_" words))
  = String.concat "_" words.
Proof.
  intros Hne Hall.
  unfold BaseClient._to_snake_case, BaseClient.to_class_name.
  rewrite (split_underscore_join words Hne Hall).
  rewrite (lower_underscore_runs_words words Hall).
  destruct words as [|w ws]; [contradiction|].
  cbn [map]. rewrite concat_empty_cons.
  inversion Hall as [|? ? Hw _]; subst.
  destruct w as [|c [|c' rest]]; try discriminate.
  unfold snake_word in Hw. apply andb_true_iff in Hw. destruct Hw as [Hc _].
  destruct (lower_char_facts c) as (_ & _ & Hplain).
  destruct (Hplain (proj2 (orb_true_iff _ _) (or_introl Hc))) as (_ & _ & Hnot).
  cbn [append BaseClient.lstrip_underscores].
  change (Ascii.eqb "_" "_") with true. cbv iota.
  rewrite Hnot.
  apply (join_words (String c (String c' rest)) ws).
Qed.

(** An attribute name made of snake-case words comes back from its class
    name: [_to_snake_case] undoes the conversion [__getattr__] makes.
    [data_upload_api] gives [DataUploadApi], which gives
    [data_upload_api]. *)
Theorem snake_case_round_trip (words : list string) :
  words <> [] ->
  Forall (fun w => snake_word w = true) words ->
  BaseClient._to_snake_case (BaseClient.to_class_name (String.concat "_" words))
  = String.concat "_" words.
Proof. exact (snake_case_round_trip_helper words). Qed.

Lemma lstrip_underscores_shape (s : string) :
  (forall rest, BaseClient.lstrip_underscores s <> String "_" rest) /\
  (all_chars (fun c => negb (BaseClient.is_upper c)) s = true ->
   all_chars (fun c => negb (BaseClient.is_upper c)) (BaseClient.lstrip_underscores s)
   = true).
Proof.
  induction s as [|c s [IH1 IH2]]; simpl.
  - split; [discriminate|reflexivity].
  - destruct (Ascii.eqb_spec c "_") as [->|Hc].
    + split; [exact IH1|]. intros H. apply andb_true_iff in H. apply IH2, H.
    + split; [|auto]. intros rest [= ? _]. contradiction.
Qed.

(** A module name made by [_to_snake_case] has no capital letter and does
    not begin with an underscore, whatever the class name. *)
Theorem _to_snake_case_shape (class_name : string) :
  all_chars (fun c => negb (BaseClient.is_upper c))
    (BaseClient._to_snake_case class_name) = true /\
  forall rest, BaseClient._to_snake_case class_name <> String "_" rest.
Proof.
  unfold BaseClient._to_snake_case.
  destruct (lstrip_underscores_shape
              (BaseClient.lower (BaseClient.underscore_runs false class_name)))
    as [Hfirst Hupper].
  split; [|exact Hfirst].
  apply Hupper.
  generalize (BaseClient.underscore_runs false class_name) as s.
  induction s as [|c s IH]; simpl; [reflexivity|].
  destruct (lower_char_facts c) as (-> & _). simpl. exact IH.
Qed.

Variable sdk : string -> option (list string).

Lemma cache_get_app (cache : list (string * BaseClient.api)) (k k' : string)
    (a : BaseClient.api) :
  BaseClient.cache_get (cache ++ [(k, a)]) k'
  = match BaseClient.cache_get cache k' with
    | Some b => Some b
    | None => if (k =? k')%string then Some a else None
    end.
Proof.
  induction cache as [|[k0 v] cache IH]; simpl.
  - reflexivity.
  - destruct (k0 =? k')%string; [reflexivity|exact IH].
Qed.

(** [_get_api] caches: once it has returned an API object, asking again
    returns the same object without importing or creating anything, and
    an object in the cache is never replaced by a lookup of any class. *)
Theorem _get_api_caches (self self' : BaseClient.t) (api_class_name : string)
    (a : BaseClient.api) :
  BaseClient._get_api sdk self api_class_name = (BaseClient.Returned a, self') ->
  BaseClient._get_api sdk self' api_class_name = (BaseClient.Returned a, self') /\
  (forall k b, BaseClient.cache_get (BaseClient._api_cache self) k = Some b ->
               BaseClient.cache_get (BaseClient._api_cache self') k = Some b) /\
  (BaseClient.created self' <= S (BaseClient.created self))%nat.
Proof.
  unfold BaseClient._get_api.
  destruct (BaseClient.cache_get (BaseClient._api_cache self) api_class_name)
    as [b|] eqn:Hcache.
  - intros [= <- <-]. rewrite Hcache. auto.
  - destruct (sdk _) as [names|]; [|discriminate].
    destruct (existsb (String.eqb api_class_name) names); [|discriminate].
    intros [= <- <-]. simpl.
    rewrite cache_get_app, Hcache, String.eqb_refl.
    split; [reflexivity|]. split; [|lia].
    intros k b Hk. rewrite cache_get_app, Hk. reflexivity.
Qed.

(** For an attribute name made of snake-case words and ending in [_api],
    whose class is not cached yet, [__getattr__] imports the SDK module
    named like the attribute, and when this module defines the class it
    returns a new object of that class and caches it. *)
Theorem __getattr___imports_module_of_that_name (type_name : string)
    (self : BaseClient.t) (words : list string) (names : list string) :
  let name := String.concat "_" words in
  let class_name := BaseClient.to_class_name name in
  let module_name := ("cm_python_openapi_sdk.api." ++ name)%string in
  words <> [] ->
  Forall (fun w => snake_word w = true) words ->
  BaseClient.endswith name "_api" = true ->
  BaseClient.cache_get (BaseClient._api_cache self) class_name = None ->
  BaseClient.imported (snd (BaseClient.__getattr__ sdk type_name self name))
    = BaseClient.imported self ++ [module_name] /\
  (sdk module_name = Some names -> In class_name names ->
   exists a self',
     BaseClient.__getattr__ sdk type_name self name = (BaseClient.Returned a, self') /\
     BaseClient.api_class a = class_name /\
     BaseClient.cache_get (BaseClient._api_cache self') class_name = Some a).
Proof.
  intros name class_name module_name Hne Hall Hends Hcache.
  assert (Hmodule : ("cm_python_openapi_sdk.api."
                     ++ BaseClient._to_snake_case class_name)%string = module_name).
  { unfold class_name, module_name, name.
    rewrite (snake_case_round_trip_helper words Hne Hall). reflexivity. }
  unfold BaseClient.__getattr__. rewrite Hends.
  unfold BaseClient._get_api. fold class_name. rewrite Hcache, Hmodule.
  destruct (sdk module_name) as [names'|] eqn:Hsdk.
  - destruct (existsb (String.eqb class_name) names') eqn:Hex.
    + split; [reflexivity|].
      intros _ _. do 2 eexists. split; [reflexivity|]. split; [reflexivity|].
      simpl. rewrite cache_get_app, Hcache, String.eqb_refl. reflexivity.
    + split; [reflexivity|].
      intros [= <-] Hin. exfalso.
      assert (Htrue : existsb (String.eqb class_name) names' = true).
      { apply existsb_exists. exists class_name. split; [exact Hin|].
        apply String.eqb_refl. }
      congruence.
  - split; [reflexivity|discriminate].
Qed.

End ApiLookup.

(** ** The dump client *)

Section Dump.
Variable env : DataDumpClient.collaborators.

Lemma prefix_refl (s : string) : prefix s s = true.
Proof.
  induction s as [|c s IH]; simpl; [reflexivity|].
  destruct (ascii_dec c c); [exact IH|contradiction].
Qed.

Lemma contains_suffix (p m : string) : contains m (p ++ m) = true.
Proof.
  induction p as [|c p IH]; simpl.
  - destruct m as [|a m']; [reflexivity|].
    cbn [append contains]. rewrite prefix_refl. reflexivity.
  - rewrite IH. apply orb_true_r.
Qed.

(** How [wait_loop] ends, when it ends. *)
Lemma wait_loop_ends (job : string) (poll_interval : Z) (timeout : option Z)
    (start_time : Z) :
  forall (fuel : nat) (w w' : DataDumpClient.world) (r : result unit),
  DataDumpClient.wait_loop env fuel job poll_interval timeout start_time w = Some (r, w') ->
  exists (waited : list DataDumpClient.JobStatus) (out : result DataDumpClient.JobStatus),
    DataDumpClient.log w'
    = DataDumpClient.log w
      ++ flat_map (fun js => [DataDumpClient.GetJobStatus job "dataDump" (Ok js);
                              DataDumpClient.Sleep poll_interval]) waited
      ++ [DataDumpClient.GetJobStatus job "dataDump" out] /\
    match out with
    | Raise e => r = Raise e
    | Ok js =>
        (DataDumpClient.status js = "SUCCEEDED"%string /\ r = Ok tt) \/
        (DataDumpClient.status js = "FAILED"%string /\
         r = Raise (Exception ("Job failed: "
                               ++ DataDumpClient.format_optional
                                    (DataDumpClient.message js)))) \/
        (DataDumpClient.status js <> "SUCCEEDED"%string /\
         DataDumpClient.status js <> "FAILED"%string /\
         exists e, r = Raise e /\
                   ((exists msg, e = TimeoutError msg) \/ (exists msg, e = ValueError msg)))
    end.
Proof.
  induction fuel as [|fuel IH]; intros w w' r Hrun.
  - discriminate.
  - cbn [DataDumpClient.wait_loop] in Hrun.
    unfold DataDumpClient.bind at 1 in Hrun. unfold DataDumpClient.call at 1 in Hrun.
    destruct (DataDumpClient.get_job_status env (DataDumpClient.log w) job "dataDump")
      as [js|e] eqn:Hget.
    2:{ injection Hrun as <- <-. exists [], (Raise e). simpl. auto. }
    destruct (String.eqb_spec (DataDumpClient.status js) "SUCCEEDED") as [Hs|Hs].
    { injection Hrun as <- <-. exists [], (Ok js). simpl. auto. }
    destruct (String.eqb_spec (DataDumpClient.status js) "FAILED") as [Hf|Hf].
    { injection Hrun as <- <-. exists [], (Ok js). simpl. auto. }
    unfold DataDumpClient.bind at 1 in Hrun. unfold DataDumpClient.time_time in Hrun.
    destruct (LoadDataClient.truthy_int timeout && _) in Hrun.
    { injection Hrun as <- <-. exists [], (Ok js). simpl.
      split; [reflexivity|]. right. right. split; [exact Hs|]. split; [exact Hf|].
      eexists. split; [reflexivity|]. left. eexists. reflexivity. }
    unfold DataDumpClient.bind at 1 in Hrun. unfold DataDumpClient.time_sleep in Hrun.
    destruct (poll_interval <? 0).
    { injection Hrun as <- <-. exists [], (Ok js). simpl.
      split; [reflexivity|]. right. right. split; [exact Hs|]. split; [exact Hf|].
      eexists. split; [reflexivity|]. right. eexists. reflexivity. }
    destruct (IH _ _ _ Hrun) as (waited & out & Hlog & Hout).
    exists (js :: waited), out.
    split; [rewrite Hlog; simpl; rewrite <- !app_assoc; reflexivity|exact Hout].
Qed.

(** When the dump job fails, [_wait_for_job_completion] raises an
    exception that carries the backend's message:
    [Exception("Job failed: <message>")]. *)
Theorem failed_dump_job_error_carries_message (fuel : nat) (job : string)
    (poll_interval : Z) (timeout : option Z) (w w' : DataDumpClient.world)
    (r : result unit) (h : list DataDumpClient.event) (j t : string)
    (js : DataDumpClient.JobStatus) (m : string) :
  DataDumpClient._wait_for_job_completion env fuel job poll_interval timeout w
    = Some (r, w') ->
  DataDumpClient.log w' = h ++ [DataDumpClient.GetJobStatus j t (Ok js)] ->
  DataDumpClient.status js = "FAILED"%string ->
  DataDumpClient.message js = Some m ->
  r = Raise (Exception ("Job failed: " ++ m)) /\
  contains m ("Job failed: " ++ m) = true.
Proof.
  intros Hrun Hlog Hfailed Hmsg.
  split; [|apply contains_suffix].
  unfold DataDumpClient._wait_for_job_completion, DataDumpClient.bind,
    DataDumpClient.time_time in Hrun.
  destruct (wait_loop_ends _ _ _ _ _ _ _ _ Hrun) as (waited & out & Hlog' & Hout).
  rewrite Hlog, app_assoc in Hlog'.
  apply app_inj_tail in Hlog'. destruct Hlog' as [_ [= _ _ <-]].
  destruct Hout as [[Hs _]|[[_ Hr]|(_ & Hf & _)]]; try congruence.
  rewrite Hr, Hmsg. reflexivity.
Qed.

Lemma string_drop_app (p s : string) :
  DataDumpClient.string_drop (String.length p) (p ++ s) = s.
Proof.
  induction p as [|c p IH]; simpl; [destruct s; reflexivity|exact IH].
Qed.

(** [_download_file], call by call. *)
Lemma _download_file_run (result_url local_filename : string) (w : DataDumpClient.world) :
  let full_url :=
    (DataDumpClient.host env ++ DataDumpClient.string_drop 5 result_url)%string in
  let hdrs := [("Authorization", "Bearer " ++ DataDumpClient.access_token env)]%string in
  let out := DataDumpClient.requests_get env (DataDumpClient.log w) full_url hdrs in
  let failed e :=
    Raise (Exception ("Failed to download file: " ++ DataDumpClient.exn_str env e)) in
  exists (r : result unit) (w' : DataDumpClient.world) (rest : list DataDumpClient.event),
    DataDumpClient._download_file env result_url local_filename w = Some (r, w') /\
    DataDumpClient.log w'
    = DataDumpClient.log w ++ DataDumpClient.RequestsGet full_url hdrs out :: rest /\
    match out with
    | Raise e => rest = [] /\ r = failed e
    | Ok response =>
        match DataDumpClient.raise_for_status response with
        | Raise e => rest = [] /\ r = failed e
        | Ok _ =>
            exists written,
              rest = [DataDumpClient.WriteFile local_filename
                        (DataDumpClient.content response) written] /\
              r = match written with
                  | Ok _ => Ok tt
                  | Raise e => failed e
                  end
        end
    end.
Proof.
  intros full_url hdrs out failed.
  unfold DataDumpClient._download_file, DataDumpClient.reraise.
  fold full_url. fold hdrs.
  unfold DataDumpClient.bind at 1. unfold DataDumpClient.call at 1.
  fold out.
  destruct out as [response|e].
  2:{ do 3 eexists. split; [reflexivity|]. split; [reflexivity|]. auto. }
  unfold DataDumpClient.bind at 1. unfold DataDumpClient.lift at 1.
  destruct (DataDumpClient.raise_for_status response) as [[]|e].
  2:{ do 3 eexists. split; [reflexivity|]. split; [reflexivity|]. auto. }
  unfold DataDumpClient.call.
  set (written := DataDumpClient.write_file env _ local_filename
                    (DataDumpClient.content response)).
  destruct written as [[]|e] eqn:Hwritten.
  - do 3 eexists. split; [reflexivity|].
    split; [simpl; rewrite <- app_assoc; reflexivity|].
    exists (Ok tt). auto.
  - do 3 eexists. split; [reflexivity|].
    split; [simpl; rewrite <- app_assoc; reflexivity|].
    exists (Raise e). auto.
Qed.

(** [_download_file] GETs the host followed by the result URL without its
    first five characters (whatever they are), with the bearer token; it
    writes the body to the local file only after an answer that is no
    4xx/5xx; and every failure, of the GET, of the status or of the write,
    is raised as [Exception("Failed to download file: <str(e)>")]. *)
Theorem download_file_behaviour (result_url local_filename : string)
    (w : DataDumpClient.world) :
  let full_url :=
    (DataDumpClient.host env ++ DataDumpClient.string_drop 5 result_url)%string in
  let hdrs := [("Authorization", "Bearer " ++ DataDumpClient.access_token env)]%string in
  let out := DataDumpClient.requests_get env (DataDumpClient.log w) full_url hdrs in
  let failed e :=
    Raise (Exception ("Failed to download file: " ++ DataDumpClient.exn_str env e)) in
  (forall p path, String.length p = 5%nat -> result_url = (p ++ path)%string ->
     full_url = (DataDumpClient.host env ++ path)%string) /\
  exists (r : result unit) (w' : DataDumpClient.world) (rest : list DataDumpClient.event),
    DataDumpClient._download_file env result_url local_filename w = Some (r, w') /\
    DataDumpClient.log w'
    = DataDumpClient.log w ++ DataDumpClient.RequestsGet full_url hdrs out :: rest /\
    match out with
    | Raise e => rest = [] /\ r = failed e
    | Ok response =>
        match DataDumpClient.raise_for_status response with
        | Raise e => rest = [] /\ r = failed e
        | Ok _ =>
            exists written,
              rest = [DataDumpClient.WriteFile local_filename
                        (DataDumpClient.content response) written] /\
              r = match written with
                  | Ok _ => Ok tt
                  | Raise e => failed e
                  end
        end
    end.
Proof.
  intros full_url hdrs out failed.
  split.
  - intros p path Hlen ->. unfold full_url.
    rewrite <- Hlen, string_drop_app. reflexivity.
  - apply _download_file_run.
Qed.

(** The result URL of a finished dump job is the [href] of the first link
    of its result, and only of the first: there is one exactly when the
    first link has a non-empty [href]; a first link without [href], or
    with an empty one, raises "No result file URL found in job response",
    whatever the later links are.  A result without links raises
    [IndexError]. *)
Theorem result_url_is_href_of_first_link (job_status : DataDumpClient.JobStatus)
    (url : string) :
  (DataDumpClient.result_url_of job_status = Ok url
   <-> exists link rest,
         DataDumpClient.result_links job_status = link :: rest /\
         LoadDataClient.dict_get link "href" = Some url /\
         url <> ""%string) /\
  (forall link rest,
     DataDumpClient.result_links job_status = link :: rest ->
     LoadDataClient.dict_get link "href" = None \/
     LoadDataClient.dict_get link "href" = Some ""%string ->
     DataDumpClient.result_url_of job_status
     = Raise (Exception "No result file URL found in job response")) /\
  (DataDumpClient.result_links job_status = [] ->
   DataDumpClient.result_url_of job_status
   = Raise (IndexError "list index out of range")).
Proof.
  unfold DataDumpClient.result_url_of.
  destruct (DataDumpClient.result_links job_status) as [|link rest].
  - split; [|split; [|reflexivity]].
    + split; [discriminate|]. intros (link & rest & Hnil & _). discriminate.
    + intros link rest Hnil. discriminate.
  - change (LoadDataClient.list_getitem (link :: rest) 0) with (Ok link).
    cbv beta iota.
    split; [|split; [|discriminate]].
    + destruct (LoadDataClient.dict_get link "href") as [u|] eqn:Hhref.
      * destruct (String.eqb_spec u "") as [->|Hu].
        -- split; [discriminate|].
           intros (l & rs & [= <- _] & Hh & Hne).
           rewrite Hhref in Hh. injection Hh as <-. contradiction.
        -- split.
           ++ intros [= <-]. exists link, rest. auto.
           ++ intros (l & rs & [= <- _] & Hh & _).
              rewrite Hhref in Hh. injection Hh as ->. reflexivity.
      * split; [discriminate|].
        intros (l & rs & [= <- _] & Hh & _). rewrite Hhref in Hh. discriminate.
    + intros l rs [= <- _] [Hnone|Hempty].
      * rewrite Hnone. reflexivity.
      * rewrite Hempty. reflexivity.
Qed.


End Dump.

(** ** The further properties at concrete inputs *)

Lemma utf8_len_nonneg (l : string) : 0 <= utf8_len l.
Proof. unfold utf8_len. lia. Qed.

Lemma split_file_single_part_witness :
  exists p,
    CSVFileSplitter.split_file utf8_len (small_fs small_csv) (entered 300) "data.csv" 5
      = Ok [p] /\
    CSVFileSplitter.part_number p = 1 /\
    CSVFileSplitter.content p = small_csv.
Proof.
  apply (split_file_single_part utf8_len (small_fs small_csv) (entered 300)
           "data.csv" 5 ("h" ++ nl)%string [("a" ++ nl)%string; ("b" ++ nl)%string]).
  - reflexivity.
  - reflexivity.
  - exact utf8_len_nonneg.
  - left. vm_compute. discriminate.
Defined.

Lemma split_file_later_parts_nonempty_witness :
  exists ps,
    CSVFileSplitter.split_file utf8_len (small_fs small_csv) (entered 3) "data.csv" 5
      = Ok ps /\
    (forall p, In p ps -> CSVFileSplitter.part_number p <> 1 ->
       CSVFileSplitter.rows_written p <> []) /\
    (List.length ps <= 2 + 1)%nat.
Proof.
  apply (split_file_later_parts_nonempty utf8_len (small_fs small_csv) (entered 3)
           "data.csv" 5 ("h" ++ nl)%string [("a" ++ nl)%string; ("b" ++ nl)%string]).
  - reflexivity.
  - reflexivity.
Defined.

Lemma split_file_parts_within_budget_witness :
  exists ps,
    CSVFileSplitter.split_file utf8_len (small_fs small_csv) (entered 4) "data.csv" 5
      = Ok ps /\
    forall p, In p (removelast ps) ->
      within_budget utf8_len 4 ("h" ++ nl)%string p /\
      (0 <= utf8_len ("h" ++ nl)%string ->
       total_bytes utf8_len (CSVFileSplitter.content p) <= 4 \/
       (List.length (CSVFileSplitter.rows_written p) <= 1)%nat).
Proof.
  apply (split_file_parts_within_budget utf8_len (small_fs small_csv) (entered 4)
           "data.csv" 5 ("h" ++ nl)%string [("a" ++ nl)%string; ("b" ++ nl)%string]).
  - reflexivity.
  - reflexivity.
Defined.

Lemma split_file_closes_parts_when_full_witness :
  exists ps,
    CSVFileSplitter.split_file utf8_len (small_fs small_csv) (entered 4) "data.csv" 5
      = Ok ps /\
    closed_when_full utf8_len 4 ("h" ++ nl)%string ps.
Proof.
  apply (split_file_closes_parts_when_full utf8_len (small_fs small_csv) (entered 4)
           "data.csv" 5 ("h" ++ nl)%string [("a" ++ nl)%string; ("b" ++ nl)%string]).
  - reflexivity.
  - reflexivity.
Defined.

Lemma split_file_part_files_distinct_witness :
  exists d ps,
    CSVFileSplitter.temp_dir (entered 3) = Some d /\
    CSVFileSplitter.split_file utf8_len (small_fs small_csv) (entered 3) "data.csv" 5
      = Ok ps /\
    (forall p, In p ps ->
       CSVFileSplitter.temp_file_path p
       = os_path_join d ("part_" ++ str (CSVFileSplitter.part_number p) ++ ".csv")) /\
    (ends_with_sep d = false ->
     forall p, In p ps ->
       CSVFileSplitter.temp_file_path p
       = (d ++ "/part_" ++ str (CSVFileSplitter.part_number p) ++ ".csv")%string) /\
    NoDup (map CSVFileSplitter.temp_file_path ps).
Proof.
  apply (split_file_part_files_distinct utf8_len (small_fs small_csv) (entered 3)
           "data.csv" 5 ("h" ++ nl)%string [("a" ++ nl)%string; ("b" ++ nl)%string]).
  - reflexivity.
  - reflexivity.
Defined.

Lemma upload_data_rejects_before_any_call_witness :
  let env := accepting_backend utf8_len (small_fs small_csv) [] in
  let self := LoadDataClient.__init__ LoadDataClient.default_chunk_size in
  LoadDataClient.upload_data utf8_len env 0 self "p1" "nope.csv" "stores" "append"
    true [] fresh
  = Some (Raise (FileNotFoundError "CSV file not found: nope.csv"), fresh) /\
  LoadDataClient.upload_data utf8_len env 0 self "p1" "data.csv" "stores" "append"
    true [] fresh
  = Some (Raise (ValueError
                   "Invalid data loading mode. Must be 'full' or 'incremental'."),
          fresh).
Proof.
  intros env self. split.
  - apply (proj1 (upload_data_rejects_before_any_call utf8_len env 0 self "p1"
                    "nope.csv" "stores" "append" true [] fresh)).
    reflexivity.
  - apply (proj2 (upload_data_rejects_before_any_call utf8_len env 0 self "p1"
                    "data.csv" "stores" "append" true [] fresh)).
    + discriminate.
    + discriminate.
    + discriminate.
Defined.

Lemma poll_job_status_ends_on_last_fetch_witness :
  let env := accepting_backend utf8_len (small_fs small_csv)
               [("RUNNING", None); ("FAILED", Some "disk full")]%string in
  exists w' waited out,
    LoadDataClient.poll_job_status env 2 "job-1" 5 None fresh = Some (Ok false, w') /\
    LoadDataClient.log w'
    = flat_map (fun js => [LoadDataClient.GetJobStatus "job-1" "dataPull" (Ok js);
                           LoadDataClient.Sleep 5]) waited
      ++ [LoadDataClient.GetJobStatus "job-1" "dataPull" out].
Proof.
  intros env.
  pose (w0 := match LoadDataClient.poll_job_status env 2 "job-1" 5 None fresh with
              | Some (_, w) => w
              | None => fresh
              end).
  assert (Hrun : LoadDataClient.poll_job_status env 2 "job-1" 5 None fresh
                 = Some (Ok false, w0)) by (vm_compute; reflexivity).
  destruct (poll_job_status_ends_on_last_fetch env 2 "job-1" 5 None fresh w0 (Ok false)
              Hrun) as (waited & out & Hlog & _).
  exists w0, waited, out. split; [exact Hrun|exact Hlog].
Defined.

Lemma snake_case_round_trip_witness :
  BaseClient._to_snake_case (BaseClient.to_class_name "data_upload_api")
  = "data_upload_api"%string.
Proof.
  apply (snake_case_round_trip ["data"; "upload"; "api"]%string).
  - discriminate.
  - repeat constructor.
Defined.

Lemma _get_api_caches_witness :
  let first := BaseClient._get_api two_api_sdk new_client "JobsApi" in
  BaseClient._get_api two_api_sdk (snd first) "JobsApi" = first /\
  (BaseClient.created (snd first) <= 1)%nat.
Proof.
  intros first.
  destruct (_get_api_caches two_api_sdk new_client (snd first) "JobsApi"
              {| BaseClient.api_class := "JobsApi"; BaseClient.serial := 0 |}
              eq_refl) as (Hagain & _ & Hcreated).
  split; [exact Hagain|exact Hcreated].
Defined.

Lemma __getattr___imports_module_of_that_name_witness :
  BaseClient.imported
    (snd (BaseClient.__getattr__ two_api_sdk "LoadDataClient" new_client
            "data_upload_api"))
  = ["cm_python_openapi_sdk.api.data_upload_api"%string] /\
  exists a self',
    BaseClient.__getattr__ two_api_sdk "LoadDataClient" new_client "data_upload_api"
      = (BaseClient.Returned a, self') /\
    BaseClient.api_class a = "DataUploadApi"%string.
Proof.
  destruct (__getattr___imports_module_of_that_name two_api_sdk "LoadDataClient"
              new_client ["data"; "upload"; "api"]%string ["DataUploadApi"%string])
    as (Himported & Hreturned).
  - discriminate.
  - repeat constructor.
  - reflexivity.
  - reflexivity.
  - split; [exact Himported|].
    destruct (Hreturned eq_refl (or_introl eq_refl)) as (a & self' & Hget & Hclass & _).
    exists a, self'. split; [exact Hget|exact Hclass].
Defined.

Lemma failed_dump_job_error_carries_message_witness :
  let env := dump_backend [("RUNNING", None); ("FAILED", Some "no such dataset")]%string
               [] "" in
  exists w',
    DataDumpClient._wait_for_job_completion env 2 "job-7" 5 None dump_fresh
    = Some (Raise (Exception "Job failed: no such dataset"), w') /\
    contains "no such dataset" "Job failed: no such dataset" = true.
Proof.
  intros env.
  pose (w0 := match DataDumpClient._wait_for_job_completion env 2 "job-7" 5 None
                      dump_fresh with
              | Some (_, w) => w
              | None => dump_fresh
              end).
  assert (Hrun : DataDumpClient._wait_for_job_completion env 2 "job-7" 5 None dump_fresh
                 = Some (Raise (Exception "Job failed: no such dataset"), w0))
    by (vm_compute; reflexivity).
  destruct (failed_dump_job_error_carries_message env 2 "job-7" 5 None dump_fresh w0
              (Raise (Exception "Job failed: no such dataset"))
              (removelast (DataDumpClient.log w0)) "job-7" "dataDump"
              {| DataDumpClient.status := "FAILED";
                 DataDumpClient.message := Some "no such dataset"%string;
                 DataDumpClient.result_links := [] |}
              "no such dataset" Hrun) as (_ & Hcontains).
  - vm_compute. reflexivity.
  - reflexivity.
  - reflexivity.
  - exists w0. split; [exact Hrun|exact Hcontains].
Defined.

